(** * SimpleTftp: the TFTP packet codec and transfer engine of [tftp.py]

    A shallow embedding of the protocol module of the client: the
    packing and unpacking functions of the five RFC 1350 packet kinds and
    the engine operations ([check_remote_file], [get_file], [put_file],
    [dir_file]), followed by the properties of the specification that
    hold (or fail) on them and by further properties of the code.

    Conventions of the embedding.
    - Python [bytes] are lists of [byte]; Python [int] is [Z]; a Python
      [str] is the list of its Unicode code points.
    - A Python call that may raise returns a [result]: [Ok v] or
      [Raise e] with [e] the exception object.
    - The UDP socket of an operation is modelled by the list of datagrams
      that will arrive on it (the inbox) and by the log of the datagrams
      handed to [sendto]; an exhausted inbox makes [recvfrom] raise
      [socket.timeout].  Time itself is not modelled: the inactivity
      timeout of 60 seconds is the event "nothing more arrives".
    - Each [while True] loop receives one datagram per iteration, so it
      is a recursion on the inbox.
    - The first calls of an operation that reach the operating system,
      [sendto] with the address the caller gave and [open] for writing,
      raise what the environment [Env] says; in [check_remote_file],
      [get_file] and [dir_file] they stand before the [try], so what
      they raise reaches the caller.  The replies of a transfer go to
      an address returned by [recvfrom] and are taken to leave; so is
      the request of [put_file], which is sent inside its [try]. *)

From Stdlib Require Import ZArith Lia List String Ascii DecimalString.
From Stdlib.Strings Require Import Byte.
From stdpp Require Import base option list gmap.

Local Open Scope Z_scope.

(** ** Python values *)

Definition bytes := list byte.

(** A [str] is a sequence of code points, each in [0 .. 0x10FFFF]. *)
Definition str := list Z.

Definition byte_val (b : byte) : Z := Z.of_N (Byte.to_N b).

Definition byte_of (z : Z) : byte :=
  match Byte.of_N (Z.to_N z) with
  | Some b => b
  | None => x00
  end.

(** A string literal of the source, as a [str]. *)
Definition py (s : string) : str :=
  (λ a, Z.of_N (N_of_ascii a)) <$> list_ascii_of_string s.

(** [str(n)] and the [{n}] of an f-string, for an [int]. *)
Definition str_of_int (n : Z) : str := py (NilZero.string_of_int (Z.to_int n)).

(** [len(x)] *)
Definition len {A} (l : list A) : Z := Z.of_nat (length l).

(** Python slicing [x[start:stop]] with step 1; [None] is an omitted
    bound, a negative bound counts from the end, and both are clamped
    to the length. *)
Definition slice_bound {A} (l : list A) (i : Z) : nat :=
  if i <? 0 then Z.to_nat (Z.max (len l + i) 0) else Z.to_nat (Z.min i (len l)).

Definition slice {A} (l : list A) (start stop : option Z) : list A :=
  let lo := from_option (slice_bound l) 0%nat start in
  let hi := from_option (slice_bound l) (length l) stop in
  take (hi - lo) (drop lo l).

(** ** Exceptions

    The exception classes the module defines or meets.  [TFTPValueError]
    derives from [ValueError]; [ProtocolError] derives from
    [NetworkError]; [Err] is the error sent by the server.  The others
    are the built-in ones raised by [struct], [bytes.index], the UTF-8
    codec, [open], the socket and [sys.exit]; [OSError] stands for the
    errors of the operating system other than [FileNotFoundError], as
    [socket.gaierror] and [PermissionError]. *)

Inductive exn :=
| TFTPValueError (msg : str)
| ProtocolError (msg : str)
| Err (error_code : Z) (error_msg : str)
| ValueError
| UnicodeEncodeError
| UnicodeDecodeError
| StructError
| FileNotFoundError
| SocketTimeout
| OverflowError
| OSError
| SystemExit (status : Z).


(** [isinstance(e, ProtocolError)] *)
Definition is_ProtocolError (e : exn) : bool :=
  match e with ProtocolError _ => true | _ => false end.

(** [isinstance(e, Exception)]: everything but [SystemExit], which
    derives from [BaseException] only. *)
Definition is_Exception (e : exn) : bool :=
  match e with SystemExit _ => false | _ => true end.

Inductive result (A : Type) :=
| Ok (a : A)
| Raise (e : exn).
Arguments Ok {A} a.
Arguments Raise {A} e.

#[global] Instance result_ret : MRet result := λ A a, Ok a.
#[global] Instance result_bind : MBind result := λ A B f r,
  match r with
  | Ok a => f a
  | Raise e => Raise e
  end.

Definition is_Ok {A} (r : result A) : bool :=
  match r with Ok _ => true | Raise _ => false end.

(** ** The [struct] formats the module uses *)

Module Struct.

(** One [H] field in network byte order; [struct.pack] raises
    [struct.error] outside [0 .. 65535]. *)
Definition pack_H (x : Z) : result bytes :=
  if (0 <=? x) && (x <=? 65535)
  then Ok [byte_of (Z.land (Z.shiftr x 8) 255); byte_of (Z.land x 255)]
  else Raise StructError.

(** A field [<n>s]: exactly [n] bytes, truncated or padded with NULs. *)
Definition pack_s (n : nat) (b : bytes) : bytes :=
  take n b ++ replicate (n - length b) x00.

(** [struct.unpack('!H', buf)]: the buffer must hold exactly 2 bytes. *)
Definition unpack_H (buf : bytes) : result Z :=
  match buf with
  | [b0; b1] => Ok (Z.lor (Z.shiftl (byte_val b0) 8) (byte_val b1))
  | _ => Raise StructError
  end.

(** [struct.unpack('!HH', buf)]: the buffer must hold exactly 4 bytes. *)
Definition unpack_HH (buf : bytes) : result (Z * Z) :=
  match buf with
  | [b0; b1; b2; b3] =>
      Ok (Z.lor (Z.shiftl (byte_val b0) 8) (byte_val b1),
          Z.lor (Z.shiftl (byte_val b2) 8) (byte_val b3))
  | _ => Raise StructError
  end.

End Struct.

(** ** [str.encode()] and [bytes.decode()]: strict UTF-8 *)

Module Utf8.

Definition is_surrogate (c : Z) : bool := (0xD800 <=? c) && (c <=? 0xDFFF).

(** The bytes of one code point.  A lone surrogate makes [str.encode()]
    raise; a number outside [0 .. 0x10FFFF] is no character of a [str]
    and is refused in the same way. *)

Definition encode_char (c : Z) : result bytes :=
  if c <? 0 then Raise UnicodeEncodeError
  else if c <? 0x80 then Ok [byte_of c]
  else if c <? 0x800 then
    Ok [byte_of (0xC0 + c / 64); byte_of (0x80 + c mod 64)]
  else if c <? 0x10000 then
    if is_surrogate c then Raise UnicodeEncodeError
    else Ok [byte_of (0xE0 + c / 4096); byte_of (0x80 + (c / 64) mod 64);
             byte_of (0x80 + c mod 64)]
  else if c <=? 0x10FFFF then
    Ok [byte_of (0xF0 + c / 262144); byte_of (0x80 + (c / 4096) mod 64);
        byte_of (0x80 + (c / 64) mod 64); byte_of (0x80 + c mod 64)]
  else Raise UnicodeEncodeError.

Fixpoint encode (s : str) : result bytes :=
  match s with
  | [] => Ok []
  | c :: s' => b ← encode_char c; r ← encode s'; Ok (b ++ r)
  end.

(** A continuation byte whose value lies in [lo .. hi]. *)
Definition cont (lo hi : Z) (b : byte) : bool :=
  (lo <=? byte_val b) && (byte_val b <=? hi).

Definition tail (b : byte) : Z := byte_val b - 0x80.

Fixpoint decode (b : bytes) : result str :=
  match b with
  | [] => Ok []
  | b0 :: r0 =>
      let v := byte_val b0 in
      if v <? 0x80 then s ← decode r0; Ok (v :: s)
      else if (0xC2 <=? v) && (v <=? 0xDF) then
        match r0 with
        | b1 :: r1 =>
            if cont 0x80 0xBF b1
            then s ← decode r1; Ok (((v - 0xC0) * 64 + tail b1) :: s)
            else Raise UnicodeDecodeError
        | _ => Raise UnicodeDecodeError
        end
      else if (0xE0 <=? v) && (v <=? 0xEF) then
        match r0 with
        | b1 :: b2 :: r2 =>
            if cont (if v =? 0xE0 then 0xA0 else 0x80)
                    (if v =? 0xED then 0x9F else 0xBF) b1
               && cont 0x80 0xBF b2
            then s ← decode r2;
                 Ok (((v - 0xE0) * 4096 + tail b1 * 64 + tail b2) :: s)
            else Raise UnicodeDecodeError
        | _ => Raise UnicodeDecodeError
        end
      else if (0xF0 <=? v) && (v <=? 0xF4) then
        match r0 with
        | b1 :: b2 :: b3 :: r3 =>
            if cont (if v =? 0xF0 then 0x90 else 0x80)
                    (if v =? 0xF4 then 0x8F else 0xBF) b1
               && cont 0x80 0xBF b2 && cont 0x80 0xBF b3
            then s ← decode r3;
                 Ok (((v - 0xF0) * 262144 + tail b1 * 4096
                      + tail b2 * 64 + tail b3) :: s)
            else Raise UnicodeDecodeError
        | _ => Raise UnicodeDecodeError
        end
      else Raise UnicodeDecodeError
  end.

End Utf8.

(** ** Protocol constants *)

Definition MAX_DATA_LEN : Z := 512.
Definition MAX_BLOCK_NUMBER : Z := 2 ^ 16 - 1.
Definition DEFAULT_MODE : str := py "octet".
Definition DEFAULT_BUFFER_SIZE : Z := 1024.

Definition RRQ : Z := 1.
Definition WRQ : Z := 2.
Definition DAT : Z := 3.
Definition ACK : Z := 4.
Definition ERR : Z := 5.

Definition ERR_NOT_DEFINED : Z := 0.
Definition ERR_FILE_NOT_FOUND : Z := 1.
Definition ERR_ACCESS_VIOLATION : Z := 2.
Definition DISK_FULL_OR_ALLOC_EXC : Z := 3.
Definition ILLEGAL_TFTP_OP : Z := 4.
Definition UNKOWN_TRANSF_ID : Z := 5.
Definition FILE_ALREADY_EXISTS : Z := 6.
Definition NO_SUCH_USER : Z := 7.

Definition ERROR_MESSAGES : gmap Z str :=
  <[ERR_NOT_DEFINED := py "Not defined, see error message(if any)."]>
  (<[ERR_FILE_NOT_FOUND := py "File not found"]>
  (<[ERR_ACCESS_VIOLATION := py "Access violation"]>
  (<[DISK_FULL_OR_ALLOC_EXC := py "Disk full or allocation exceeded."]>
  (<[ILLEGAL_TFTP_OP := py "Illegal TFTP operation"]>
  (<[UNKOWN_TRANSF_ID := py "Unkown Transfer ID"]>
  (<[FILE_ALREADY_EXISTS := py "File already exists"]>
  (<[NO_SUCH_USER := py "No such user"]> ∅))))))).

(** [string.printable]: digits, ASCII letters, punctuation, whitespace. *)
Definition string_printable : str :=
  py "0123456789abcdefghijklmnopqrstuvwxyzABCDEFGHIJKLMNOPQRSTUVWXYZ!"
  ++ [34] ++ py "#$%&'()*+,-./:;<=>?@[\]^_`{|}~ "
  ++ [9; 10; 13; 11; 12].

Definition is_ascii_printable (txt : str) : bool :=
  bool_decide (list_to_set (C := gset Z) txt ⊆ list_to_set string_printable).

(** ** Packet packing and unpacking *)

Definition unpack_opcode (packet : bytes) : result Z :=
  opcode ← Struct.unpack_H (slice packet None (Some 2));
  if bool_decide (opcode ∈ [RRQ; WRQ; DAT; ACK; ERR])
  then Ok opcode
  else Raise (TFTPValueError (py "Invalid opcode " ++ str_of_int opcode)).

Definition _pack_rrq_wrq (opcode : Z) (filename mode : str) : result bytes :=
  if negb (is_ascii_printable filename) then
    Raise (TFTPValueError
             (py "Invalid filename: " ++ filename ++ py ". Not ASCII printable"))
  else
    f ← Utf8.encode filename;
    let filename_bytes := f ++ [x00] in
    m ← Utf8.encode mode;
    let mode_bytes := m ++ [x00] in
    h ← Struct.pack_H opcode;
    Ok (h ++ Struct.pack_s (length filename_bytes) filename_bytes
          ++ Struct.pack_s (length mode_bytes) mode_bytes).

Definition pack_rrq (filename mode : str) : result bytes :=
  _pack_rrq_wrq RRQ filename mode.

Definition pack_wrq (filename mode : str) : result bytes :=
  _pack_rrq_wrq WRQ filename mode.

(** [packet.index(b'\x00', start)]: the first position at or after
    [start] holding a NUL; [ValueError] when there is none. *)
Fixpoint index_nul_from (pos : Z) (l : bytes) : result Z :=
  match l with
  | [] => Raise ValueError
  | b :: l' => if Byte.eqb b x00 then Ok pos else index_nul_from (pos + 1) l'
  end.

Definition index_nul (packet : bytes) (start : nat) : result Z :=
  index_nul_from (Z.of_nat (start `min` length packet)) (drop start packet).

Definition _unpack_rrq_wrq (opcode : Z) (packet : bytes) : result (str * str) :=
  received_opcode ← unpack_opcode packet;
  if negb (opcode =? received_opcode) then
    Raise (TFTPValueError
             (py "Invalid opcode: " ++ str_of_int received_opcode
              ++ py ". Expected opcode: " ++ str_of_int opcode))
  else
    delim_pos ← index_nul packet 2;
    filename ← Utf8.decode (slice packet (Some 2) (Some delim_pos));
    mode ← Utf8.decode (slice packet (Some (delim_pos + 1)) (Some (-1)));
    Ok (filename, mode).

Definition unpack_rrq (packet : bytes) : result (str * str) :=
  _unpack_rrq_wrq RRQ packet.

Definition unpack_wrq (packet : bytes) : result (str * str) :=
  _unpack_rrq_wrq WRQ packet.

Definition block_number_msg (block_number : Z) : str :=
  py "Block number " ++ str_of_int block_number
  ++ py " larger than allowed (" ++ str_of_int MAX_BLOCK_NUMBER ++ py ")".

Definition pack_dat (block_number : Z) (data : bytes) : result bytes :=
  if negb ((0 <=? block_number) && (block_number <=? MAX_BLOCK_NUMBER)) then
    Raise (TFTPValueError (block_number_msg block_number))
  else if len data >? MAX_DATA_LEN then
    Raise (TFTPValueError
             (py "Data size " ++ str_of_int block_number
              ++ py " larger than allowed (" ++ str_of_int MAX_DATA_LEN ++ py ")"))
  else
    h ← Struct.pack_H DAT;
    b ← Struct.pack_H block_number;
    Ok (h ++ b ++ Struct.pack_s (length data) data).

Definition unpack_dat (packet : bytes) : result (Z * bytes) :=
  '(opcode, block_number) ← Struct.unpack_HH (slice packet None (Some 4));
  if negb (opcode =? DAT) then
    Raise (TFTPValueError
             (py "Invalid opcode " ++ str_of_int opcode ++ py ". Expecting DAT=3."))
  else Ok (block_number, slice packet (Some 4) None).

Definition pack_ack (block_number : Z) : result bytes :=
  if negb ((0 <=? block_number) && (block_number <=? MAX_BLOCK_NUMBER)) then
    Raise (TFTPValueError (block_number_msg block_number))
  else
    h ← Struct.pack_H ACK;
    b ← Struct.pack_H block_number;
    Ok (h ++ b).

Definition unpack_ack (packet : bytes) : result Z :=
  '(opcode, block_number) ← Struct.unpack_HH packet;
  if negb (opcode =? ACK) then
    Raise (TFTPValueError
             (py "Invalid opcode " ++ str_of_int opcode ++ py ". Expecting DAT=3."))
  else Ok block_number.

Definition pack_err (error_code : Z) (error_msg : option str) : result bytes :=
  match ERROR_MESSAGES !! error_code with
  | None =>
      Raise (TFTPValueError (py "Invalid error code " ++ str_of_int error_code))
  | Some canonical =>
      let error_msg := default canonical error_msg in
      m ← Utf8.encode error_msg;
      let error_msg_bytes := m ++ [x00] in
      h ← Struct.pack_H ERR;
      c ← Struct.pack_H error_code;
      Ok (h ++ c ++ Struct.pack_s (length error_msg_bytes) error_msg_bytes)
  end.

Definition unpack_err (packet : bytes) : result (Z * str) :=
  '(opcode, error_code) ← Struct.unpack_HH (slice packet None (Some 4));
  if negb (opcode =? ERR) then
    Raise (TFTPValueError
             (py "Invalid opcode: " ++ str_of_int opcode
              ++ py ". Expected opcode: ERR=5"))
  else
    msg ← Utf8.decode (slice packet (Some 4) (Some (-1)));
    Ok (error_code, msg).

(** ** The transfer engine

    What an operation can observe and change: the datagrams handed to
    [sendto] (oldest first), the local files, the lines printed on the
    standard output and the position of the [tqdm] progress bar. *)

Definition addr : Type := str * Z.
Definition datagram : Type := bytes * addr.

Inductive line :=
| Text (s : str)         (* [print(s)] *)
| ErrorLine (e : exn).   (* [print(f"Error: {e}")] *)

Record world := World {
  sent : list datagram;
  files : gmap str bytes;
  stdout : list line;
  pbar : Z
}.

(** Code that raises and changes the world. *)
Definition M (A : Type) : Type := world → result A * world.

#[global] Instance M_ret : MRet M := λ A a w, (Ok a, w).
#[global] Instance M_bind : MBind M := λ A B f m w,
  match m w with
  | (Ok a, w') => f a w'
  | (Raise e, w') => (Raise e, w')
  end.

Definition lift {A} (r : result A) : M A := λ w, (r, w).
Definition raise {A} (e : exn) : M A := lift (Raise e).

(** What the operating system answers to the calls an operation makes
    before it awaits a datagram.  [sendto_error a] is what [sendto]
    raises for the address [a] given by the caller of the operation:
    [OverflowError] for a port outside 0..65535, an [OSError] for a host
    that does not resolve or cannot be sent to.  [open_error name] is
    what [open(name, 'wb')] raises: [FileNotFoundError] for the empty
    name or a directory that does not exist, another [OSError] when the
    file may not be written.  [None] means that the call goes through. *)
Class Env := {
  sendto_error : addr → option exn;
  open_error : str → option exn
}.

(** [sock.sendto(packet, a)], once the address is accepted: the datagram
    joins the log. *)
Definition sendto (packet : bytes) (a : addr) : M unit := λ w,
  (Ok (), World (sent w ++ [(packet, a)]) (files w) (stdout w) (pbar w)).

(** [sock.sendto(packet, (server, port))] with the address the caller of
    the operation gave. *)
Definition sendto_server {env : Env} (packet : bytes) (a : addr) : M unit := λ w,
  match sendto_error a with
  | Some e => (Raise e, w)
  | None => sendto packet a w
  end.

Definition print (l : line) : M unit := λ w,
  (Ok (), World (sent w) (files w) (stdout w ++ [l]) (pbar w)).

(** [tqdm(...)]: a fresh progress bar; [pbar.update(n)]. *)
Definition tqdm : M unit := λ w,
  (Ok (), World (sent w) (files w) (stdout w) 0).

Definition pbar_update (n : Z) : M unit := λ w,
  (Ok (), World (sent w) (files w) (stdout w) (pbar w + n)).

(** [open(name, 'wb')] creates or truncates the file, or raises and
    leaves the files as they are. *)
Definition open_wb {env : Env} (name : str) : M unit := λ w,
  match open_error name with
  | Some e => (Raise e, w)
  | None =>
      (Ok (), World (sent w) (<[name := []]> (files w)) (stdout w) (pbar w))
  end.

(** [out_file.write(data)] on the file opened under [name]. *)
Definition write (name : str) (data : bytes) : M unit := λ w,
  (Ok (), World (sent w)
                (<[name := default [] (files w !! name) ++ data]> (files w))
                (stdout w) (pbar w)).

(** [open(name, 'rb')]: the content still to be read. *)
Definition open_rb (name : str) : M bytes := λ w,
  match files w !! name with
  | Some content => (Ok content, w)
  | None => (Raise FileNotFoundError, w)
  end.

(** [sock.recvfrom(bufsize)] hands over at most [bufsize] bytes of the
    next datagram; the rest of a longer one is dropped. *)
Definition received (bufsize : Z) (dgram : bytes) : bytes :=
  take (Z.to_nat bufsize) dgram.

(** The handler of [get_file] and [put_file]:
    [except Exception as e: print(f"Error: {e}"); sys.exit(1)]. *)
Definition handle_exception {A} (r : result A) (w : world) : result A * world :=
  match r with
  | Raise e =>
      if is_Exception e
      then (Raise (SystemExit 1),
            World (sent w) (files w) (stdout w ++ [ErrorLine e]) (pbar w))
      else (Raise e, w)
  | Ok a => (Ok a, w)
  end.

Definition exit_on_exception {A} (m : M A) : M A := λ w,
  let '(r, w') := m w in handle_exception r w'.

(** How an iteration of a [while True] loop ends: by [return b], or by
    falling through to the next iteration with the loop variables [s]. *)
Inductive flow (S : Type) :=
| Return (b : bool)
| Continue (s : S).
Arguments Return {S} b.
Arguments Continue {S} s.

(** The result of an operation: what it returns or raises, the world it
    leaves, and the datagrams it did not receive. *)
Definition outcome : Type := result bool * world * list datagram.

(** *** [check_remote_file] *)

(** The body of the loop once a packet is there; every path returns or
    raises, so the loop never runs a second time. *)
Definition check_remote_file_reply (packet : bytes) : result bool :=
  opcode ← unpack_opcode packet;
  if opcode =? DAT then Ok true
  else if opcode =? ERR then
    '(error_code, _) ← unpack_err packet;
    if error_code =? ERR_FILE_NOT_FOUND then Ok false
    else Raise (Err error_code (py "File existence check error"))
  else
    Raise (ProtocolError (py "Unexpected opcode " ++ str_of_int opcode
                          ++ py ". Expected DAT=3 or ERR=5")).

Definition check_remote_file {env : Env} (server : str) (port : Z)
    (remote_filename : str) (inbox : list datagram) (w : world) : outcome :=
  match (rrq ← lift (pack_rrq remote_filename DEFAULT_MODE);
         sendto_server rrq (server, port)) w with
  | (Raise e, w') => (Raise e, w', inbox)
  | (Ok _, w') =>
      let '(r, inbox') :=
        match inbox with
        | [] => (Raise SocketTimeout, [])
        | (dgram, _) :: inbox' =>
            (check_remote_file_reply (received DEFAULT_BUFFER_SIZE dgram), inbox')
        end in
      match r with
      | Raise SocketTimeout => (Ok false, w', inbox')
      | _ => (r, w', inbox')
      end
  end.

(** *** [get_file] *)

(** One iteration of the loop, after [recvfrom]; the loop variables are
    [block_number] and [file_size]. *)
Definition get_file_step (local_filename : str) (block_number file_size : Z)
    (dat_packet : bytes) (server_addr : addr) : M (flow (Z * Z)) :=
  dat_opcode ← lift (unpack_opcode dat_packet);
  if dat_opcode =? DAT then
    '(dat_block_number, data) ← lift (unpack_dat dat_packet);
    if dat_block_number =? block_number then
      write local_filename data;;
      ack_packet ← lift (pack_ack block_number);
      sendto ack_packet server_addr;;
      pbar_update (len data);;
      let block_number := block_number + 1 in
      let file_size := file_size + len data in
      if len data <? MAX_DATA_LEN then mret (Return true)
      else mret (Continue (block_number, file_size))
    else
      raise (ProtocolError
               (py "Unexpected DAT block number: " ++ str_of_int dat_block_number
                ++ py ".Expecting: " ++ str_of_int block_number ++ py "."))
  else if dat_opcode =? ERR then
    '(error_code, error_msg) ← lift (unpack_err dat_packet);
    raise (Err error_code error_msg)
  else
    raise (ProtocolError
             (py "Invalid packet opcode: " ++ str_of_int dat_opcode
              ++ py ".Expecting DAT=3 or ERR=5.")).

(** The loop: [recvfrom] takes the next datagram of the inbox, or raises
    [socket.timeout] when there is none; whatever the iteration raises
    goes through the handler. *)
Fixpoint get_file_loop (local_filename : str) (inbox : list datagram)
    (block_number file_size : Z) (w : world) : outcome :=
  match inbox with
  | [] =>
      let '(r, w') := exit_on_exception (raise SocketTimeout) w in (r, w', [])
  | (dgram, server_addr) :: inbox' =>
      match exit_on_exception
              (get_file_step local_filename block_number file_size
                 (received DEFAULT_BUFFER_SIZE dgram) server_addr) w with
      | (Ok (Return b), w') => (Ok b, w', inbox')
      | (Ok (Continue (block_number', file_size')), w') =>
          get_file_loop local_filename inbox' block_number' file_size' w'
      | (Raise e, w') => (Raise e, w', inbox')
      end
  end.

Definition get_file {env : Env} (server : str) (port : Z)
    (remote_filename local_filename : str)
    (inbox : list datagram) (w : world) : outcome :=
  match (rrq ← lift (pack_rrq remote_filename DEFAULT_MODE);
         sendto_server rrq (server, port);;
         open_wb local_filename;;
         print (Text (py "Downloading '" ++ remote_filename
                      ++ py "' from server " ++ server ++ py "..."));;
         tqdm) w with
  | (Raise e, w') => (Raise e, w', inbox)
  | (Ok _, w') => get_file_loop local_filename inbox 1 0 w'
  end.

(** *** [put_file] *)

(** One iteration of the loop, after [recvfrom]; the loop variables are
    [block_number] and what is left to read of [in_file]. *)
Definition put_file_step (in_file : bytes) (block_number : Z)
    (ack_packet : bytes) (server_addr : addr) : M (flow (Z * bytes)) :=
  ack_opcode ← lift (unpack_opcode ack_packet);
  if ack_opcode =? ACK then
    ack_block_number ← lift (unpack_ack ack_packet);
    block_number ←
      (if ack_block_number =? block_number then mret (block_number + 1)
       else raise (ProtocolError
                     (py "Unexpected ACK block number: "
                      ++ str_of_int ack_block_number
                      ++ py ". Expecting: " ++ str_of_int block_number ++ py ".")));
    let data := take (Z.to_nat MAX_DATA_LEN) in_file in
    let in_file := drop (Z.to_nat MAX_DATA_LEN) in_file in
    dat_packet ← lift (pack_dat block_number data);
    sendto dat_packet server_addr;;
    pbar_update (len data);;
    if len data <? MAX_DATA_LEN then mret (Return true)
    else mret (Continue (block_number, in_file))
  else if ack_opcode =? ERR then
    '(error_code, error_msg) ← lift (unpack_err ack_packet);
    raise (Err error_code error_msg)
  else
    raise (ProtocolError
             (py "Invalid packet opcode: " ++ str_of_int ack_opcode
              ++ py ". Expecting ACK=4 or ERR=5.")).

(** The loop; the handler is around it, in [put_file]. *)
Fixpoint put_file_loop (inbox : list datagram) (in_file : bytes)
    (block_number : Z) (w : world) : outcome :=
  match inbox with
  | [] => (Raise SocketTimeout, w, [])
  | (dgram, server_addr) :: inbox' =>
      match put_file_step in_file block_number
              (received DEFAULT_BUFFER_SIZE dgram) server_addr w with
      | (Ok (Return b), w') => (Ok b, w', inbox')
      | (Ok (Continue (block_number', in_file')), w') =>
          put_file_loop inbox' in_file' block_number' w'
      | (Raise e, w') => (Raise e, w', inbox')
      end
  end.

(** The whole operation is inside the [try]: whatever is raised, the
    error of [open] included, is printed and ends the process.  The
    request is taken to leave; a failure of its [sendto] would end in
    the same handler. *)
Definition put_file (server : str) (port : Z) (local_filename remote_filename : str)
    (inbox : list datagram) (w : world) : outcome :=
  let server_addr := (server, port) in
  let '(r, w1, inbox') :=
    match (in_file ← open_rb local_filename;
           wrq ← lift (pack_wrq remote_filename DEFAULT_MODE);
           sendto wrq server_addr;;
           let file_size := len in_file in
           print (Text (py "Uploading '" ++ local_filename ++ py "' ("
                        ++ str_of_int file_size ++ py " bytes) to server at "
                        ++ server ++ py "..."));;
           tqdm;;
           mret in_file) w with
    | (Raise e, w') => (Raise e, w', inbox)
    | (Ok in_file, w') => put_file_loop inbox in_file 0 w'
    end in
  let '(r', w2) := handle_exception r w1 in
  (r', w2, inbox').

(** *** Repeated probes

    [n] successive calls of [check_remote_file] against an endpoint that
    never answers: each call opens its own socket, on which nothing
    arrives. *)
Fixpoint probe_repeatedly {env : Env} (n : nat) (server : str) (port : Z)
    (remote_filename : str) (w : world) : list (result bool) * world :=
  match n with
  | O => ([], w)
  | S n' =>
      let '(r, w', _) := check_remote_file server port remote_filename [] w in
      let '(rs, w'') := probe_repeatedly n' server port remote_filename w' in
      (r :: rs, w'')
  end.

(** ** Notions of the specification *)

(** The characters of [string.printable], by their code points: the
    whitespace controls TAB, LF, VT, FF, CR and the range from the space
    to the tilde. *)
Definition printable_char (c : Z) : bool :=
  ((9 <=? c) && (c <=? 13)) || ((32 <=? c) && (c <=? 126)).

(** A Unicode scalar value: a code point that is not a surrogate. *)
Definition is_scalar (c : Z) : bool :=
  (0 <=? c) && (c <=? 0x10FFFF) && negb (Utf8.is_surrogate c).

(** The bytes of an ASCII string. *)
Definition ascii_bytes (s : str) : bytes := byte_of <$> s.

(** An unsigned 16-bit integer in network byte order: the quotient by
    256, then the remainder. *)
Definition uint16_be (x : Z) : bytes := [byte_of (x / 256); byte_of (x mod 256)].

(** The Acks of [count] successive blocks starting at [first], all sent
    from the address [a]: what a server answers to an upload that goes
    well. *)
Definition ack_sequence (first : Z) (count : nat) (a : addr) : list datagram :=
  (λ i, ([x00; x04] ++ uint16_be (first + Z.of_nat i), a)) <$> seq 0 count.


(** *** [dir_file]

    The loop of [get_file] once more, without the progress bar: it ends
    with [break], so that the function returns [None], and the timeout
    has a handler of its own before the general one. *)

(** How an iteration of the loop of [dir_file] ends: by [break], or by
    falling through with the loop variable. *)
Inductive dir_flow :=
| Break
| Next (block_number : Z).

Definition dir_file_step (local_filename : str) (block_number : Z)
    (dat_packet : bytes) (server_addr : addr) : M dir_flow :=
  dat_opcode ← lift (unpack_opcode dat_packet);
  if dat_opcode =? DAT then
    '(dat_block_number, data) ← lift (unpack_dat dat_packet);
    if dat_block_number =? block_number then
      write local_filename data;;
      ack_packet ← lift (pack_ack block_number);
      sendto ack_packet server_addr;;
      let block_number := block_number + 1 in
      if len data <? MAX_DATA_LEN then mret Break
      else mret (Next block_number)
    else
      raise (ProtocolError
               (py "Unexpected DAT block number: " ++ str_of_int dat_block_number
                ++ py ".Expecting: " ++ str_of_int block_number ++ py "."))
  else if dat_opcode =? ERR then
    '(error_code, error_msg) ← lift (unpack_err dat_packet);
    raise (Err error_code error_msg)
  else
    raise (ProtocolError
             (py "Invalid packet opcode: " ++ str_of_int dat_opcode
              ++ py ".Expecting DAT=3 or ERR=5.")).

(** The two handlers of [dir_file]:
    [except socket.timeout: print("\nServer not responding. Exiting."); sys.exit(1)]
    and then [except Exception as e: print(f"Error: {e}"); sys.exit(1)]. *)
Definition dir_file_handlers {A} (r : result A) (w : world) : result A * world :=
  match r with
  | Raise SocketTimeout =>
      (Raise (SystemExit 1),
       World (sent w) (files w)
             (stdout w ++ [Text ([10] ++ py "Server not responding. Exiting.")])
             (pbar w))
  | _ => handle_exception r w
  end.

Fixpoint dir_file_loop (local_filename : str) (inbox : list datagram)
    (block_number : Z) (w : world) : result unit * world * list datagram :=
  match inbox with
  | [] =>
      let '(r, w') := dir_file_handlers (Raise SocketTimeout) w in (r, w', [])
  | (dgram, server_addr) :: inbox' =>
      let '(r, w1) :=
        dir_file_step local_filename block_number
          (received DEFAULT_BUFFER_SIZE dgram) server_addr w in
      match dir_file_handlers r w1 with
      | (Ok Break, w') => (Ok (), w', inbox')
      | (Ok (Next block_number'), w') =>
          dir_file_loop local_filename inbox' block_number' w'
      | (Raise e, w') => (Raise e, w', inbox')
      end
  end.

Definition dir_file {env : Env} (server : str) (port : Z)
    (remote_filename local_filename : str)
    (inbox : list datagram) (w : world) : result unit * world * list datagram :=
  let server_addr := (server, port) in
  match (rrq ← lift (pack_rrq remote_filename DEFAULT_MODE);
         sendto_server rrq server_addr;;
         open_wb local_filename) w with
  | (Raise e, w') => (Raise e, w', inbox)
  | (Ok _, w') => dir_file_loop local_filename inbox 1 w'
  end.

(** ** Well-behaved peers

    What a server sends for a download of [content]: the blocks of 512
    bytes, numbered from [first], all from the address [a]; then the last
    block, shorter than 512 bytes and possibly empty. *)
Fixpoint full_blocks (count : nat) (first : Z) (content : bytes) (a : addr)
    : list datagram :=
  match count with
  | O => []
  | S k =>
      ([x00; x03] ++ uint16_be first ++ take 512 content, a)
      :: full_blocks k (first + 1) (drop 512 content) a
  end.

Definition data_sequence (first : Z) (content : bytes) (a : addr) : list datagram :=
  let n := (length content / 512)%nat in
  full_blocks n first content a
  ++ [([x00; x03] ++ uint16_be (first + Z.of_nat n) ++ drop (512 * n) content, a)].

(** The datagrams of a log of sent datagrams, as they arrive at a peer
    that sees them come from the address [a]. *)
Definition arriving_from (a : addr) (log : list datagram) : list datagram :=
  (λ d, (d.1, a)) <$> log.

(** ** Datagrams that end a transfer *)

(** The exceptions that come out of the codec: its own
    [TFTPValueError], and those of [struct], [bytes.index] and the UTF-8
    codec. *)
Definition raised_by_codec (e : exn) : bool :=
  match e with
  | TFTPValueError _ | ValueError | UnicodeEncodeError | UnicodeDecodeError
  | StructError => true
  | _ => false
  end.

(** What an iteration of a loop raises when the datagram is not of the
    [expected] kind: the server's error for an Error packet, a protocol
    error for another legal opcode, the error of the decoder otherwise. *)
Definition rejection (expected : Z) (packet : bytes) (e : exn) : Prop :=
  (∀ c m, unpack_opcode packet = Ok ERR → unpack_err packet = Ok (c, m) →
          e = Err c m)
  ∧ (∀ o, unpack_opcode packet = Ok o → o ≠ expected → o ≠ ERR →
          ∃ msg, e = ProtocolError msg)
  ∧ (∀ e', unpack_opcode packet = Raise e' → e = e')
  ∧ (raised_by_codec e = true ∨ (∃ c m, e = Err c m) ∨ ∃ msg, e = ProtocolError msg).

(** ** The command line of [cliente.py]

    The branches [get] and [put] of [main], from the point where the
    arguments are read and [check_server] and [resolve_server_address]
    have returned.  Each engine operation opens a socket of its own, so
    the probe and the transfer have an inbox each; [os.path.exists] is
    the presence of the name among the files. *)

Definition main_get {env : Env} (server : str) (server_port : Z)
    (remote_file : str) (arg_local_file : option str)
    (probe_inbox inbox : list datagram) : M unit :=
  λ w,
  let local_file := default remote_file arg_local_file in
  match check_remote_file server server_port remote_file probe_inbox w with
  | (Raise e, w1, _) => (Raise e, w1)
  | (Ok false, w1, _) =>
      (print (Text (py "Error: The remote file '" ++ remote_file
                    ++ py "' does not exist on the server."));;
       raise (SystemExit 1)) w1
  | (Ok true, w1, _) =>
      match get_file server server_port remote_file local_file inbox w1 with
      | (Raise e, w2, _) => (Raise e, w2)
      | (Ok true, w2, _) =>
          print (Text (py "File '" ++ remote_file ++ py "' downloaded as '"
                       ++ local_file ++ py "'")) w2
      | (Ok false, w2, _) => (Ok (), w2)
      end
  end.

Definition main_put (server : str) (server_port : Z) (local_file : str)
    (arg_remote_file : option str) (inbox : list datagram) : M unit :=
  λ w,
  let remote_file := default local_file arg_remote_file in
  if negb (bool_decide (is_Some (files w !! local_file))) then
    (print (Text (py "Error: The local file '" ++ local_file
                  ++ py "' does not exist."));;
     raise (SystemExit 1)) w
  else
    match put_file server server_port local_file remote_file inbox w with
    | (Raise e, w2, _) => (Raise e, w2)
    | (Ok true, w2, _) =>
        print (Text (py "File '" ++ local_file ++ py "' uploaded as '"
                     ++ remote_file ++ py "'")) w2
    | (Ok false, w2, _) => (Ok (), w2)
    end.

(** ** An environment for the examples

    Every host resolves and can be sent to; [sendto] refuses a port
    outside 0..65535 with [OverflowError]; [open] refuses the empty name
    with [FileNotFoundError] and opens every other one. *)
Definition example_env : Env := {|
  sendto_error a :=
    if (0 <=? a.2) && (a.2 <=? 65535) then None else Some OverflowError;
  open_error name :=
    match name with
    | [] => Some FileNotFoundError
    | _ => None
    end
|}.

(** * Properties *)

(** ** The codec on concrete packets *)

Example ex_pack_rrq :
  pack_rrq (py "a.txt") DEFAULT_MODE
  = Ok ([x00; x01] ++ (byte_of <$> py "a.txt") ++ [x00]
        ++ (byte_of <$> py "octet") ++ [x00]).
Proof. vm_compute. reflexivity. Qed.

Example ex_unpack_rrq :
  (p ← pack_rrq (py "a.txt") DEFAULT_MODE; unpack_rrq p)
  = Ok (py "a.txt", py "octet").
Proof. vm_compute. reflexivity. Qed.

Example ex_pack_err : pack_err 1 None = Ok ([x00; x05; x00; x01] ++ (byte_of <$> py "File not found") ++ [x00]).
Proof. vm_compute. reflexivity. Qed.

Example ex_str_of_int : str_of_int (-65536) = py "-65536" /\ str_of_int 0 = py "0".
Proof. vm_compute. split; reflexivity. Qed.

Example ex_utf8 : Utf8.encode [0x20AC; 0x1F600; 0xE9] = Ok [xe2; x82; xac; xf0; x9f; x98; x80; xc3; xa9]
  /\ Utf8.decode [xe2; x82; xac; xf0; x9f; x98; x80; xc3; xa9] = Ok [0x20AC; 0x1F600; 0xE9].
Proof. vm_compute. split; reflexivity. Qed.

(** ** Bytes and 16-bit fields *)

Lemma byte_val_range (b : byte) : 0 <= byte_val b < 256.
Proof.
  unfold byte_val. pose proof (Byte.to_N_bounded b) as H.
  apply N2Z.inj_le in H. change (Z.of_N 255) with 255 in H. lia.
Qed.

Lemma byte_of_val (b : byte) : byte_of (byte_val b) = b.
Proof.
  unfold byte_of, byte_val. rewrite N2Z.id, Byte.of_to_N. reflexivity.
Qed.

Lemma byte_val_of (z : Z) : 0 <= z < 256 → byte_val (byte_of z) = z.
Proof.
  intros Hz. unfold byte_of, byte_val.
  destruct (Byte.of_N (Z.to_N z)) as [b|] eqn:E.
  - apply Byte.to_of_N in E. rewrite E. lia.
  - apply Byte.of_N_None_iff in E. lia.
Qed.

Lemma byte_of_inj (x y : Z) :
  0 <= x < 256 → 0 <= y < 256 → byte_of x = byte_of y → x = y.
Proof.
  intros Hx Hy E. rewrite <- (byte_val_of x Hx), <- (byte_val_of y Hy).
  congruence.
Qed.

Lemma byte_eqb_x00 (b : byte) : Byte.eqb b x00 = bool_decide (byte_val b = 0).
Proof.
  destruct (Byte.eqb b x00) eqn:E.
  - apply Byte.byte_dec_bl in E. subst. reflexivity.
  - symmetry. apply bool_decide_eq_false. intros H.
    rewrite <- (byte_of_val b), H in E. vm_compute in E. discriminate.
Qed.

Lemma lor_shiftl_8 (a b : Z) : 0 <= b < 256 → Z.lor (Z.shiftl a 8) b = a * 256 + b.
Proof.
  intros Hb.
  assert (Hland : Z.land (Z.shiftl a 8) b = 0).
  { apply Z.bits_inj'. intros n Hn. rewrite Z.land_spec, Z.bits_0.
    destruct (Z.ltb_spec n 8).
    - rewrite Z.shiftl_spec_low by lia. reflexivity.
    - rewrite (Z.bits_above_log2 b n), andb_false_r; [reflexivity|lia|].
      destruct (Z.eq_dec b 0) as [->|]; [simpl; lia|].
      apply Z.log2_lt_pow2; [lia|].
      apply Z.lt_le_trans with (2 ^ 8); [lia|].
      apply Z.pow_le_mono_r; lia. }
  pose proof (Z.add_lor_land (Z.shiftl a 8) b) as H.
  rewrite Hland in H. rewrite Z.shiftl_mul_pow2 in * by lia.
  change (2 ^ 8) with 256 in *. lia.
Qed.

Lemma land_255 (x : Z) : Z.land x 255 = x mod 256.
Proof. change 255 with (Z.ones 8). rewrite Z.land_ones by lia. reflexivity. Qed.

Lemma shiftr_8 (x : Z) : Z.shiftr x 8 = x / 256.
Proof. rewrite Z.shiftr_div_pow2 by lia. reflexivity. Qed.

(** The two bytes of a 16-bit field, most significant first. *)
Lemma pack_H_bytes (x : Z) :
  0 <= x <= 65535 →
  Struct.pack_H x = Ok [byte_of (x / 256); byte_of (x mod 256)].
Proof.
  intros Hx. unfold Struct.pack_H.
  destruct (Z.leb_spec 0 x); [|lia]. destruct (Z.leb_spec x 65535); [|lia].
  simpl. rewrite shiftr_8, !land_255.
  rewrite (Z.mod_small (x / 256) 256); [reflexivity|].
  split; [apply Z.div_pos; lia|apply Z.div_lt_upper_bound; lia].
Qed.

Lemma pack_H_range (x : Z) : ¬ (0 <= x <= 65535) → Struct.pack_H x = Raise StructError.
Proof.
  intros Hx. unfold Struct.pack_H.
  destruct (Z.leb_spec 0 x); destruct (Z.leb_spec x 65535); simpl; try reflexivity; lia.
Qed.

Lemma unpack_H_value (b0 b1 : byte) :
  Struct.unpack_H [b0; b1] = Ok (byte_val b0 * 256 + byte_val b1).
Proof.
  simpl. rewrite lor_shiftl_8 by apply byte_val_range. reflexivity.
Qed.

Lemma unpack_HH_value (b0 b1 b2 b3 : byte) :
  Struct.unpack_HH [b0; b1; b2; b3]
  = Ok (byte_val b0 * 256 + byte_val b1, byte_val b2 * 256 + byte_val b3).
Proof.
  simpl. rewrite !lor_shiftl_8 by apply byte_val_range. reflexivity.
Qed.

Lemma be16_value (x : Z) :
  0 <= x <= 65535 →
  byte_val (byte_of (x / 256)) * 256 + byte_val (byte_of (x mod 256)) = x.
Proof.
  intros Hx. rewrite !byte_val_of.
  - pose proof (Z.div_mod x 256). lia.
  - apply Z.mod_pos_bound. lia.
  - split; [apply Z.div_pos; lia|apply Z.div_lt_upper_bound; lia].
Qed.

Lemma pack_s_exact (b : bytes) : Struct.pack_s (length b) b = b.
Proof.
  unfold Struct.pack_s. rewrite firstn_all, Nat.sub_diag. simpl.
  apply app_nil_r.
Qed.

(** ** Slices *)

Lemma len_nonneg {A} (l : list A) : 0 <= len l.
Proof. unfold len. lia. Qed.

Lemma len_app {A} (l1 l2 : list A) : len (l1 ++ l2) = len l1 + len l2.
Proof. unfold len. rewrite length_app. lia. Qed.

Lemma slice_prefix {A} (l : list A) (n : Z) :
  0 <= n → slice l None (Some n) = take (Z.to_nat n) l.
Proof.
  intros Hn. unfold slice, slice_bound, len. simpl.
  destruct (Z.ltb_spec n 0); [lia|].
  rewrite drop_0, Nat.sub_0_r.
  destruct (Z.le_gt_cases n (Z.of_nat (length l))).
  - rewrite Z.min_l by lia. reflexivity.
  - rewrite Z.min_r by lia. rewrite Nat2Z.id.
    rewrite !take_ge; [reflexivity|lia|lia].
Qed.

Lemma slice_suffix {A} (l : list A) (n : Z) :
  0 <= n → slice l (Some n) None = drop (Z.to_nat n) l.
Proof.
  intros Hn. unfold slice, slice_bound, len. simpl.
  destruct (Z.ltb_spec n 0); [lia|].
  destruct (Z.le_gt_cases n (Z.of_nat (length l))).
  - rewrite Z.min_l by lia. apply take_ge. rewrite length_drop. lia.
  - rewrite Z.min_r by lia. rewrite Nat2Z.id.
    rewrite !drop_ge by lia. apply take_nil.
Qed.

(** [x[i:j]] of [pre ++ mid ++ post] when [i] and [j] delimit [mid]. *)
Lemma slice_middle {A} (pre mid post : list A) :
  slice (pre ++ mid ++ post) (Some (len pre)) (Some (len pre + len mid)) = mid.
Proof.
  unfold slice, slice_bound. simpl.
  pose proof (len_nonneg pre). pose proof (len_nonneg mid).
  pose proof (len_nonneg post).
  destruct (Z.ltb_spec (len pre) 0); [lia|].
  destruct (Z.ltb_spec (len pre + len mid) 0); [lia|].
  rewrite !len_app. rewrite !Z.min_l by lia.
  unfold len. rewrite Nat2Z.id.
  replace (Z.to_nat (Z.of_nat (length pre) + Z.of_nat (length mid)) - length pre)%nat
    with (length mid) by lia.
  rewrite drop_app_length. apply take_app_length.
Qed.

(** [x[i:-1]] of [pre ++ mid ++ [last]] when [i] is the length of [pre]. *)
Lemma slice_drop_last {A} (pre mid : list A) (last : A) :
  slice (pre ++ mid ++ [last]) (Some (len pre)) (Some (-1)) = mid.
Proof.
  unfold slice, slice_bound. simpl.
  pose proof (len_nonneg pre). pose proof (len_nonneg mid).
  destruct (Z.ltb_spec (len pre) 0); [lia|].
  rewrite !len_app. change (len [last]) with 1.
  rewrite Z.min_l, Z.max_l by lia.
  unfold len. rewrite Nat2Z.id.
  replace (Z.to_nat (Z.of_nat (length pre) + (Z.of_nat (length mid) + 1) + -1)
           - length pre)%nat with (length mid) by lia.
  rewrite drop_app_length. apply take_app_length.
Qed.

(** ** The UTF-8 codec *)

(** Case analysis on the comparisons of the goal, dropping the branches
    that contradict the arithmetic context. *)
Ltac zdiv := Z.div_mod_to_equations; lia.

Ltac zcases :=
  repeat match goal with
  | |- context [?a <? ?b] => destruct (Z.ltb_spec a b); try zdiv
  | |- context [?a <=? ?b] => destruct (Z.leb_spec a b); try zdiv
  | |- context [?a =? ?b] => destruct (Z.eqb_spec a b); try zdiv
  | |- context [andb true _] => rewrite andb_true_l
  | |- context [andb false _] => rewrite andb_false_l
  end.

(** How [decode] reads a well-formed sequence of 1, 2, 3 or 4 bytes. *)
Lemma decode_1 (b0 : byte) (r : bytes) :
  byte_val b0 < 0x80 →
  Utf8.decode (b0 :: r) = (s ← Utf8.decode r; Ok (byte_val b0 :: s)).
Proof. intros. cbn [Utf8.decode]. zcases. reflexivity. Qed.

Lemma decode_2 (b0 b1 : byte) (r : bytes) :
  0xC2 <= byte_val b0 <= 0xDF → 0x80 <= byte_val b1 <= 0xBF →
  Utf8.decode (b0 :: b1 :: r)
  = (s ← Utf8.decode r;
     Ok (((byte_val b0 - 0xC0) * 64 + (byte_val b1 - 0x80)) :: s)).
Proof.
  intros. remember (b1 :: r) as r0 eqn:E. cbn [Utf8.decode]. zcases.
  subst r0. unfold Utf8.cont, Utf8.tail. zcases. reflexivity.
Qed.

Lemma decode_3 (b0 b1 b2 : byte) (r : bytes) :
  0xE0 <= byte_val b0 <= 0xEF →
  (if byte_val b0 =? 0xE0 then 0xA0 else 0x80) <= byte_val b1
    <= (if byte_val b0 =? 0xED then 0x9F else 0xBF) →
  0x80 <= byte_val b2 <= 0xBF →
  Utf8.decode (b0 :: b1 :: b2 :: r)
  = (s ← Utf8.decode r;
     Ok (((byte_val b0 - 0xE0) * 4096 + (byte_val b1 - 0x80) * 64
          + (byte_val b2 - 0x80)) :: s)).
Proof.
  intros ? Hb1 ?. remember (b1 :: b2 :: r) as r0 eqn:E. cbn [Utf8.decode].
  revert Hb1.
  destruct (Z.eqb_spec (byte_val b0) 0xE0); destruct (Z.eqb_spec (byte_val b0) 0xED);
    try lia; intros Hb1.
  all: zcases; subst r0; unfold Utf8.cont, Utf8.tail; zcases; reflexivity.
Qed.

Lemma decode_4 (b0 b1 b2 b3 : byte) (r : bytes) :
  0xF0 <= byte_val b0 <= 0xF4 →
  (if byte_val b0 =? 0xF0 then 0x90 else 0x80) <= byte_val b1
    <= (if byte_val b0 =? 0xF4 then 0x8F else 0xBF) →
  0x80 <= byte_val b2 <= 0xBF → 0x80 <= byte_val b3 <= 0xBF →
  Utf8.decode (b0 :: b1 :: b2 :: b3 :: r)
  = (s ← Utf8.decode r;
     Ok (((byte_val b0 - 0xF0) * 262144 + (byte_val b1 - 0x80) * 4096
          + (byte_val b2 - 0x80) * 64 + (byte_val b3 - 0x80)) :: s)).
Proof.
  intros ? Hb1 ? ?. remember (b1 :: b2 :: b3 :: r) as r0 eqn:E.
  cbn [Utf8.decode]. revert Hb1.
  destruct (Z.eqb_spec (byte_val b0) 0xF0); destruct (Z.eqb_spec (byte_val b0) 0xF4);
    try lia; intros Hb1.
  all: zcases; subst r0; unfold Utf8.cont, Utf8.tail; zcases; reflexivity.
Qed.

(** What [encode] writes for one code point, [decode] reads back. *)
Lemma decode_encode_char (c : Z) (b r : bytes) :
  Utf8.encode_char c = Ok b →
  Utf8.decode (b ++ r) = (s ← Utf8.decode r; Ok (c :: s)).
Proof.
  unfold Utf8.encode_char, Utf8.is_surrogate.
  destruct (Z.ltb_spec c 0); [discriminate|].
  destruct (Z.ltb_spec c 0x80); [|destruct (Z.ltb_spec c 0x800);
    [|destruct (Z.ltb_spec c 0x10000); [|destruct (Z.leb_spec c 0x10FFFF)]]].
  - intros [= <-]. cbn [app]. rewrite decode_1; rewrite byte_val_of by lia;
      [reflexivity|lia].
  - intros [= <-]. cbn [app].
    rewrite decode_2; rewrite ?byte_val_of by zdiv; try zdiv.
    destruct (Utf8.decode r); [|reflexivity]. cbn. do 2 f_equal. zdiv.
  - destruct (Z.leb_spec 0xD800 c); destruct (Z.leb_spec c 0xDFFF);
      cbn [andb]; try discriminate.
    all: intros [= <-]; cbn [app].
    all: rewrite decode_3; rewrite ?byte_val_of by zdiv; try zdiv.
    all: try (zcases; zdiv).
    all: destruct (Utf8.decode r); [|reflexivity]; cbn; do 2 f_equal; zdiv.
  - intros [= <-]. cbn [app].
    rewrite decode_4; rewrite ?byte_val_of by zdiv; try zdiv.
    + destruct (Utf8.decode r); [|reflexivity]. cbn. do 2 f_equal. zdiv.
    + zcases; zdiv.
  - discriminate.
Qed.

Lemma decode_encode (s : str) (b : bytes) :
  Utf8.encode s = Ok b → Utf8.decode b = Ok s.
Proof.
  revert b. induction s as [|c s IH]; intros b.
  - intros [= <-]. reflexivity.
  - cbn [Utf8.encode].
    destruct (Utf8.encode_char c) as [bc|] eqn:Ec; [|discriminate].
    destruct (Utf8.encode s) as [bs|] eqn:Es; [|discriminate].
    intros [= <-]. rewrite (decode_encode_char c bc bs Ec), (IH bs eq_refl).
    reflexivity.
Qed.

Lemma encode_char_scalar (c : Z) :
  is_scalar c = true → is_Ok (Utf8.encode_char c) = true.
Proof.
  unfold is_scalar, Utf8.encode_char, Utf8.is_surrogate.
  destruct (Z.leb_spec 0 c); [|discriminate].
  destruct (Z.leb_spec c 0x10FFFF); [|discriminate].
  destruct ((0xD800 <=? c) && (c <=? 0xDFFF)); [discriminate|]. intros _.
  zcases; reflexivity.
Qed.

Lemma encode_scalar (s : str) :
  Forall (λ c, is_scalar c = true) s → ∃ b, Utf8.encode s = Ok b.
Proof.
  induction 1 as [|c s Hc _ [b IH]]; [by exists []|].
  apply encode_char_scalar in Hc. cbn [Utf8.encode]. rewrite IH.
  destruct (Utf8.encode_char c) as [bc|]; [|discriminate]. by exists (bc ++ b).
Qed.

(** An ASCII string is encoded byte for byte. *)
Lemma encode_ascii (s : str) :
  Forall (λ c, 0 <= c < 128) s → Utf8.encode s = Ok (ascii_bytes s).
Proof.
  induction 1 as [|c s Hc _ IH]; [reflexivity|].
  cbn [Utf8.encode]. rewrite IH. unfold Utf8.encode_char. zcases. reflexivity.
Qed.

Lemma decode_ascii (s : str) :
  Forall (λ c, 0 <= c < 128) s → Utf8.decode (ascii_bytes s) = Ok s.
Proof. intros H. apply decode_encode, encode_ascii, H. Qed.

(** Whatever the decoder refuses, it refuses with [UnicodeDecodeError]. *)
Lemma decode_raises (n : nat) :
  ∀ (b : bytes) (e : exn),
    (length b <= n)%nat → Utf8.decode b = Raise e → e = UnicodeDecodeError.
Proof.
  induction n as [|n IH]; intros b e Hl H.
  - destruct b; [discriminate H|simpl in Hl; lia].
  - destruct b as [|b0 r0]; [discriminate H|]. cbn [Utf8.decode] in H.
    cbn [length] in Hl.
    repeat match type of H with
      | (if ?c then _ else _) = _ => destruct c
      | match ?r with [] => _ | _ :: _ => _ end = _ =>
          destruct r; cbn [length] in Hl
      end.
    all: try (injection H as <-; reflexivity).
    all: match type of H with
         | (Utf8.decode ?r ≫= _) = _ =>
             destruct (Utf8.decode r) eqn:E;
               [discriminate H|injection H as <-; eapply IH; [|exact E]; lia]
         end.
Qed.

(** ** [string.printable] *)

Lemma elem_of_string_printable (c : Z) :
  c ∈ string_printable ↔ printable_char c = true.
Proof.
  split.
  - intros Hc. apply list_elem_of_In in Hc.
    assert (Hall : forallb printable_char string_printable = true)
      by (vm_compute; reflexivity).
    rewrite forallb_forall in Hall. apply Hall, Hc.
  - intros Hc.
    assert (Hr : 0 <= c < 127).
    { unfold printable_char in Hc. revert Hc. zcases; simpl; discriminate || lia. }
    assert (Hall : forallb (λ n, implb (printable_char (Z.of_nat n))
                                   (bool_decide (Z.of_nat n ∈ string_printable)))
                     (seq 0 127) = true) by (vm_compute; reflexivity).
    rewrite forallb_forall in Hall.
    assert (Hin : In (Z.to_nat c) (seq 0 127)) by (apply in_seq; lia).
    specialize (Hall (Z.to_nat c) Hin). rewrite Z2Nat.id in Hall by lia.
    rewrite Hc in Hall. simpl in Hall. apply bool_decide_eq_true in Hall.
    exact Hall.
Qed.

Lemma is_ascii_printable_Forall (txt : str) :
  is_ascii_printable txt = true ↔ Forall (λ c, c ∈ string_printable) txt.
Proof.
  unfold is_ascii_printable. rewrite bool_decide_eq_true, Forall_forall.
  split.
  - intros H c Hc. specialize (H c). rewrite !elem_of_list_to_set in H. auto.
  - intros H c. rewrite !elem_of_list_to_set. auto.
Qed.

Lemma is_ascii_printable_chars (txt : str) :
  is_ascii_printable txt = true ↔ Forall (λ c, printable_char c = true) txt.
Proof.
  rewrite is_ascii_printable_Forall. apply Forall_iff.
  intros c. apply elem_of_string_printable.
Qed.

Lemma printable_char_ascii (c : Z) : printable_char c = true → 1 <= c < 128.
Proof. unfold printable_char. zcases; simpl; discriminate || lia. Qed.

Lemma printable_ascii (txt : str) :
  is_ascii_printable txt = true → Forall (λ c, 1 <= c < 128) txt.
Proof.
  rewrite is_ascii_printable_chars. intros H.
  eapply Forall_impl; [exact H|]. intros c. apply printable_char_ascii.
Qed.

Lemma printable_encode (txt : str) :
  is_ascii_printable txt = true → Utf8.encode txt = Ok (ascii_bytes txt).
Proof.
  intros H. apply encode_ascii.
  eapply Forall_impl; [apply printable_ascii, H|]. simpl. intros c. lia.
Qed.

Lemma printable_app (s1 s2 : str) :
  is_ascii_printable (s1 ++ s2) = true
  ↔ is_ascii_printable s1 = true ∧ is_ascii_printable s2 = true.
Proof. rewrite !is_ascii_printable_Forall. apply Forall_app. Qed.

(** ** The table of error messages *)

Lemma error_messages_defined (code : Z) :
  0 <= code <= 7 → is_Some (ERROR_MESSAGES !! code).
Proof.
  intros H.
  assert (code = 0 ∨ code = 1 ∨ code = 2 ∨ code = 3 ∨ code = 4 ∨ code = 5
          ∨ code = 6 ∨ code = 7) as Hc by lia.
  repeat destruct Hc as [->|Hc]; try subst code; vm_compute; eauto.
Qed.

Lemma error_messages_undefined (code : Z) :
  ¬ (0 <= code <= 7) → ERROR_MESSAGES !! code = None.
Proof.
  intros H. unfold ERROR_MESSAGES, ERR_NOT_DEFINED, ERR_FILE_NOT_FOUND,
    ERR_ACCESS_VIOLATION, DISK_FULL_OR_ALLOC_EXC, ILLEGAL_TFTP_OP,
    UNKOWN_TRANSF_ID, FILE_ALREADY_EXISTS, NO_SUCH_USER.
  rewrite !lookup_insert_ne by lia. apply lookup_empty.
Qed.

(** ** Reading the leading fields of a packet *)

Lemma unpack_opcode_cons (b0 b1 : byte) (r : bytes) :
  unpack_opcode (b0 :: b1 :: r)
  = (let opcode := byte_val b0 * 256 + byte_val b1 in
     if bool_decide (opcode ∈ [RRQ; WRQ; DAT; ACK; ERR]) then Ok opcode
     else Raise (TFTPValueError (py "Invalid opcode " ++ str_of_int opcode))).
Proof.
  unfold unpack_opcode. rewrite slice_prefix by lia.
  change (take (Z.to_nat 2) (b0 :: b1 :: r)) with [b0; b1].
  rewrite unpack_H_value. reflexivity.
Qed.

Lemma unpack_opcode_short (packet : bytes) :
  (length packet < 2)%nat → unpack_opcode packet = Raise StructError.
Proof.
  intros H. destruct packet as [|b0 [|b1 r]]; simpl in H; try lia; reflexivity.
Qed.

Lemma unpack_opcode_uint16 (opcode : Z) (r : bytes) :
  opcode ∈ [RRQ; WRQ; DAT; ACK; ERR] →
  unpack_opcode (uint16_be opcode ++ r) = Ok opcode.
Proof.
  intros H. unfold uint16_be. cbn [app]. rewrite unpack_opcode_cons.
  cbv zeta. rewrite be16_value.
  - rewrite bool_decide_eq_true_2 by exact H. reflexivity.
  - unfold RRQ, WRQ, DAT, ACK, ERR in H.
    rewrite !elem_of_cons, elem_of_nil in H. lia.
Qed.

(** The first four bytes as two 16-bit fields. *)
Lemma header_fields (b0 b1 b2 b3 : byte) (r : bytes) :
  Struct.unpack_HH (slice (b0 :: b1 :: b2 :: b3 :: r) None (Some 4))
  = Ok (byte_val b0 * 256 + byte_val b1, byte_val b2 * 256 + byte_val b3).
Proof.
  rewrite slice_prefix by lia.
  change (take (Z.to_nat 4) (b0 :: b1 :: b2 :: b3 :: r)) with [b0; b1; b2; b3].
  apply unpack_HH_value.
Qed.

Lemma header_fields_short (packet : bytes) :
  (length packet < 4)%nat →
  Struct.unpack_HH (slice packet None (Some 4)) = Raise StructError.
Proof.
  intros H. rewrite slice_prefix by lia.
  destruct packet as [|b0 [|b1 [|b2 [|b3 r]]]]; simpl in H; try lia; reflexivity.
Qed.

Lemma header_fields_uint16 (x y : Z) (r : bytes) :
  0 <= x <= 65535 → 0 <= y <= 65535 →
  Struct.unpack_HH (slice (uint16_be x ++ uint16_be y ++ r) None (Some 4))
  = Ok (x, y).
Proof.
  intros Hx Hy. unfold uint16_be. cbn [app]. rewrite header_fields.
  rewrite !be16_value by assumption. reflexivity.
Qed.

(** ** Searching the NUL that ends the filename *)

Lemma index_nul_from_found (pos : Z) (pre post : bytes) :
  Forall (λ b, byte_val b ≠ 0) pre →
  index_nul_from pos (pre ++ x00 :: post) = Ok (pos + len pre).
Proof.
  intros H. revert pos. induction H as [|b pre Hb _ IH]; intros pos.
  - cbn [app index_nul_from]. change (Byte.eqb x00 x00) with true.
    cbv iota. f_equal. unfold len. cbn [length]. lia.
  - cbn [app index_nul_from]. rewrite byte_eqb_x00.
    rewrite bool_decide_eq_false_2 by exact Hb. rewrite IH. f_equal.
    unfold len. cbn [length]. lia.
Qed.

Lemma index_nul_from_absent (pos : Z) (l : bytes) :
  Forall (λ b, byte_val b ≠ 0) l → index_nul_from pos l = Raise ValueError.
Proof.
  intros H. revert pos. induction H as [|b l Hb _ IH]; intros pos; [reflexivity|].
  cbn [index_nul_from]. rewrite byte_eqb_x00.
  rewrite bool_decide_eq_false_2 by exact Hb. apply IH.
Qed.

Lemma ascii_bytes_no_nul (s : str) :
  Forall (λ c, 1 <= c < 128) s → Forall (λ b, byte_val b ≠ 0) (ascii_bytes s).
Proof.
  intros H. unfold ascii_bytes. apply Forall_fmap.
  eapply Forall_impl; [exact H|]. intros c Hc. simpl in *.
  rewrite byte_val_of by lia. lia.
Qed.

(** ** Encoders: the bytes they produce *)

Lemma bind_Ok {A B} (a : A) (f : A → result B) : (Ok a ≫= f) = f a.
Proof. reflexivity. Qed.

Lemma bind_Raise {A B} (e : exn) (f : A → result B) : (Raise e ≫= f) = Raise e.
Proof. reflexivity. Qed.

Lemma pack_request_wire (opcode : Z) (filename mode : str) (mb : bytes) :
  0 <= opcode <= 65535 →
  is_ascii_printable filename = true →
  Utf8.encode mode = Ok mb →
  _pack_rrq_wrq opcode filename mode
  = Ok (uint16_be opcode ++ ascii_bytes filename ++ [x00] ++ mb ++ [x00]).
Proof.
  intros Ho Hf Hm. unfold _pack_rrq_wrq. rewrite Hf. cbn [negb].
  rewrite (printable_encode _ Hf), Hm, pack_H_bytes by exact Ho.
  rewrite !bind_Ok, !pack_s_exact, <- !app_assoc. reflexivity.
Qed.

Lemma pack_dat_wire (block_number : Z) (data : bytes) :
  0 <= block_number <= 65535 → len data <= 512 →
  pack_dat block_number data = Ok ([x00; x03] ++ uint16_be block_number ++ data).
Proof.
  intros Hb Hd. unfold pack_dat, MAX_BLOCK_NUMBER, MAX_DATA_LEN.
  change (2 ^ 16 - 1) with 65535.
  destruct (Z.leb_spec 0 block_number); [|lia].
  destruct (Z.leb_spec block_number 65535); [|lia]. cbn [andb negb].
  destruct (Z.gtb_spec (len data) 512); [lia|].
  rewrite (pack_H_bytes block_number) by exact Hb.
  rewrite pack_s_exact. reflexivity.
Qed.

Lemma pack_ack_wire (block_number : Z) :
  0 <= block_number <= 65535 →
  pack_ack block_number = Ok ([x00; x04] ++ uint16_be block_number).
Proof.
  intros Hb. unfold pack_ack, MAX_BLOCK_NUMBER. change (2 ^ 16 - 1) with 65535.
  destruct (Z.leb_spec 0 block_number); [|lia].
  destruct (Z.leb_spec block_number 65535); [|lia]. cbn [andb negb].
  rewrite (pack_H_bytes block_number) by exact Hb. reflexivity.
Qed.

Lemma pack_err_wire (error_code : Z) (error_msg : option str)
    (canonical : str) (mb : bytes) :
  ERROR_MESSAGES !! error_code = Some canonical →
  Utf8.encode (default canonical error_msg) = Ok mb →
  pack_err error_code error_msg
  = Ok ([x00; x05] ++ uint16_be error_code ++ mb ++ [x00]).
Proof.
  intros Hc Hm. unfold pack_err. rewrite Hc, Hm.
  assert (0 <= error_code <= 7) as Hr.
  { destruct (decide (0 <= error_code <= 7)) as [|Hn]; [assumption|].
    rewrite (error_messages_undefined _ Hn) in Hc. discriminate. }
  rewrite (pack_H_bytes error_code) by lia.
  rewrite !bind_Ok, pack_s_exact. reflexivity.
Qed.

(** ** Decoders on framed packets *)

Lemma slice_between {A} (pre mid post : list A) (i j : Z) :
  i = len pre → j = len pre + len mid →
  slice (pre ++ mid ++ post) (Some i) (Some j) = mid.
Proof. intros -> ->. apply slice_middle. Qed.

Lemma slice_until_last {A} (pre mid : list A) (last : A) (i : Z) :
  i = len pre → slice (pre ++ mid ++ [last]) (Some i) (Some (-1)) = mid.
Proof. intros ->. apply slice_drop_last. Qed.

(** A request is split at the first NUL after the two opcode bytes; the
    mode is what lies between that NUL and the last byte. *)
Lemma request_framing (h name body : bytes) (last : byte) :
  length h = 2%nat → Forall (λ b, byte_val b ≠ 0) name →
  let packet := h ++ name ++ [x00] ++ body ++ [last] in
  index_nul packet 2 = Ok (2 + len name)
  ∧ slice packet (Some 2) (Some (2 + len name)) = name
  ∧ slice packet (Some (2 + len name + 1)) (Some (-1)) = body.
Proof.
  intros Hh Hn packet. subst packet. split; [|split].
  - unfold index_nul. rewrite length_app, Hh.
    replace (2 `min` (2 + length (name ++ [x00] ++ body ++ [last])))%nat
      with 2%nat by lia.
    rewrite <- Hh, drop_app_length, Hh.
    change (name ++ [x00] ++ body ++ [last]) with (name ++ x00 :: (body ++ [last])).
    rewrite index_nul_from_found by exact Hn. reflexivity.
  - apply slice_between; unfold len; rewrite Hh; reflexivity.
  - replace (h ++ name ++ [x00] ++ body ++ [last])
      with ((h ++ name ++ [x00]) ++ body ++ [last])
      by (rewrite <- !app_assoc; reflexivity).
    apply slice_until_last. unfold len. rewrite !length_app, Hh.
    cbn [length]. lia.
Qed.

Lemma unpack_request_framed (opcode : Z) (filename m : str)
    (body : bytes) (last : byte) :
  opcode ∈ [RRQ; WRQ] →
  Forall (λ c, 1 <= c < 128) filename →
  Utf8.decode body = Ok m →
  _unpack_rrq_wrq opcode
    (uint16_be opcode ++ ascii_bytes filename ++ [x00] ++ body ++ [last])
  = Ok (filename, m).
Proof.
  intros Ho Hf Hm. unfold _unpack_rrq_wrq.
  rewrite unpack_opcode_uint16, bind_Ok.
  2:{ rewrite !elem_of_cons in *. tauto. }
  rewrite Z.eqb_refl. cbn [negb].
  destruct (request_framing (uint16_be opcode) (ascii_bytes filename) body last)
    as (Hi & Hs1 & Hs2); [reflexivity|by apply ascii_bytes_no_nul|].
  rewrite Hi, bind_Ok, Hs1, Hs2, Hm.
  rewrite decode_ascii; [reflexivity|].
  eapply Forall_impl; [exact Hf|]. simpl. intros c. lia.
Qed.

Lemma unpack_dat_wire (block_number : Z) (data : bytes) :
  0 <= block_number <= 65535 →
  unpack_dat ([x00; x03] ++ uint16_be block_number ++ data)
  = Ok (block_number, data).
Proof.
  intros Hb. unfold unpack_dat.
  change [x00; x03] with (uint16_be DAT).
  rewrite header_fields_uint16 by (unfold DAT; lia). rewrite bind_Ok.
  cbn [negb Z.eqb DAT Pos.eqb]. rewrite slice_suffix by lia. reflexivity.
Qed.

Lemma unpack_ack_wire (block_number : Z) :
  0 <= block_number <= 65535 →
  unpack_ack ([x00; x04] ++ uint16_be block_number) = Ok block_number.
Proof.
  intros Hb. unfold unpack_ack, uint16_be. cbn [app].
  rewrite unpack_HH_value, be16_value by exact Hb. reflexivity.
Qed.

Lemma unpack_err_wire (error_code : Z) (body : bytes) (last : byte) (m : str) :
  0 <= error_code <= 65535 →
  Utf8.decode body = Ok m →
  unpack_err ([x00; x05] ++ uint16_be error_code ++ body ++ [last])
  = Ok (error_code, m).
Proof.
  intros Hc Hm. unfold unpack_err.
  change [x00; x05] with (uint16_be ERR).
  rewrite header_fields_uint16 by (unfold ERR; lia). rewrite bind_Ok.
  cbn [negb Z.eqb ERR Pos.eqb].
  replace (uint16_be ERR ++ uint16_be error_code ++ body ++ [last])
    with ((uint16_be ERR ++ uint16_be error_code) ++ body ++ [last])
    by (rewrite <- !app_assoc; reflexivity).
  rewrite slice_until_last by reflexivity. rewrite Hm. reflexivity.
Qed.

(** ** The wire format (C8) *)

Lemma uint16_be_bytes (hi lo : byte) :
  uint16_be (byte_val hi * 256 + byte_val lo) = [hi; lo].
Proof.
  pose proof (byte_val_range hi). pose proof (byte_val_range lo).
  unfold uint16_be.
  replace ((byte_val hi * 256 + byte_val lo) / 256) with (byte_val hi) by zdiv.
  replace ((byte_val hi * 256 + byte_val lo) mod 256) with (byte_val lo) by zdiv.
  rewrite !byte_of_val. reflexivity.
Qed.

Lemma opcode_bytes (b0 b1 : byte) (o : Z) :
  0 <= o < 256 → byte_val b0 * 256 + byte_val b1 = o →
  b0 = x00 ∧ b1 = byte_of o.
Proof.
  intros Ho H. pose proof (byte_val_range b0). pose proof (byte_val_range b1).
  assert (Hhi : byte_val b0 = 0) by lia. assert (Hlo : byte_val b1 = o) by lia.
  split.
  - rewrite <- (byte_of_val b0), Hhi. reflexivity.
  - rewrite <- (byte_of_val b1), Hlo. reflexivity.
Qed.

Lemma uint16_be_value (x : Z) :
  0 <= x <= 65535 →
  ∃ hi lo, uint16_be x = [hi; lo] ∧ byte_val hi * 256 + byte_val lo = x.
Proof.
  intros Hx. exists (byte_of (x / 256)), (byte_of (x mod 256)).
  split; [reflexivity|apply be16_value, Hx].
Qed.

(** C8. For valid fields every encoder produces the layout of the wire
    format table: a request is the opcode 0x0001 (read) or 0x0002
    (write), the filename, a NUL, the mode and a NUL; a Data packet is
    0x0003, the block number and the payload; an Ack is 0x0004 and the
    block number; an Error is 0x0005, the code, the message and a NUL.
    The block number and the error code take two bytes, the most
    significant first (network byte order). *)
Theorem encoders_wire_layout (filename mode : str) (block_number : Z)
    (data : bytes) (error_code : Z) (error_msg : str) :
  is_ascii_printable filename = true →
  is_ascii_printable mode = true →
  0 <= block_number <= 65535 →
  len data <= 512 →
  0 <= error_code <= 7 →
  Forall (λ c, 0 <= c < 128) error_msg →
  pack_rrq filename mode
    = Ok ([x00; x01] ++ ascii_bytes filename ++ [x00] ++ ascii_bytes mode ++ [x00])
  ∧ pack_wrq filename mode
    = Ok ([x00; x02] ++ ascii_bytes filename ++ [x00] ++ ascii_bytes mode ++ [x00])
  ∧ pack_dat block_number data = Ok ([x00; x03] ++ uint16_be block_number ++ data)
  ∧ pack_ack block_number = Ok ([x00; x04] ++ uint16_be block_number)
  ∧ pack_err error_code (Some error_msg)
    = Ok ([x00; x05] ++ uint16_be error_code ++ ascii_bytes error_msg ++ [x00])
  ∧ (∃ hi lo, uint16_be block_number = [hi; lo]
              ∧ byte_val hi * 256 + byte_val lo = block_number)
  ∧ (∃ hi lo, uint16_be error_code = [hi; lo]
              ∧ byte_val hi * 256 + byte_val lo = error_code).
Proof.
  intros Hf Hm Hb Hd Hc He.
  pose proof (printable_encode _ Hm) as Hmb.
  destruct (error_messages_defined error_code Hc) as [canonical Hcan].
  repeat split.
  - apply (pack_request_wire RRQ); [unfold RRQ; lia|assumption..].
  - apply (pack_request_wire WRQ); [unfold WRQ; lia|assumption..].
  - apply pack_dat_wire; assumption.
  - apply pack_ack_wire; assumption.
  - apply (pack_err_wire _ _ canonical); [assumption|].
    apply encode_ascii, He.
  - apply uint16_be_value, Hb.
  - apply uint16_be_value. lia.
Qed.

Lemma encoders_wire_layout_witness :
  is_ascii_printable (py "boot.img") = true
  ∧ pack_rrq (py "boot.img") (py "octet")
    = Ok ([x00; x01] ++ ascii_bytes (py "boot.img") ++ [x00]
          ++ ascii_bytes (py "octet") ++ [x00])
  ∧ pack_dat 258 [x41; x42] = Ok ([x00; x03] ++ uint16_be 258 ++ [x41; x42])
  ∧ uint16_be 258 = [x01; x02].
Proof.
  assert (Hf : is_ascii_printable (py "boot.img") = true) by (vm_compute; reflexivity).
  assert (Hm : is_ascii_printable (py "octet") = true) by (vm_compute; reflexivity).
  assert (He : Forall (λ c, 0 <= c < 128) (py "no")).
  { repeat constructor; vm_compute; congruence. }
  destruct (encoders_wire_layout (py "boot.img") (py "octet") 258 [x41; x42] 1
              (py "no") Hf Hm ltac:(lia) ltac:(unfold len; simpl; lia)
              ltac:(lia) He) as (H1 & _ & H3 & _).
  split; [exact Hf|]. split; [exact H1|]. split; [exact H3|]. reflexivity.
Defined.

(** ** Round trips (C1) *)

(** C1. Decoding what the encoder produced gives the fields back, for
    the five kinds of packet: a request with an ASCII-printable filename
    and mode, a Data packet with a block number in 0..65535 and at most
    512 bytes, an Ack with such a block number, an Error with one of the
    codes 0..7 and a message, given (any text without lone surrogates) or
    left to the table of canonical messages. *)
Theorem decode_encode_roundtrip (filename mode : str) (block_number : Z)
    (data : bytes) (error_code : Z) (error_msg : str) :
  is_ascii_printable filename = true →
  is_ascii_printable mode = true →
  0 <= block_number <= 65535 →
  len data <= 512 →
  0 <= error_code <= 7 →
  Forall (λ c, is_scalar c = true) error_msg →
  (∃ p, pack_rrq filename mode = Ok p ∧ unpack_rrq p = Ok (filename, mode))
  ∧ (∃ p, pack_wrq filename mode = Ok p ∧ unpack_wrq p = Ok (filename, mode))
  ∧ (∃ p, pack_dat block_number data = Ok p
          ∧ unpack_dat p = Ok (block_number, data))
  ∧ (∃ p, pack_ack block_number = Ok p ∧ unpack_ack p = Ok block_number)
  ∧ (∃ p, pack_err error_code (Some error_msg) = Ok p
          ∧ unpack_err p = Ok (error_code, error_msg))
  ∧ (∃ p canonical, ERROR_MESSAGES !! error_code = Some canonical
          ∧ pack_err error_code None = Ok p
          ∧ unpack_err p = Ok (error_code, canonical)).
Proof.
  intros Hf Hm Hb Hd Hc He.
  pose proof (printable_encode _ Hm) as Hmb.
  pose proof (printable_ascii _ Hf) as Hfa.
  destruct (error_messages_defined error_code Hc) as [canonical Hcan].
  destruct (encode_scalar _ He) as [eb Heb].
  assert (∃ cb, Utf8.encode canonical = Ok cb) as [cb Hcb].
  { assert (error_code = 0 ∨ error_code = 1 ∨ error_code = 2 ∨ error_code = 3
            ∨ error_code = 4 ∨ error_code = 5 ∨ error_code = 6 ∨ error_code = 7)
      as Hcs by lia.
    repeat destruct Hcs as [->|Hcs]; try subst error_code;
      vm_compute in Hcan; injection Hcan as <-; vm_compute; eauto. }
  split; [|split; [|split; [|split; [|split]]]].
  - eexists. split; [apply (pack_request_wire RRQ); [unfold RRQ; lia|eassumption..]|].
    apply (unpack_request_framed RRQ); [rewrite !elem_of_cons; tauto|assumption|].
    apply decode_encode, Hmb.
  - eexists. split; [apply (pack_request_wire WRQ); [unfold WRQ; lia|eassumption..]|].
    apply (unpack_request_framed WRQ); [rewrite !elem_of_cons; tauto|assumption|].
    apply decode_encode, Hmb.
  - eexists. split; [apply pack_dat_wire; assumption|].
    apply unpack_dat_wire, Hb.
  - eexists. split; [apply pack_ack_wire; assumption|].
    apply unpack_ack_wire, Hb.
  - eexists. split; [apply (pack_err_wire _ _ canonical); eassumption|].
    apply unpack_err_wire; [lia|]. apply decode_encode, Heb.
  - eexists _, canonical. split; [assumption|].
    split; [apply (pack_err_wire _ _ canonical); eassumption|].
    apply unpack_err_wire; [lia|]. apply decode_encode, Hcb.
Qed.

Lemma decode_encode_roundtrip_witness :
  is_ascii_printable (py "boot.img") = true
  ∧ (∃ p, pack_rrq (py "boot.img") (py "netascii") = Ok p
          ∧ unpack_rrq p = Ok (py "boot.img", py "netascii"))
  ∧ (∃ p, pack_dat 65535 [x00; xff] = Ok p ∧ unpack_dat p = Ok (65535, [x00; xff]))
  ∧ (∃ p, pack_err 2 (Some [0x4E; 0xE3; 0x6F; 0x20AC]) = Ok p
          ∧ unpack_err p = Ok (2, [0x4E; 0xE3; 0x6F; 0x20AC])).
Proof.
  assert (Hf : is_ascii_printable (py "boot.img") = true) by (vm_compute; reflexivity).
  assert (Hm : is_ascii_printable (py "netascii") = true) by (vm_compute; reflexivity).
  assert (He : Forall (λ c, is_scalar c = true) [0x4E; 0xE3; 0x6F; 0x20AC]).
  { repeat constructor. }
  destruct (decode_encode_roundtrip (py "boot.img") (py "netascii") 65535
              [x00; xff] 2 [0x4E; 0xE3; 0x6F; 0x20AC] Hf Hm ltac:(lia)
              ltac:(unfold len; simpl; lia) ltac:(lia) He)
    as (H1 & _ & H3 & _ & H5 & _).
  split; [exact Hf|]. split; [exact H1|]. split; [exact H3|exact H5].
Defined.

(** ** What the encoders refuse (C7) *)

Lemma pack_request_invalid (opcode : Z) (filename mode : str) :
  is_ascii_printable filename = false →
  _pack_rrq_wrq opcode filename mode
  = Raise (TFTPValueError
             (py "Invalid filename: " ++ filename ++ py ". Not ASCII printable")).
Proof. intros H. unfold _pack_rrq_wrq. rewrite H. reflexivity. Qed.

Lemma pack_dat_invalid (block_number : Z) (data : bytes) :
  ¬ (0 <= block_number <= 65535) ∨ 512 < len data →
  ∃ msg, pack_dat block_number data = Raise (TFTPValueError msg).
Proof.
  intros H. unfold pack_dat, MAX_BLOCK_NUMBER, MAX_DATA_LEN.
  change (2 ^ 16 - 1) with 65535.
  destruct (Z.leb_spec 0 block_number); cbn [andb negb]; [|eauto].
  destruct (Z.leb_spec block_number 65535); cbn [andb negb]; [|eauto].
  destruct (Z.gtb_spec (len data) 512); [eauto|lia].
Qed.

Lemma pack_ack_invalid (block_number : Z) :
  ¬ (0 <= block_number <= 65535) →
  pack_ack block_number = Raise (TFTPValueError (block_number_msg block_number)).
Proof.
  intros H. unfold pack_ack, MAX_BLOCK_NUMBER. change (2 ^ 16 - 1) with 65535.
  destruct (Z.leb_spec 0 block_number); cbn [andb negb]; [|reflexivity].
  destruct (Z.leb_spec block_number 65535); cbn [andb negb]; [lia|reflexivity].
Qed.

Lemma pack_err_invalid (error_code : Z) (error_msg : option str) :
  ¬ (0 <= error_code <= 7) →
  pack_err error_code error_msg
  = Raise (TFTPValueError (py "Invalid error code " ++ str_of_int error_code)).
Proof.
  intros H. unfold pack_err. rewrite (error_messages_undefined _ H). reflexivity.
Qed.



(** ** Data decoding does not check the payload (C9) *)

(** C9. [unpack_dat] accepts every packet of at least four bytes that
    starts with the opcode 3, whatever the length of the rest: it
    returns the block number written in the third and fourth bytes, the
    most significant first, and all the bytes after the header; with
    another leading 16-bit field the packet is refused.  When at most
    512 bytes follow the header, [pack_dat] gives the packet back from
    the decoded pair; when more than 512 bytes follow, the decoded pair
    is one that [pack_dat] refuses, so encoding does not undo decoding
    there. *)
Theorem unpack_dat_unchecked_payload (b0 b1 hi lo : byte) (payload : bytes) :
  let block_number := byte_val hi * 256 + byte_val lo in
  let packet := [x00; x03; hi; lo] ++ payload in
  unpack_dat packet = Ok (block_number, payload)
  ∧ 0 <= block_number <= 65535
  ∧ len packet = 4 + len payload
  ∧ (len payload <= 512 → pack_dat block_number payload = Ok packet)
  ∧ (512 < len payload →
     ∃ msg, pack_dat block_number payload = Raise (TFTPValueError msg))
  ∧ (byte_val b0 * 256 + byte_val b1 ≠ 3 →
     ∃ msg, unpack_dat ([b0; b1; hi; lo] ++ payload)
            = Raise (TFTPValueError msg)).
Proof.
  intros block_number packet. subst block_number packet.
  pose proof (byte_val_range hi). pose proof (byte_val_range lo).
  split; [|split; [|split; [|split; [|split]]]].
  - unfold unpack_dat. cbn [app]. rewrite header_fields, bind_Ok.
    change (byte_val x00 * 256 + byte_val x03 =? DAT) with true. cbn [negb].
    rewrite slice_suffix by lia. reflexivity.
  - lia.
  - unfold len. cbn [length app]. lia.
  - intros Hl. rewrite pack_dat_wire by lia. rewrite uint16_be_bytes. reflexivity.
  - intros Hl. apply pack_dat_invalid. right. exact Hl.
  - intros Ho. unfold unpack_dat. cbn [app]. rewrite header_fields, bind_Ok.
    destruct (Z.eqb_spec (byte_val b0 * 256 + byte_val b1) DAT) as [Hd|Hd];
      [unfold DAT in Hd; contradiction|]. cbn [negb]. eauto.
Qed.

Lemma unpack_dat_unchecked_payload_witness :
  unpack_dat ([x00; x03; x01; x02] ++ replicate 600 x41)
  = Ok (258, replicate 600 x41)
  ∧ 512 < len (replicate 600 x41)
  ∧ (∃ msg, pack_dat 258 (replicate 600 x41) = Raise (TFTPValueError msg))
  ∧ (∃ msg, unpack_dat ([x00; x04; x01; x02] ++ replicate 600 x41)
            = Raise (TFTPValueError msg)).
Proof.
  assert (Hl : 512 < len (replicate 600 x41)) by (vm_compute; reflexivity).
  destruct (unpack_dat_unchecked_payload x00 x04 x01 x02 (replicate 600 x41))
    as (Hu & _ & _ & _ & Hp & Ho).
  split; [exact Hu|]. split; [exact Hl|]. split; [exact (Hp Hl)|].
  apply Ho. vm_compute. discriminate.
Defined.

(** ** Printable filenames (C10) *)

(** C10. [is_ascii_printable] holds exactly of the strings made of
    characters of [string.printable]; TAB, LF, VT, FF and CR are among
    them.  So a request is encoded for a filename with a newline or a
    tab inside, and for the empty filename. *)
Theorem printable_filenames (txt before after : str) :
  (is_ascii_printable txt = true ↔ Forall (λ c, c ∈ string_printable) txt)
  ∧ Forall (λ c, c ∈ string_printable) [9; 10; 11; 12; 13]
  ∧ (is_ascii_printable before = true → is_ascii_printable after = true →
     ∀ c, c ∈ [9; 10] →
       is_Ok (pack_rrq (before ++ [c] ++ after) DEFAULT_MODE) = true
       ∧ is_Ok (pack_wrq (before ++ [c] ++ after) DEFAULT_MODE) = true)
  ∧ is_Ok (pack_rrq [] DEFAULT_MODE) = true
  ∧ is_Ok (pack_wrq [] DEFAULT_MODE) = true.
Proof.
  split; [apply is_ascii_printable_Forall|].
  split; [repeat constructor; apply elem_of_string_printable; reflexivity|].
  split; [|split; reflexivity].
  intros Hb Ha c Hc.
  assert (Hp : is_ascii_printable (before ++ [c] ++ after) = true).
  { apply printable_app. split; [exact Hb|]. apply printable_app.
    split; [|exact Ha]. apply is_ascii_printable_chars. repeat constructor.
    rewrite !elem_of_cons, elem_of_nil in Hc.
    destruct Hc as [->|[->|[]]]; reflexivity. }
  assert (Hm : Utf8.encode DEFAULT_MODE = Ok (ascii_bytes DEFAULT_MODE))
    by reflexivity.
  unfold pack_rrq, pack_wrq.
  rewrite (pack_request_wire RRQ _ _ _ ltac:(unfold RRQ; lia) Hp Hm).
  rewrite (pack_request_wire WRQ _ _ _ ltac:(unfold WRQ; lia) Hp Hm).
  split; reflexivity.
Qed.

Lemma printable_filenames_witness :
  is_ascii_printable (py "a") = true
  ∧ is_ascii_printable (py "b.txt") = true
  ∧ is_Ok (pack_rrq (py "a" ++ [10] ++ py "b.txt") DEFAULT_MODE) = true
  ∧ is_Ok (pack_wrq (py "a" ++ [9] ++ py "b.txt") DEFAULT_MODE) = true.
Proof.
  assert (Ha : is_ascii_printable (py "a") = true) by (vm_compute; reflexivity).
  assert (Hb : is_ascii_printable (py "b.txt") = true) by (vm_compute; reflexivity).
  destruct (printable_filenames [] (py "a") (py "b.txt")) as (_ & _ & H & _).
  split; [exact Ha|]. split; [exact Hb|].
  split.
  - apply (H Ha Hb 10). rewrite !elem_of_cons. tauto.
  - apply (H Ha Hb 9). rewrite !elem_of_cons. tauto.
Defined.

(** ** What the decoders refuse (C5) *)

Lemma unpack_request_mismatch (expected : Z) (packet : bytes) (opcode : Z) :
  Struct.unpack_H (slice packet None (Some 2)) = Ok opcode →
  opcode ≠ expected →
  ∃ msg, _unpack_rrq_wrq expected packet = Raise (TFTPValueError msg).
Proof.
  intros Ho Hne. unfold _unpack_rrq_wrq, unpack_opcode. rewrite Ho, bind_Ok.
  case_bool_decide; [|rewrite bind_Raise; eauto].
  rewrite bind_Ok. destruct (Z.eqb_spec expected opcode); [congruence|].
  cbn [negb]. eauto.
Qed.

Lemma unpack_request_no_nul (expected : Z) (packet : bytes) :
  unpack_opcode packet = Ok expected →
  Forall (λ b, byte_val b ≠ 0) (drop 2 packet) →
  _unpack_rrq_wrq expected packet = Raise ValueError.
Proof.
  intros Ho Hn. unfold _unpack_rrq_wrq. rewrite Ho, bind_Ok, Z.eqb_refl.
  cbn [negb]. unfold index_nul.
  rewrite index_nul_from_absent by exact Hn. reflexivity.
Qed.

(** The counterexample to C5 as stated: an illegal opcode is refused with
    [TFTPValueError], which is not a [ProtocolError]; and bytes after the
    NUL that ends the mode are not refused as such, they end up in the
    mode; only bytes that are not UTF-8 make the decoding of the mode
    fail, with the error of the UTF-8 codec. *)
Lemma decoders_reject_counterexample :
  unpack_opcode [x00; x09] = Raise (TFTPValueError (py "Invalid opcode 9"))
  ∧ (∀ e, unpack_opcode [x00; x09] = Raise e → is_ProtocolError e = false)
  ∧ (∀ e, unpack_dat [x00; x04; x00; x01] = Raise e → is_ProtocolError e = false)
  ∧ unpack_rrq ([x00; x01] ++ ascii_bytes (py "a") ++ [x00]
                ++ ascii_bytes (py "octet") ++ [x00] ++ ascii_bytes (py "XYZ"))
    = Ok (py "a", py "octet" ++ [0] ++ py "XY")
  ∧ unpack_rrq ([x00; x01] ++ ascii_bytes (py "a") ++ [x00]
                ++ ascii_bytes (py "octet") ++ [x00; xff; x00])
    = Raise UnicodeDecodeError.
Proof.
  split; [vm_compute; reflexivity|].
  split; [intros e; vm_compute; intros [= <-]; reflexivity|].
  split; [intros e; vm_compute; intros [= <-]; reflexivity|].
  split; vm_compute; reflexivity.
Qed.

(** A request whose bytes between the first NUL and the last byte are
    not UTF-8. *)
Lemma unpack_request_undecodable (opcode : Z) (filename : str)
    (body : bytes) (last : byte) (e : exn) :
  opcode ∈ [RRQ; WRQ] →
  Forall (λ c, 1 <= c < 128) filename →
  Utf8.decode body = Raise e →
  _unpack_rrq_wrq opcode
    (uint16_be opcode ++ ascii_bytes filename ++ [x00] ++ body ++ [last])
  = Raise e.
Proof.
  intros Ho Hf Hm. unfold _unpack_rrq_wrq.
  rewrite unpack_opcode_uint16, bind_Ok.
  2:{ rewrite !elem_of_cons in *. tauto. }
  rewrite Z.eqb_refl. cbn [negb].
  destruct (request_framing (uint16_be opcode) (ascii_bytes filename) body last)
    as (Hi & Hs1 & Hs2); [reflexivity|by apply ascii_bytes_no_nul|].
  rewrite Hi, bind_Ok, Hs1, Hs2, Hm.
  rewrite decode_ascii; [reflexivity|].
  eapply Forall_impl; [exact Hf|]. simpl. intros c. lia.
Qed.

(** C5, amended.  The decoders fail, and the exception is
    [TFTPValueError] (a [ValueError]), never [ProtocolError]: for
    [unpack_opcode] when the leading 16-bit field is not one of 1..5; for
    each decoder when that field is not the opcode of its kind (when the
    packet is too short for the fields the decoder reads, or not exactly
    four bytes for [unpack_ack], [struct] raises its own error first).
    A request without a NUL after the opcode makes the search for it
    raise [ValueError].  The framing after the first NUL is not checked:
    all the bytes between that NUL and the last byte of the packet,
    whatever they are, are decoded as UTF-8 and returned as the mode,
    further NULs and what follows them included; when they are not
    UTF-8 the request is refused with the error of the UTF-8 codec. *)
Theorem decoders_reject (packet : bytes) (opcode : Z)
    (filename mode garbage : str) (body : bytes) (last : byte) :
  Struct.unpack_H (slice packet None (Some 2)) = Ok opcode →
  is_ascii_printable filename = true →
  (opcode ∉ [RRQ; WRQ; DAT; ACK; ERR] →
   unpack_opcode packet
   = Raise (TFTPValueError (py "Invalid opcode " ++ str_of_int opcode)))
  ∧ (opcode ≠ DAT →
     ∃ e, unpack_dat packet = Raise e ∧ is_ProtocolError e = false
          ∧ (4 <= len packet → ∃ msg, e = TFTPValueError msg))
  ∧ (opcode ≠ ACK →
     ∃ e, unpack_ack packet = Raise e ∧ is_ProtocolError e = false
          ∧ (len packet = 4 → ∃ msg, e = TFTPValueError msg))
  ∧ (opcode ≠ ERR →
     ∃ e, unpack_err packet = Raise e ∧ is_ProtocolError e = false
          ∧ (4 <= len packet → ∃ msg, e = TFTPValueError msg))
  ∧ (opcode ≠ RRQ → ∃ msg, unpack_rrq packet = Raise (TFTPValueError msg))
  ∧ (opcode ≠ WRQ → ∃ msg, unpack_wrq packet = Raise (TFTPValueError msg))
  ∧ (Forall (λ b, byte_val b ≠ 0) (drop 2 packet) →
     (opcode = RRQ → unpack_rrq packet = Raise ValueError)
     ∧ (opcode = WRQ → unpack_wrq packet = Raise ValueError))
  ∧ match Utf8.decode body with
    | Ok m =>
        unpack_rrq ([x00; x01] ++ ascii_bytes filename ++ [x00] ++ body ++ [last])
        = Ok (filename, m)
        ∧ unpack_wrq ([x00; x02] ++ ascii_bytes filename ++ [x00]
                      ++ body ++ [last])
          = Ok (filename, m)
    | Raise _ =>
        unpack_rrq ([x00; x01] ++ ascii_bytes filename ++ [x00] ++ body ++ [last])
        = Raise UnicodeDecodeError
        ∧ unpack_wrq ([x00; x02] ++ ascii_bytes filename ++ [x00]
                      ++ body ++ [last])
          = Raise UnicodeDecodeError
    end
  ∧ (is_ascii_printable mode = true → is_ascii_printable garbage = true →
     unpack_rrq ([x00; x01] ++ ascii_bytes filename ++ [x00]
                 ++ (ascii_bytes mode ++ [x00] ++ ascii_bytes garbage) ++ [last])
     = Ok (filename, mode ++ [0] ++ garbage)).
Proof.
  intros Ho Hf.
  assert (Hop : ∀ o, o ∈ [RRQ; WRQ] → opcode = o → unpack_opcode packet = Ok o).
  { intros o Hin <-. unfold unpack_opcode. rewrite Ho, bind_Ok.
    rewrite bool_decide_eq_true_2; [reflexivity|].
    rewrite !elem_of_cons in *. tauto. }
  split; [|split; [|split; [|split; [|split; [|split; [|split; [|split]]]]]]].
  - intros Hn. unfold unpack_opcode. rewrite Ho, bind_Ok.
    rewrite bool_decide_eq_false_2 by exact Hn. reflexivity.
  - intros Hn. destruct packet as [|b0 [|b1 r]]; try discriminate Ho.
    rewrite slice_prefix in Ho by lia.
    change (take (Z.to_nat 2) (b0 :: b1 :: r)) with [b0; b1] in Ho.
    rewrite unpack_H_value in Ho. injection Ho as Ho. unfold unpack_dat.
    destruct r as [|b2 [|b3 r]].
    1,2: rewrite header_fields_short by (simpl; lia); eexists;
      split; [reflexivity|split; [reflexivity|unfold len; simpl; lia]].
    rewrite header_fields, bind_Ok, Ho.
    destruct (Z.eqb_spec opcode DAT); [contradiction|]. cbn [negb].
    eexists. split; [reflexivity|]. split; [reflexivity|eauto].
  - intros Hn. destruct packet as [|b0 [|b1 r]]; try discriminate Ho.
    rewrite slice_prefix in Ho by lia.
    change (take (Z.to_nat 2) (b0 :: b1 :: r)) with [b0; b1] in Ho.
    rewrite unpack_H_value in Ho. injection Ho as Ho. unfold unpack_ack.
    destruct r as [|b2 [|b3 [|b4 r]]].
    1,2,4: eexists; split; [reflexivity|split;
      [reflexivity|unfold len; simpl; lia]].
    rewrite unpack_HH_value, bind_Ok, Ho.
    destruct (Z.eqb_spec opcode ACK); [contradiction|]. cbn [negb].
    eexists. split; [reflexivity|]. split; [reflexivity|eauto].
  - intros Hn. destruct packet as [|b0 [|b1 r]]; try discriminate Ho.
    rewrite slice_prefix in Ho by lia.
    change (take (Z.to_nat 2) (b0 :: b1 :: r)) with [b0; b1] in Ho.
    rewrite unpack_H_value in Ho. injection Ho as Ho. unfold unpack_err.
    destruct r as [|b2 [|b3 r]].
    1,2: rewrite header_fields_short by (simpl; lia); eexists;
      split; [reflexivity|split; [reflexivity|unfold len; simpl; lia]].
    rewrite header_fields, bind_Ok, Ho.
    destruct (Z.eqb_spec opcode ERR); [contradiction|]. cbn [negb].
    eexists. split; [reflexivity|]. split; [reflexivity|eauto].
  - intros Hn. apply (unpack_request_mismatch RRQ packet opcode Ho Hn).
  - intros Hn. apply (unpack_request_mismatch WRQ packet opcode Ho Hn).
  - intros Hnul. split; intros Heq.
    + apply unpack_request_no_nul; [|exact Hnul].
      apply Hop; [rewrite !elem_of_cons; tauto|exact Heq].
    + apply unpack_request_no_nul; [|exact Hnul].
      apply Hop; [rewrite !elem_of_cons; tauto|exact Heq].
  - destruct (Utf8.decode body) as [m|e] eqn:Ed.
    + split.
      * apply (unpack_request_framed RRQ);
          [rewrite !elem_of_cons; tauto|apply printable_ascii, Hf|exact Ed].
      * apply (unpack_request_framed WRQ);
          [rewrite !elem_of_cons; tauto|apply printable_ascii, Hf|exact Ed].
    + rewrite (decode_raises _ _ _ (Nat.le_refl _) Ed) in Ed. split.
      * apply (unpack_request_undecodable RRQ);
          [rewrite !elem_of_cons; tauto|apply printable_ascii, Hf|exact Ed].
      * apply (unpack_request_undecodable WRQ);
          [rewrite !elem_of_cons; tauto|apply printable_ascii, Hf|exact Ed].
  - intros Hm Hg. apply (unpack_request_framed RRQ);
      [rewrite !elem_of_cons; tauto|apply printable_ascii, Hf|].
    apply decode_encode. change [x00] with (ascii_bytes [0]).
    unfold ascii_bytes. rewrite <- !fmap_app. apply encode_ascii.
    rewrite !Forall_app. split; [|split].
    + eapply Forall_impl; [apply printable_ascii, Hm|]. simpl. intros c. lia.
    + repeat constructor; lia.
    + eapply Forall_impl; [apply printable_ascii, Hg|]. simpl. intros c. lia.
Qed.

Lemma decoders_reject_witness :
  Struct.unpack_H (slice [x00; x09; x00; x01] None (Some 2)) = Ok 9
  ∧ is_ascii_printable (py "a.txt") = true
  ∧ unpack_opcode [x00; x09; x00; x01]
    = Raise (TFTPValueError (py "Invalid opcode " ++ str_of_int 9))
  ∧ (∃ msg, unpack_rrq [x00; x09; x00; x01] = Raise (TFTPValueError msg))
  ∧ unpack_rrq ([x00; x01] ++ ascii_bytes (py "a.txt") ++ [x00]
                ++ [x6f; x00; xff] ++ [x00])
    = Raise UnicodeDecodeError
  ∧ unpack_rrq ([x00; x01] ++ ascii_bytes (py "a.txt") ++ [x00]
                ++ (ascii_bytes (py "octet") ++ [x00] ++ ascii_bytes (py "xy"))
                ++ [xff])
    = Ok (py "a.txt", py "octet" ++ [0] ++ py "xy").
Proof.
  assert (Hf : is_ascii_printable (py "a.txt") = true) by (vm_compute; reflexivity).
  assert (Hm : is_ascii_printable (py "octet") = true) by (vm_compute; reflexivity).
  assert (Hg : is_ascii_printable (py "xy") = true) by (vm_compute; reflexivity).
  destruct (decoders_reject [x00; x09; x00; x01] 9 (py "a.txt") (py "octet")
              (py "xy") [x6f; x00; xff] x00 eq_refl Hf)
    as (H1 & _ & _ & _ & H5 & _ & _ & H8 & _).
  destruct (decoders_reject [x00; x09; x00; x01] 9 (py "a.txt") (py "octet")
              (py "xy") [] xff eq_refl Hf)
    as (_ & _ & _ & _ & _ & _ & _ & _ & H9).
  split; [reflexivity|]. split; [exact Hf|].
  split; [apply H1; rewrite !elem_of_cons, elem_of_nil;
          unfold RRQ, WRQ, DAT, ACK, ERR; lia|].
  split; [apply H5; unfold RRQ; lia|].
  split; [exact (proj1 H8)|exact (H9 Hm Hg)].
Defined.

(** ** The read transfer (C2) *)

Lemma unpack_dat_fields (packet : bytes) (block_number : Z) (data : bytes) :
  unpack_dat packet = Ok (block_number, data) →
  0 <= block_number <= 65535 ∧ data = drop 4 packet.
Proof.
  unfold unpack_dat. intros H.
  destruct packet as [|b0 [|b1 [|b2 [|b3 r]]]]; try discriminate H.
  rewrite header_fields, bind_Ok in H.
  destruct (negb _); [discriminate|]. injection H as <- <-.
  rewrite slice_suffix by lia.
  pose proof (byte_val_range b2). pose proof (byte_val_range b3).
  split; [lia|reflexivity].
Qed.

Lemma unpack_ack_fields (packet : bytes) (block_number : Z) :
  unpack_ack packet = Ok block_number →
  0 <= block_number <= 65535 ∧ length packet = 4%nat.
Proof.
  unfold unpack_ack. intros H.
  destruct packet as [|b0 [|b1 [|b2 [|b3 [|b4 r]]]]]; try discriminate H.
  rewrite unpack_HH_value, bind_Ok in H.
  destruct (negb _); [discriminate|]. injection H as <-.
  pose proof (byte_val_range b2). pose proof (byte_val_range b3).
  split; [lia|reflexivity].
Qed.

(** The effect of one iteration of [get_file] on the expected block. *)
Lemma get_file_step_data (local_filename : str) (block_number file_size : Z)
    (dat_packet : bytes) (server_addr : addr) (payload : bytes) (w : world) :
  unpack_opcode dat_packet = Ok DAT →
  unpack_dat dat_packet = Ok (block_number, payload) →
  get_file_step local_filename block_number file_size dat_packet server_addr w
  = (Ok (if len payload <? 512 then Return true
         else Continue (block_number + 1, file_size + len payload)),
     World (sent w ++ [([x00; x04] ++ uint16_be block_number, server_addr)])
           (<[local_filename := default [] (files w !! local_filename) ++ payload]>
              (files w))
           (stdout w) (pbar w + len payload)).
Proof.
  intros Ho Hd. destruct (unpack_dat_fields _ _ _ Hd) as [Hb _].
  unfold get_file_step, mbind, M_bind, lift. rewrite Ho.
  cbn [Z.eqb DAT Pos.eqb]. rewrite Hd, Z.eqb_refl.
  unfold write, sendto, pbar_update. cbn [sent files stdout pbar].
  rewrite (pack_ack_wire _ Hb). unfold MAX_DATA_LEN.
  destruct (len payload <? 512); reflexivity.
Qed.

Lemma get_file_loop_data (local_filename : str) (dgram : bytes)
    (server_addr : addr) (inbox : list datagram) (block_number file_size : Z)
    (payload : bytes) (w : world) :
  unpack_opcode (received DEFAULT_BUFFER_SIZE dgram) = Ok DAT →
  unpack_dat (received DEFAULT_BUFFER_SIZE dgram) = Ok (block_number, payload) →
  get_file_loop local_filename ((dgram, server_addr) :: inbox)
    block_number file_size w
  = let w' :=
      World (sent w ++ [([x00; x04] ++ uint16_be block_number, server_addr)])
            (<[local_filename := default [] (files w !! local_filename) ++ payload]>
               (files w))
            (stdout w) (pbar w + len payload) in
    if len payload <? 512 then (Ok true, w', inbox)
    else get_file_loop local_filename inbox (block_number + 1)
           (file_size + len payload) w'.
Proof.
  intros Ho Hd. cbn [get_file_loop]. unfold exit_on_exception.
  rewrite (get_file_step_data _ _ _ _ _ _ _ Ho Hd). cbn [handle_exception].
  destruct (len payload <? 512); reflexivity.
Qed.

Lemma received_short (dgram : bytes) :
  len dgram <= DEFAULT_BUFFER_SIZE → received DEFAULT_BUFFER_SIZE dgram = dgram.
Proof.
  unfold received, DEFAULT_BUFFER_SIZE, len. intros H. apply take_ge. lia.
Qed.

Lemma received_dat (block_number : Z) (data : bytes) :
  0 <= block_number <= 65535 → len data <= 512 →
  unpack_opcode (received DEFAULT_BUFFER_SIZE
                   ([x00; x03] ++ uint16_be block_number ++ data)) = Ok DAT
  ∧ unpack_dat (received DEFAULT_BUFFER_SIZE
                  ([x00; x03] ++ uint16_be block_number ++ data))
    = Ok (block_number, data).
Proof.
  intros Hb Hd. rewrite received_short.
  - split; [|apply unpack_dat_wire, Hb].
    change [x00; x03] with (uint16_be DAT).
    apply unpack_opcode_uint16. rewrite !elem_of_cons. tauto.
  - unfold DEFAULT_BUFFER_SIZE, len in *.
    rewrite !length_app. cbn [length uint16_be]. lia.
Qed.

(** What [get_file] does before its loop, when the filename can be
    encoded, the request leaves and the local file opens. *)
Lemma get_file_start {env : Env} (server : str) (port : Z)
    (remote_filename local_filename : str) (inbox : list datagram) (w : world) :
  is_ascii_printable remote_filename = true →
  sendto_error (server, port) = None →
  open_error local_filename = None →
  get_file server port remote_filename local_filename inbox w
  = get_file_loop local_filename inbox 1 0
      (World (sent w ++ [([x00; x01] ++ ascii_bytes remote_filename ++ [x00]
                            ++ ascii_bytes DEFAULT_MODE ++ [x00], (server, port))])
             (<[local_filename := []]> (files w))
             (stdout w ++ [Text (py "Downloading '" ++ remote_filename
                                 ++ py "' from server " ++ server ++ py "...")])
             0).
Proof.
  intros Hf Hs Ho.
  unfold get_file, pack_rrq, mbind, M_bind, lift, sendto_server, open_wb.
  rewrite (pack_request_wire RRQ remote_filename DEFAULT_MODE
             (ascii_bytes DEFAULT_MODE)); [|unfold RRQ; lia|exact Hf|reflexivity].
  rewrite Hs. cbn [sendto sent files stdout pbar]. rewrite Ho. reflexivity.
Qed.

(** What [get_file] raises to its caller before its loop: the error of
    [sendto], with nothing sent; the error of [open], with the request
    sent and no file touched. *)
Lemma get_file_sendto_raises {env : Env} (server : str) (port : Z)
    (remote_filename local_filename : str) (inbox : list datagram) (w : world)
    (e : exn) :
  is_ascii_printable remote_filename = true →
  sendto_error (server, port) = Some e →
  get_file server port remote_filename local_filename inbox w
  = (Raise e, w, inbox).
Proof.
  intros Hf Hs.
  unfold get_file, pack_rrq, mbind, M_bind, lift, sendto_server.
  rewrite (pack_request_wire RRQ remote_filename DEFAULT_MODE
             (ascii_bytes DEFAULT_MODE)); [|unfold RRQ; lia|exact Hf|reflexivity].
  rewrite Hs. reflexivity.
Qed.

Lemma get_file_open_raises {env : Env} (server : str) (port : Z)
    (remote_filename local_filename : str) (inbox : list datagram) (w : world)
    (e : exn) :
  is_ascii_printable remote_filename = true →
  sendto_error (server, port) = None →
  open_error local_filename = Some e →
  get_file server port remote_filename local_filename inbox w
  = (Raise e,
     World (sent w ++ [([x00; x01] ++ ascii_bytes remote_filename ++ [x00]
                          ++ ascii_bytes DEFAULT_MODE ++ [x00], (server, port))])
           (files w) (stdout w) (pbar w),
     inbox).
Proof.
  intros Hf Hs Ho.
  unfold get_file, pack_rrq, mbind, M_bind, lift, sendto_server, open_wb.
  rewrite (pack_request_wire RRQ remote_filename DEFAULT_MODE
             (ascii_bytes DEFAULT_MODE)); [|unfold RRQ; lia|exact Hf|reflexivity].
  rewrite Hs. cbn [sendto sent files stdout pbar]. rewrite Ho. reflexivity.
Qed.

Lemma get_file_two_blocks {env : Env} (server : str) (port : Z)
    (remote_filename local_filename : str) (a1 a2 : addr) (d1 d2 p1 p2 : bytes)
    (rest : list datagram) (w : world) :
  is_ascii_printable remote_filename = true →
  sendto_error (server, port) = None →
  open_error local_filename = None →
  length d1 = 512%nat → length d2 = 200%nat →
  pack_dat 1 d1 = Ok p1 → pack_dat 2 d2 = Ok p2 →
  ∃ rrq,
    pack_rrq remote_filename DEFAULT_MODE = Ok rrq
    ∧ get_file server port remote_filename local_filename
        ((p1, a1) :: (p2, a2) :: rest) w
      = (Ok true,
         World (sent w ++ [(rrq, (server, port));
                           ([x00; x04; x00; x01], a1);
                           ([x00; x04; x00; x02], a2)])
               (<[local_filename := d1 ++ d2]> (files w))
               (stdout w ++ [Text (py "Downloading '" ++ remote_filename
                                   ++ py "' from server " ++ server ++ py "...")])
               712,
         rest)
    ∧ length (d1 ++ d2) = 712%nat.
Proof.
  intros Hf Hs Ho Hl1 Hl2 Hp1 Hp2.
  assert (Hd1 : len d1 <= 512) by (unfold len; lia).
  assert (Hd2 : len d2 <= 512) by (unfold len; lia).
  rewrite pack_dat_wire in Hp1, Hp2 by lia. injection Hp1 as <-. injection Hp2 as <-.
  destruct (received_dat 1 d1 ltac:(lia) Hd1) as [Ho1 Hu1].
  destruct (received_dat 2 d2 ltac:(lia) Hd2) as [Ho2 Hu2].
  eexists. split; [apply (pack_request_wire RRQ); [unfold RRQ; lia|exact Hf|reflexivity]|].
  split; [|rewrite length_app; lia].
  rewrite get_file_start by assumption.
  rewrite (get_file_loop_data _ _ _ _ _ _ _ _ Ho1 Hu1). cbv zeta.
  replace (len d1 <? 512) with false by (unfold len; symmetry; apply Z.ltb_ge; lia).
  rewrite (get_file_loop_data _ _ _ _ _ _ _ _ Ho2 Hu2). cbv zeta.
  replace (len d2 <? 512) with true by (unfold len; symmetry; apply Z.ltb_lt; lia).
  cbn [sent files stdout pbar].
  rewrite lookup_insert_eq, insert_insert_eq. cbn [default].
  rewrite lookup_insert_eq, insert_insert_eq. cbn [default app].
  rewrite <- !app_assoc. unfold len. rewrite Hl1, Hl2. reflexivity.
Qed.

(** C2. On a Data packet carrying the expected block number, [get_file]
    appends the payload to the output file, sends the Ack of that block
    to the address the packet came from, counts the block, and returns
    [True] at once when the payload is shorter than 512 bytes; otherwise
    it goes on with the next datagram, expecting the next block.  Once
    the request has left and the output file is open, with a server that
    answers with block 1 of 512 bytes and block 2 of 200 bytes, from
    whatever addresses, the file holds the 712 bytes, the Acks 1 and 2
    follow the request in the log of sent datagrams, each to the address
    of its block, and the result is [True]; later datagrams stay
    unread. *)
Theorem get_file_data_blocks {env : Env} (server : str) (port : Z)
    (remote_filename local_filename : str) (dgram : bytes) (server_addr : addr)
    (inbox : list datagram) (block_number file_size : Z) (payload : bytes)
    (a1 a2 : addr) (d1 d2 p1 p2 : bytes) (w : world) :
  (unpack_opcode (received DEFAULT_BUFFER_SIZE dgram) = Ok DAT →
   unpack_dat (received DEFAULT_BUFFER_SIZE dgram) = Ok (block_number, payload) →
   pack_ack block_number = Ok ([x00; x04] ++ uint16_be block_number)
   ∧ get_file_loop local_filename ((dgram, server_addr) :: inbox)
       block_number file_size w
     = (let w' :=
          World (sent w ++ [([x00; x04] ++ uint16_be block_number, server_addr)])
                (<[local_filename := default [] (files w !! local_filename) ++ payload]>
                   (files w))
                (stdout w) (pbar w + len payload) in
        if len payload <? 512 then (Ok true, w', inbox)
        else get_file_loop local_filename inbox (block_number + 1)
               (file_size + len payload) w'))
  ∧ (is_ascii_printable remote_filename = true →
     sendto_error (server, port) = None →
     open_error local_filename = None →
     length d1 = 512%nat → length d2 = 200%nat →
     pack_dat 1 d1 = Ok p1 → pack_dat 2 d2 = Ok p2 →
     ∃ rrq,
       pack_rrq remote_filename DEFAULT_MODE = Ok rrq
       ∧ get_file server port remote_filename local_filename
           ((p1, a1) :: (p2, a2) :: inbox) w
         = (Ok true,
            World (sent w ++ [(rrq, (server, port));
                              ([x00; x04; x00; x01], a1);
                              ([x00; x04; x00; x02], a2)])
                  (<[local_filename := d1 ++ d2]> (files w))
                  (stdout w ++ [Text (py "Downloading '" ++ remote_filename
                                      ++ py "' from server " ++ server ++ py "...")])
                  712,
            inbox)
       ∧ length (d1 ++ d2) = 712%nat).
Proof.
  split.
  - intros Ho Hd. split.
    + apply pack_ack_wire. apply (unpack_dat_fields _ _ _ Hd).
    + apply get_file_loop_data; assumption.
  - intros Hf Hs Hop Hl1 Hl2 Hp1 Hp2. apply get_file_two_blocks; assumption.
Qed.

Lemma get_file_data_blocks_witness :
  unpack_dat (received DEFAULT_BUFFER_SIZE [x00; x03; x00; x05; x41; x42])
  = Ok (5, [x41; x42])
  ∧ pack_dat 1 (replicate 512 x41) = Ok ([x00; x03; x00; x01] ++ replicate 512 x41)
  ∧ get_file_loop (py "out")
      [([x00; x03; x00; x05; x41; x42], (py "srv", 4021))] 5 2048
      (World [] ∅ [] 2048)
    = (Ok true,
       World [([x00; x04; x00; x05], (py "srv", 4021))]
             {[ py "out" := [x41; x42] ]} [] 2050, [])
  ∧ fst (fst (get_file (env := example_env) (py "host") 69 (py "f.bin") (py "out")
                [([x00; x03; x00; x01] ++ replicate 512 x41, (py "srv", 4021));
                 ([x00; x03; x00; x02] ++ replicate 200 x42, (py "srv", 4022))]
                (World [] ∅ [] 0)))
    = Ok true.
Proof.
  assert (Hu : unpack_dat (received DEFAULT_BUFFER_SIZE [x00; x03; x00; x05; x41; x42])
               = Ok (5, [x41; x42])) by (vm_compute; reflexivity).
  assert (Hp1 : pack_dat 1 (replicate 512 x41)
                = Ok ([x00; x03; x00; x01] ++ replicate 512 x41))
    by (vm_compute; reflexivity).
  assert (Hp2 : pack_dat 2 (replicate 200 x42)
                = Ok ([x00; x03; x00; x02] ++ replicate 200 x42))
    by (vm_compute; reflexivity).
  destruct (get_file_data_blocks (env := example_env)
              (py "host") 69 (py "f.bin") (py "out")
              [x00; x03; x00; x05; x41; x42] (py "srv", 4021) [] 5 2048
              [x41; x42] (py "srv", 4021) (py "srv", 4022)
              (replicate 512 x41) (replicate 200 x42)
              ([x00; x03; x00; x01] ++ replicate 512 x41)
              ([x00; x03; x00; x02] ++ replicate 200 x42) (World [] ∅ [] 0))
    as [_ Hs].
  destruct (Hs ltac:(vm_compute; reflexivity) ltac:(reflexivity)
               ltac:(reflexivity) ltac:(apply length_replicate)
               ltac:(apply length_replicate) Hp1 Hp2) as (rrq & _ & Hg & _).
  destruct (get_file_data_blocks (env := example_env)
              (py "host") 69 (py "f.bin") (py "out")
              [x00; x03; x00; x05; x41; x42] (py "srv", 4021) [] 5 2048
              [x41; x42] (py "srv", 4021) (py "srv", 4022)
              [] [] [] [] (World [] ∅ [] 2048))
    as [Hb _].
  destruct (Hb ltac:(vm_compute; reflexivity) Hu) as [_ Hloop].
  split; [exact Hu|]. split; [exact Hp1|].
  split; [etransitivity; [exact Hloop|vm_compute; reflexivity]|].
  exact (f_equal (λ o : outcome, fst (fst o)) Hg).
Defined.

(** ** The write transfer (C3) *)

(** The effect of one iteration of [put_file] on the expected Ack, as
    long as the next block number is one the codec accepts. *)
Lemma put_file_step_ack (in_file : bytes) (block_number : Z)
    (ack_packet : bytes) (server_addr : addr) (w : world) :
  unpack_opcode ack_packet = Ok ACK →
  unpack_ack ack_packet = Ok block_number →
  block_number < 65535 →
  put_file_step in_file block_number ack_packet server_addr w
  = (Ok (if len (take 512 in_file) <? 512 then Return true
         else Continue (block_number + 1, drop 512 in_file)),
     World (sent w ++ [([x00; x03] ++ uint16_be (block_number + 1)
                          ++ take 512 in_file, server_addr)])
           (files w) (stdout w) (pbar w + len (take 512 in_file))).
Proof.
  intros Ho Ha Hlt. destruct (unpack_ack_fields _ _ Ha) as [Hb _].
  unfold put_file_step, mbind, M_bind, lift. rewrite Ho.
  cbn [Z.eqb ACK Pos.eqb]. rewrite Ha, Z.eqb_refl.
  unfold mret, M_ret, sendto, pbar_update. cbn [sent files stdout pbar].
  change (Z.to_nat MAX_DATA_LEN) with 512%nat.
  rewrite pack_dat_wire; [|lia|unfold len; rewrite length_take; lia].
  unfold MAX_DATA_LEN.
  destruct (len (take 512 in_file) <? 512); reflexivity.
Qed.

Lemma put_file_loop_ack (dgram : bytes) (server_addr : addr)
    (inbox : list datagram) (in_file : bytes) (block_number : Z) (w : world) :
  unpack_opcode (received DEFAULT_BUFFER_SIZE dgram) = Ok ACK →
  unpack_ack (received DEFAULT_BUFFER_SIZE dgram) = Ok block_number →
  block_number < 65535 →
  put_file_loop ((dgram, server_addr) :: inbox) in_file block_number w
  = let chunk := take 512 in_file in
    let w' :=
      World (sent w ++ [([x00; x03] ++ uint16_be (block_number + 1) ++ chunk,
                         server_addr)])
            (files w) (stdout w) (pbar w + len chunk) in
    if len chunk <? 512 then (Ok true, w', inbox)
    else put_file_loop inbox (drop 512 in_file) (block_number + 1) w'.
Proof.
  intros Ho Ha Hlt. cbn [put_file_loop].
  rewrite (put_file_step_ack _ _ _ _ _ Ho Ha Hlt). cbv zeta.
  destruct (len (take 512 in_file) <? 512); reflexivity.
Qed.

(** At the last block number the loop stops: block 65536 cannot be
    encoded, so nothing is sent for the Ack of block 65535. *)
Lemma put_file_loop_ack_last (dgram : bytes) (server_addr : addr)
    (inbox : list datagram) (in_file : bytes) (w : world) :
  unpack_opcode (received DEFAULT_BUFFER_SIZE dgram) = Ok ACK →
  unpack_ack (received DEFAULT_BUFFER_SIZE dgram) = Ok 65535 →
  put_file_loop ((dgram, server_addr) :: inbox) in_file 65535 w
  = (Raise (TFTPValueError (block_number_msg 65536)), w, inbox).
Proof.
  intros Ho Ha. cbn [put_file_loop].
  unfold put_file_step, mbind, M_bind, lift. rewrite Ho.
  cbn [Z.eqb ACK Pos.eqb]. rewrite Ha. destruct w; reflexivity.
Qed.

Lemma received_ack (block_number : Z) :
  0 <= block_number <= 65535 →
  unpack_opcode (received DEFAULT_BUFFER_SIZE ([x00; x04] ++ uint16_be block_number))
  = Ok ACK
  ∧ unpack_ack (received DEFAULT_BUFFER_SIZE ([x00; x04] ++ uint16_be block_number))
    = Ok block_number.
Proof.
  intros Hb. rewrite received_short by (vm_compute; discriminate).
  split; [|apply unpack_ack_wire, Hb].
  change [x00; x04] with (uint16_be ACK).
  apply unpack_opcode_uint16. rewrite !elem_of_cons. tauto.
Qed.

(** What [put_file] does before its loop and with the result of the loop. *)
Lemma put_file_start (server : str) (port : Z) (local_filename remote_filename : str)
    (content : bytes) (inbox : list datagram) (w : world) :
  files w !! local_filename = Some content →
  is_ascii_printable remote_filename = true →
  put_file server port local_filename remote_filename inbox w
  = let '(r, w1, inbox') :=
      put_file_loop inbox content 0
        (World (sent w ++ [([x00; x02] ++ ascii_bytes remote_filename ++ [x00]
                              ++ ascii_bytes DEFAULT_MODE ++ [x00], (server, port))])
               (files w)
               (stdout w ++ [Text (py "Uploading '" ++ local_filename ++ py "' ("
                                   ++ str_of_int (len content)
                                   ++ py " bytes) to server at "
                                   ++ server ++ py "...")])
               0) in
    let '(r', w2) := handle_exception r w1 in (r', w2, inbox').
Proof.
  intros Hc Hf. unfold put_file, pack_wrq, mbind, M_bind, lift, open_rb.
  rewrite Hc.
  rewrite (pack_request_wire WRQ remote_filename DEFAULT_MODE
             (ascii_bytes DEFAULT_MODE)); [reflexivity|unfold WRQ; lia|exact Hf|].
  reflexivity.
Qed.

Lemma put_file_two_blocks (server : str) (port : Z)
    (local_filename remote_filename : str) (content k0 k1 : bytes) (a0 a1 : addr)
    (rest : list datagram) (w : world) :
  files w !! local_filename = Some content →
  length content = 700%nat →
  is_ascii_printable remote_filename = true →
  pack_ack 0 = Ok k0 → pack_ack 1 = Ok k1 →
  ∃ wrq,
    pack_wrq remote_filename DEFAULT_MODE = Ok wrq
    ∧ put_file server port local_filename remote_filename
        ((k0, a0) :: (k1, a1) :: rest) w
      = (Ok true,
         World (sent w ++ [(wrq, (server, port));
                           ([x00; x03; x00; x01] ++ take 512 content, a0);
                           ([x00; x03; x00; x02] ++ drop 512 content, a1)])
               (files w)
               (stdout w ++ [Text (py "Uploading '" ++ local_filename
                                   ++ py "' (700 bytes) to server at "
                                   ++ server ++ py "...")])
               700,
         rest)
    ∧ length (take 512 content) = 512%nat
    ∧ length (drop 512 content) = 188%nat.
Proof.
  intros Hc Hl Hf Hk0 Hk1.
  rewrite pack_ack_wire in Hk0, Hk1 by lia. injection Hk0 as <-. injection Hk1 as <-.
  destruct (received_ack 0 ltac:(lia)) as [Ho0 Hu0].
  destruct (received_ack 1 ltac:(lia)) as [Ho1 Hu1].
  assert (Ht : length (take 512 content) = 512%nat) by (rewrite length_take; lia).
  assert (Hd : length (drop 512 content) = 188%nat) by (rewrite length_drop; lia).
  eexists. split; [apply (pack_request_wire WRQ); [unfold WRQ; lia|exact Hf|reflexivity]|].
  split; [|split; assumption].
  rewrite (put_file_start _ _ _ _ content) by assumption.
  rewrite (put_file_loop_ack _ _ _ _ _ _ Ho0 Hu0) by lia. cbv zeta.
  replace (len (take 512 content) <? 512) with false
    by (unfold len; rewrite Ht; reflexivity).
  rewrite (put_file_loop_ack _ _ _ _ _ _ Ho1 Hu1) by lia. cbv zeta.
  rewrite (take_ge (drop 512 content)) by lia.
  replace (len (drop 512 content) <? 512) with true
    by (unfold len; rewrite Hd; reflexivity).
  cbn [handle_exception sent files stdout pbar].
  unfold len. rewrite Ht, Hd, Hl, <- !app_assoc. reflexivity.
Qed.

Lemma ack_sequence_S (first : Z) (count : nat) (a : addr) :
  ack_sequence first (S count) a
  = ([x00; x04] ++ uint16_be first, a) :: ack_sequence (first + 1) count a.
Proof.
  unfold ack_sequence. cbn [seq fmap list_fmap].
  rewrite Z.add_0_r. f_equal. rewrite <- fmap_S_seq, <- list_fmap_compose.
  apply list_fmap_ext. intros _ i _. cbn.
  replace (first + Z.of_nat (S i)) with (first + 1 + Z.of_nat i) by lia.
  reflexivity.
Qed.

Lemma ack_sequence_snoc (first : Z) (count : nat) (a : addr) :
  ack_sequence first (S count) a
  = ack_sequence first count a
    ++ [([x00; x04] ++ uint16_be (first + Z.of_nat count), a)].
Proof. unfold ack_sequence. rewrite seq_S, fmap_app. reflexivity. Qed.

(** As long as full chunks are left to read and block numbers to count,
    a run of expected Acks takes the loop from one block to the next. *)
Lemma put_file_loop_progress (count : nat) (a : addr) :
  ∀ (in_file : bytes) (block_number : Z) (w : world) (rest : list datagram),
    0 <= block_number → block_number + Z.of_nat count <= 65535 →
    (512 * count <= length in_file)%nat →
    ∃ w',
      put_file_loop (ack_sequence block_number count a ++ rest)
        in_file block_number w
      = put_file_loop rest (drop (512 * count) in_file)
          (block_number + Z.of_nat count) w'
      ∧ length (sent w') = (length (sent w) + count)%nat
      ∧ files w' = files w ∧ stdout w' = stdout w.
Proof.
  induction count as [|count IH]; intros in_file block_number w rest Hb Hk Hl.
  - exists w. rewrite Nat.mul_0_r, drop_0, Z.add_0_r, Nat.add_0_r. auto.
  - rewrite ack_sequence_S. cbn [app].
    destruct (received_ack block_number ltac:(lia)) as [Ho Hu].
    rewrite (put_file_loop_ack _ _ _ _ _ _ Ho Hu) by lia. cbv zeta.
    replace (len (take 512 in_file) <? 512) with false
      by (unfold len; rewrite length_take; symmetry; apply Z.ltb_ge; lia).
    edestruct (IH (drop 512 in_file) (block_number + 1)) as (w' & Hrun & Hs & Hf & Ho');
      [lia|lia|rewrite length_drop; lia|].
    exists w'. rewrite Hrun, drop_drop, Hs, Hf, Ho'. cbn [sent files stdout].
    rewrite length_app. cbn [length].
    replace (512 + 512 * count)%nat with (512 * S count)%nat by lia.
    replace (block_number + 1 + Z.of_nat count)
      with (block_number + Z.of_nat (S count)) by lia.
    split; [reflexivity|]. split; [lia|auto].
Qed.

(** At the end of the block numbers, where the specification leaves the
    transfers out of its scope: an upload of 65535 full blocks.  Every
    Ack carries the expected block number; the Acks 0 to 65534 are each
    answered with the next block, but for the Ack of block 65535 nothing
    is sent: the block number 65536 is refused by [pack_dat], and
    [put_file] ends the process with status 1. *)
Lemma put_file_block_65535 :
  put_file_loop [([x00; x04; xff; xff], (py "srv", 4021))] [x41] 65535
    (World [] ∅ [] 0)
  = (Raise (TFTPValueError (block_number_msg 65536)), World [] ∅ [] 0, [])
  ∧ ∃ w',
      put_file (py "host") 69 (py "big.bin") (py "big.bin")
        (ack_sequence 0 (Z.to_nat 65536) (py "srv", 4021))
        (World [] {[ py "big.bin" := replicate (Z.to_nat (65535 * 512)) x00 ]} [] 0)
      = (Raise (SystemExit 1), w', [])
      ∧ length (sent w') = Z.to_nat 65536
      ∧ last (stdout w') = Some (ErrorLine (TFTPValueError (block_number_msg 65536))).
Proof.
  split; [vm_compute; reflexivity|].
  set (content := replicate (Z.to_nat (65535 * 512)) x00).
  assert (Hlen : length content = Z.to_nat (65535 * 512)) by apply length_replicate.
  rewrite (put_file_start _ _ _ _ content);
    [|apply lookup_singleton_eq|vm_compute; reflexivity].
  cbn [sent files stdout app].
  replace (Z.to_nat 65536) with (S (Z.to_nat 65535)) by lia.
  rewrite ack_sequence_snoc.
  replace (0 + Z.of_nat (Z.to_nat 65535)) with 65535 by lia.
  match goal with
  | |- context [put_file_loop (ack_sequence 0 ?k ?a ++ ?rest) content 0 ?w0] =>
      edestruct (put_file_loop_progress k a content 0 w0 rest)
        as (w' & Hrun & Hs & _ & Ho); [lia|lia|lia|]
  end.
  rewrite Hrun.
  replace (0 + Z.of_nat (Z.to_nat 65535)) with 65535 by lia.
  destruct (received_ack 65535 ltac:(lia)) as [Hop Hack].
  rewrite (put_file_loop_ack_last _ _ _ _ _ Hop Hack).
  cbn [handle_exception is_Exception].
  eexists. split; [reflexivity|]. cbn [sent stdout].
  split; [cbn [sent length] in Hs; lia|apply last_snoc].
Qed.

(** C3.  On an Ack carrying the expected block number, in a transfer
    short enough for the block numbers not to wrap (the Ack is below
    65535), [put_file] reads the next chunk of at most 512 bytes of the
    local file, counts the block, sends the Data packet with the new
    block number and that chunk to the address the Ack came from, and
    returns [True] at once when the chunk is shorter than 512 bytes,
    without receiving anything more; otherwise it goes on with the next
    datagram.  (On the Ack of block 65535, out of that scope, it sends
    nothing, the block number 65536 being refused by [pack_dat].)  For a
    local file of 700 bytes and the Acks 0 and 1, the Data packets 1
    (512 bytes) and 2 (188 bytes) follow the request in the log of sent
    datagrams and the result is [True]; later datagrams stay unread. *)
Theorem put_file_ack_blocks (server : str) (port : Z)
    (local_filename remote_filename : str) (dgram : bytes) (server_addr : addr)
    (inbox : list datagram) (in_file : bytes) (block_number : Z)
    (content k0 k1 : bytes) (a0 a1 : addr) (w : world) :
  (unpack_opcode (received DEFAULT_BUFFER_SIZE dgram) = Ok ACK →
   unpack_ack (received DEFAULT_BUFFER_SIZE dgram) = Ok block_number →
   (block_number < 65535 →
    pack_dat (block_number + 1) (take 512 in_file)
    = Ok ([x00; x03] ++ uint16_be (block_number + 1) ++ take 512 in_file)
    ∧ put_file_loop ((dgram, server_addr) :: inbox) in_file block_number w
      = (let chunk := take 512 in_file in
         let w' :=
           World (sent w ++ [([x00; x03] ++ uint16_be (block_number + 1) ++ chunk,
                              server_addr)])
                 (files w) (stdout w) (pbar w + len chunk) in
         if len chunk <? 512 then (Ok true, w', inbox)
         else put_file_loop inbox (drop 512 in_file) (block_number + 1) w'))
   ∧ (block_number = 65535 →
      put_file_loop ((dgram, server_addr) :: inbox) in_file block_number w
      = (Raise (TFTPValueError (block_number_msg 65536)), w, inbox)))
  ∧ (files w !! local_filename = Some content →
     length content = 700%nat →
     is_ascii_printable remote_filename = true →
     pack_ack 0 = Ok k0 → pack_ack 1 = Ok k1 →
     ∃ wrq,
       pack_wrq remote_filename DEFAULT_MODE = Ok wrq
       ∧ put_file server port local_filename remote_filename
           ((k0, a0) :: (k1, a1) :: inbox) w
         = (Ok true,
            World (sent w ++ [(wrq, (server, port));
                              ([x00; x03; x00; x01] ++ take 512 content, a0);
                              ([x00; x03; x00; x02] ++ drop 512 content, a1)])
                  (files w)
                  (stdout w ++ [Text (py "Uploading '" ++ local_filename
                                      ++ py "' (700 bytes) to server at "
                                      ++ server ++ py "...")])
                  700,
            inbox)
       ∧ length (take 512 content) = 512%nat
       ∧ length (drop 512 content) = 188%nat).
Proof.
  split.
  - intros Ho Ha. destruct (unpack_ack_fields _ _ Ha) as [Hb _]. split.
    + intros Hlt. split.
      * apply pack_dat_wire; [lia|]. unfold len. rewrite length_take. lia.
      * apply put_file_loop_ack; assumption.
    + intros ->. apply put_file_loop_ack_last; assumption.
  - intros Hc Hl Hf Hk0 Hk1. apply put_file_two_blocks; assumption.
Qed.

Lemma put_file_ack_blocks_witness :
  unpack_ack (received DEFAULT_BUFFER_SIZE [x00; x04; x00; x07]) = Ok 7
  ∧ put_file_loop [([x00; x04; x00; x07], (py "srv", 4021))] [x41; x42] 7
      (World [] ∅ [] 3584)
    = (Ok true,
       World [([x00; x03; x00; x08; x41; x42], (py "srv", 4021))] ∅ [] 3586, [])
  ∧ fst (fst (put_file (py "host") 69 (py "in.bin") (py "up.bin")
                [([x00; x04; x00; x00], (py "srv", 4021));
                 ([x00; x04; x00; x01], (py "srv", 4021));
                 ([x00; x04; x00; x02], (py "srv", 4021))]
                (World [] {[ py "in.bin" := replicate 700 x41 ]} [] 0)))
    = Ok true.
Proof.
  assert (Ha : unpack_ack (received DEFAULT_BUFFER_SIZE [x00; x04; x00; x07]) = Ok 7)
    by (vm_compute; reflexivity).
  destruct (put_file_ack_blocks (py "host") 69 (py "in.bin") (py "up.bin")
              [x00; x04; x00; x07] (py "srv", 4021)
              [([x00; x04; x00; x02], (py "srv", 4021))] [x41; x42] 7
              (replicate 700 x41) [x00; x04; x00; x00] [x00; x04; x00; x01]
              (py "srv", 4021) (py "srv", 4021)
              (World [] {[ py "in.bin" := replicate 700 x41 ]} [] 0))
    as [_ Hs].
  destruct (Hs ltac:(apply lookup_singleton_eq) ltac:(apply length_replicate)
               ltac:(vm_compute; reflexivity) ltac:(vm_compute; reflexivity)
               ltac:(vm_compute; reflexivity)) as (wrq & _ & Hp & _).
  destruct (put_file_ack_blocks (py "host") 69 (py "in.bin") (py "up.bin")
              [x00; x04; x00; x07] (py "srv", 4021) [] [x41; x42] 7
              [] [] [] (py "srv", 4021) (py "srv", 4021) (World [] ∅ [] 3584))
    as [Hb _].
  destruct (Hb ltac:(vm_compute; reflexivity) Ha) as [Hlt _].
  destruct (Hlt ltac:(lia)) as [_ Hloop].
  split; [exact Ha|].
  split; [etransitivity; [exact Hloop|vm_compute; reflexivity]|].
  exact (f_equal (λ o : outcome, fst (fst o)) Hp).
Defined.

(** ** Which exceptions the codec raises *)

Lemma unpack_H_exn (b : bytes) (e : exn) :
  Struct.unpack_H b = Raise e → e = StructError.
Proof.
  destruct b as [|b0 [|b1 [|b2 r]]]; intros H; try discriminate H;
    injection H as <-; reflexivity.
Qed.

Lemma unpack_HH_exn (b : bytes) (e : exn) :
  Struct.unpack_HH b = Raise e → e = StructError.
Proof.
  destruct b as [|b0 [|b1 [|b2 [|b3 [|b4 r]]]]]; intros H; try discriminate H;
    injection H as <-; reflexivity.
Qed.


Lemma unpack_opcode_raises (packet : bytes) (e : exn) :
  unpack_opcode packet = Raise e → e = StructError ∨ ∃ msg, e = TFTPValueError msg.
Proof.
  unfold unpack_opcode. intros H.
  destruct (Struct.unpack_H _) as [opcode|e0] eqn:Eh.
  - rewrite bind_Ok in H. destruct (bool_decide _); [discriminate H|].
    injection H as <-. eauto.
  - injection H as <-. left. exact (unpack_H_exn _ _ Eh).
Qed.









Lemma unpack_opcode_codec (p : bytes) (e : exn) :
  unpack_opcode p = Raise e → raised_by_codec e = true.
Proof. intros H. destruct (unpack_opcode_raises _ _ H) as [->|[msg ->]]; reflexivity. Qed.

Lemma unpack_dat_codec (p : bytes) (e : exn) :
  unpack_dat p = Raise e → raised_by_codec e = true.
Proof.
  unfold unpack_dat. intros H.
  destruct (Struct.unpack_HH _) as [[opcode bn]|e0] eqn:Eh.
  - rewrite bind_Ok in H. destruct (negb _); [|discriminate H].
    injection H as <-. reflexivity.
  - injection H as <-. rewrite (unpack_HH_exn _ _ Eh). reflexivity.
Qed.

Lemma unpack_ack_codec (p : bytes) (e : exn) :
  unpack_ack p = Raise e → raised_by_codec e = true.
Proof.
  unfold unpack_ack. intros H.
  destruct (Struct.unpack_HH _) as [[opcode bn]|e0] eqn:Eh.
  - rewrite bind_Ok in H. destruct (negb _); [|discriminate H].
    injection H as <-. reflexivity.
  - injection H as <-. rewrite (unpack_HH_exn _ _ Eh). reflexivity.
Qed.

Lemma unpack_err_codec (p : bytes) (e : exn) :
  unpack_err p = Raise e → raised_by_codec e = true.
Proof.
  unfold unpack_err. intros H.
  destruct (Struct.unpack_HH _) as [[opcode code]|e0] eqn:Eh.
  - rewrite bind_Ok in H. destruct (negb _); [injection H as <-; reflexivity|].
    destruct (Utf8.decode _) eqn:Ed; [discriminate H|]. injection H as <-.
    rewrite (decode_raises _ _ _ (Nat.le_refl _) Ed). reflexivity.
  - injection H as <-. rewrite (unpack_HH_exn _ _ Eh). reflexivity.
Qed.


(** ** The existence probe (C4) *)

(** What [check_remote_file] does once the request is built: it sends
    it, then answers from the first datagram, or from the timeout. *)
Lemma check_remote_file_sent {env : Env} (server : str) (port : Z)
    (remote_filename : str) (inbox : list datagram) (w : world) :
  is_ascii_printable remote_filename = true →
  sendto_error (server, port) = None →
  check_remote_file server port remote_filename inbox w
  = let w' :=
      World (sent w ++ [([x00; x01] ++ ascii_bytes remote_filename ++ [x00]
                           ++ ascii_bytes DEFAULT_MODE ++ [x00], (server, port))])
            (files w) (stdout w) (pbar w) in
    match inbox with
    | [] => (Ok false, w', [])
    | (dgram, _) :: inbox' =>
        match check_remote_file_reply (received DEFAULT_BUFFER_SIZE dgram) with
        | Raise SocketTimeout => (Ok false, w', inbox')
        | r => (r, w', inbox')
        end
    end.
Proof.
  intros Hf Hs.
  unfold check_remote_file, pack_rrq, mbind, M_bind, lift, sendto_server.
  rewrite (pack_request_wire RRQ remote_filename DEFAULT_MODE
             (ascii_bytes DEFAULT_MODE)); [|unfold RRQ; lia|exact Hf|reflexivity].
  rewrite Hs. unfold sendto. destruct inbox as [|[dgram a] inbox']; [reflexivity|].
  cbn [sent files stdout pbar].
  destruct (check_remote_file_reply (received DEFAULT_BUFFER_SIZE dgram)) as [b|[]];
    reflexivity.
Qed.

(** What [check_remote_file] raises before anything is sent: the error
    of [pack_rrq] for a filename that is not printable, the error of
    [sendto] for an address it refuses. *)
Lemma check_remote_file_invalid_name {env : Env} (server : str) (port : Z)
    (remote_filename : str) (inbox : list datagram) (w : world) :
  is_ascii_printable remote_filename = false →
  check_remote_file server port remote_filename inbox w
  = (Raise (TFTPValueError
              (py "Invalid filename: " ++ remote_filename
               ++ py ". Not ASCII printable")), w, inbox).
Proof.
  intros Hf. unfold check_remote_file, pack_rrq, mbind, M_bind, lift.
  rewrite (pack_request_invalid RRQ remote_filename DEFAULT_MODE Hf).
  reflexivity.
Qed.

Lemma check_remote_file_sendto_raises {env : Env} (server : str) (port : Z)
    (remote_filename : str) (inbox : list datagram) (w : world) (e : exn) :
  is_ascii_printable remote_filename = true →
  sendto_error (server, port) = Some e →
  check_remote_file server port remote_filename inbox w = (Raise e, w, inbox).
Proof.
  intros Hf Hs.
  unfold check_remote_file, pack_rrq, mbind, M_bind, lift, sendto_server.
  rewrite (pack_request_wire RRQ remote_filename DEFAULT_MODE
             (ascii_bytes DEFAULT_MODE)); [|unfold RRQ; lia|exact Hf|reflexivity].
  rewrite Hs. reflexivity.
Qed.

(** The answer of the probe, read off the bytes of the datagram. *)
Lemma check_remote_file_reply_data (rest : bytes) :
  check_remote_file_reply ([x00; x03] ++ rest) = Ok true.
Proof.
  unfold check_remote_file_reply. cbn [app].
  rewrite unpack_opcode_cons. reflexivity.
Qed.

Lemma check_remote_file_reply_error (hi lo last : byte) (body : bytes) :
  check_remote_file_reply ([x00; x05; hi; lo] ++ body ++ [last])
  = (error_msg ← Utf8.decode body;
     if byte_val hi * 256 + byte_val lo =? 1 then Ok false
     else Raise (Err (byte_val hi * 256 + byte_val lo)
                   (py "File existence check error"))).
Proof.
  unfold check_remote_file_reply. cbn [app].
  rewrite unpack_opcode_cons. cbv zeta.
  change (byte_val x00 * 256 + byte_val x05) with 5.
  rewrite bool_decide_eq_true_2
    by (unfold RRQ, WRQ, DAT, ACK, ERR; rewrite !elem_of_cons; tauto).
  rewrite bind_Ok. cbn [Z.eqb DAT ERR Pos.eqb].
  unfold unpack_err. rewrite header_fields, bind_Ok.
  change (byte_val x00 * 256 + byte_val x05 =? ERR) with true. cbn [negb].
  replace (x00 :: x05 :: hi :: lo :: body ++ [last])
    with ([x00; x05; hi; lo] ++ body ++ [last]) by reflexivity.
  rewrite slice_until_last by reflexivity.
  destruct (Utf8.decode body) as [m|e]; reflexivity.
Qed.

Lemma check_remote_file_reply_other (opcode : Z) (rest : bytes) :
  opcode ∈ [RRQ; WRQ; ACK] →
  check_remote_file_reply ([x00; byte_of opcode] ++ rest)
  = Raise (ProtocolError (py "Unexpected opcode " ++ str_of_int opcode
                          ++ py ". Expected DAT=3 or ERR=5")).
Proof.
  unfold RRQ, WRQ, ACK. rewrite !elem_of_cons, elem_of_nil. intros Ho.
  unfold check_remote_file_reply. cbn [app].
  rewrite unpack_opcode_cons. cbv zeta.
  rewrite byte_val_of by lia. change (byte_val x00 * 256) with 0.
  rewrite Z.add_0_l.
  rewrite bool_decide_eq_true_2
    by (unfold RRQ, WRQ, DAT, ACK, ERR; rewrite !elem_of_cons; lia).
  rewrite bind_Ok.
  destruct (Z.eqb_spec opcode DAT); [unfold DAT in *; lia|].
  destruct (Z.eqb_spec opcode ERR); [unfold ERR in *; lia|]. reflexivity.
Qed.

Lemma check_remote_file_reply_illegal (b0 b1 : byte) (rest : bytes) :
  ¬ (1 <= byte_val b0 * 256 + byte_val b1 <= 5) →
  check_remote_file_reply ([b0; b1] ++ rest)
  = Raise (TFTPValueError
             (py "Invalid opcode "
              ++ str_of_int (byte_val b0 * 256 + byte_val b1))).
Proof.
  intros Ho. unfold check_remote_file_reply. cbn [app].
  rewrite unpack_opcode_cons. cbv zeta.
  rewrite bool_decide_eq_false_2; [reflexivity|].
  unfold RRQ, WRQ, DAT, ACK, ERR. rewrite !elem_of_cons, elem_of_nil. lia.
Qed.

Lemma check_remote_file_reply_short (packet : bytes) :
  (length packet < 2)%nat → check_remote_file_reply packet = Raise StructError.
Proof.
  intros H. unfold check_remote_file_reply.
  rewrite unpack_opcode_short by exact H. reflexivity.
Qed.

Lemma probe_repeatedly_false {env : Env} (n : nat) (server : str) (port : Z)
    (remote_filename : str) (w : world) :
  is_ascii_printable remote_filename = true →
  sendto_error (server, port) = None →
  Forall (λ r, r = Ok false) (fst (probe_repeatedly n server port remote_filename w)).
Proof.
  intros Hf Hs. revert w. induction n as [|n IH]; intros w; [constructor|].
  cbn [probe_repeatedly]. rewrite check_remote_file_sent by assumption.
  cbv beta iota zeta.
  match goal with
  | |- context [probe_repeatedly n server port remote_filename ?w1] =>
      specialize (IH w1);
      destruct (probe_repeatedly n server port remote_filename w1) as [rs w2]
  end.
  cbn [fst] in *. constructor; [reflexivity|exact IH].
Qed.

(** The counterexample to C4 as stated.  Against an endpoint that never
    answers the probe does throw: for a filename that is not printable
    [pack_rrq] raises before anything is sent, and for a port outside
    0..65535 [sendto] does.  Nor does the probe wait for the first reply
    it can decode: a datagram without a legal opcode makes it raise,
    whatever follows. *)
Lemma check_remote_file_answers_counterexample :
  check_remote_file (env := example_env) (py "host") 69 [233] []
    (World [] ∅ [] 0)
  = (Raise (TFTPValueError
              (py "Invalid filename: " ++ [233] ++ py ". Not ASCII printable")),
     World [] ∅ [] 0, [])
  ∧ check_remote_file (env := example_env) (py "host") 65536 (py "boot.img") []
      (World [] ∅ [] 0)
    = (Raise OverflowError, World [] ∅ [] 0, [])
  ∧ fst (fst (check_remote_file (env := example_env) (py "host") 69
                (py "boot.img")
                [([x00; x09], (py "srv", 4021));
                 ([x00; x03; x00; x01; x41], (py "srv", 4021))]
                (World [] ∅ [] 0)))
    = Raise (TFTPValueError (py "Invalid opcode 9")).
Proof. vm_compute. repeat split; reflexivity. Qed.

(** C4, amended.  [check_remote_file] raises the [TFTPValueError] of a
    filename that is not printable and the error of [sendto] for an
    address it refuses, in both cases with nothing sent.  Once the
    request is sent, it answers from the first datagram it receives,
    read up to 1024 bytes: [True] for a packet that starts with the
    opcode 3; for a packet with the opcode 5, a code and a message in
    UTF-8 before its last byte, [False] when the code is 1 and the
    exception [Err] with the code otherwise (the error of the UTF-8
    codec when the message is not UTF-8); [ProtocolError] for the
    opcodes 1, 2 and 4; [TFTPValueError] for any other leading 16-bit
    field and the error of [struct] for less than two bytes.  When
    nothing arrives it returns [False], and so does each of any number
    of successive probes of an endpoint that never answers. *)
Theorem check_remote_file_answers {env : Env} (server : str) (port : Z)
    (remote_filename : str) (dgram : bytes) (a : addr) (inbox : list datagram)
    (w : world) (opcode : Z) (b0 b1 hi lo last : byte) (rest body : bytes)
    (e : exn) (n : nat) :
  let w' :=
    World (sent w ++ [([x00; x01] ++ ascii_bytes remote_filename ++ [x00]
                         ++ ascii_bytes DEFAULT_MODE ++ [x00], (server, port))])
          (files w) (stdout w) (pbar w) in
  let packet := received DEFAULT_BUFFER_SIZE dgram in
  let probe := check_remote_file server port remote_filename in
  let error_code := byte_val hi * 256 + byte_val lo in
  (is_ascii_printable remote_filename = false →
   probe inbox w
   = (Raise (TFTPValueError
               (py "Invalid filename: " ++ remote_filename
                ++ py ". Not ASCII printable")), w, inbox))
  ∧ (is_ascii_printable remote_filename = true →
     sendto_error (server, port) = Some e →
     probe inbox w = (Raise e, w, inbox))
  ∧ (is_ascii_printable remote_filename = true →
     sendto_error (server, port) = None →
     (packet = [x00; x03] ++ rest →
      probe ((dgram, a) :: inbox) w = (Ok true, w', inbox))
     ∧ (packet = [x00; x05; hi; lo] ++ body ++ [last] →
        probe ((dgram, a) :: inbox) w
        = (match Utf8.decode body with
           | Ok _ =>
               if error_code =? 1 then Ok false
               else Raise (Err error_code (py "File existence check error"))
           | Raise _ => Raise UnicodeDecodeError
           end, w', inbox))
     ∧ (packet = [x00; byte_of opcode] ++ rest → opcode ∈ [RRQ; WRQ; ACK] →
        probe ((dgram, a) :: inbox) w
        = (Raise (ProtocolError (py "Unexpected opcode " ++ str_of_int opcode
                                 ++ py ". Expected DAT=3 or ERR=5")), w', inbox))
     ∧ (packet = [b0; b1] ++ rest →
        ¬ (1 <= byte_val b0 * 256 + byte_val b1 <= 5) →
        probe ((dgram, a) :: inbox) w
        = (Raise (TFTPValueError
                    (py "Invalid opcode "
                     ++ str_of_int (byte_val b0 * 256 + byte_val b1))),
           w', inbox))
     ∧ ((length packet < 2)%nat →
        probe ((dgram, a) :: inbox) w = (Raise StructError, w', inbox))
     ∧ probe [] w = (Ok false, w', [])
     ∧ Forall (λ r, r = Ok false)
         (fst (probe_repeatedly n server port remote_filename w))).
Proof.
  intros w' packet probe error_code. subst probe.
  split; [apply check_remote_file_invalid_name|].
  split; [apply check_remote_file_sendto_raises|].
  intros Hf Hs.
  split; [|split; [|split; [|split; [|split; [|split]]]]].
  - intros Hp. rewrite check_remote_file_sent by assumption. cbv zeta.
    fold packet. rewrite Hp, check_remote_file_reply_data. reflexivity.
  - intros Hp. rewrite check_remote_file_sent by assumption. cbv zeta.
    fold packet. rewrite Hp, check_remote_file_reply_error.
    destruct (Utf8.decode body) as [m|e0] eqn:Ed.
    + rewrite bind_Ok. fold error_code.
      destruct (error_code =? 1); reflexivity.
    + rewrite bind_Raise, (decode_raises _ _ _ (Nat.le_refl _) Ed). reflexivity.
  - intros Hp Ho. rewrite check_remote_file_sent by assumption. cbv zeta.
    fold packet. rewrite Hp, check_remote_file_reply_other by exact Ho.
    reflexivity.
  - intros Hp Ho. rewrite check_remote_file_sent by assumption. cbv zeta.
    fold packet. rewrite Hp, check_remote_file_reply_illegal by exact Ho.
    reflexivity.
  - intros Hl. rewrite check_remote_file_sent by assumption. cbv zeta.
    fold packet. rewrite check_remote_file_reply_short by exact Hl. reflexivity.
  - rewrite check_remote_file_sent by assumption. reflexivity.
  - apply probe_repeatedly_false; assumption.
Qed.

Lemma check_remote_file_answers_witness :
  is_ascii_printable (py "boot.img") = true
  ∧ sendto_error (Env := example_env) (py "host", 69) = None
  ∧ check_remote_file (env := example_env) (py "host") 69 (py "boot.img")
      [([x00; x05; x00; x02] ++ [x6e; x6f] ++ [x00], (py "srv", 4021))]
      (World [] ∅ [] 0)
    = (Raise (Err 2 (py "File existence check error")),
       World ([] ++ [([x00; x01] ++ ascii_bytes (py "boot.img") ++ [x00]
                        ++ ascii_bytes DEFAULT_MODE ++ [x00], (py "host", 69))])
             ∅ [] 0,
       [])
  ∧ fst (fst (check_remote_file (env := example_env) (py "host") 69
                (py "boot.img")
                [([x00; x05; x00; x01] ++ [x4e; x6f] ++ [x00], (py "srv", 4021))]
                (World [] ∅ [] 0)))
    = Ok false
  ∧ fst (fst (check_remote_file (env := example_env) (py "host") 69
                (py "boot.img")
                [([x00; x03] ++ [x00; x01; x41], (py "srv", 4021))]
                (World [] ∅ [] 0)))
    = Ok true
  ∧ fst (fst (check_remote_file (env := example_env) (py "host") 69
                (py "boot.img") [] (World [] ∅ [] 0)))
    = Ok false
  ∧ Forall (λ r, r = Ok false)
      (fst (probe_repeatedly (env := example_env) 3 (py "host") 69
              (py "boot.img") (World [] ∅ [] 0))).
Proof.
  assert (Hf : is_ascii_printable (py "boot.img") = true) by (vm_compute; reflexivity).
  assert (Hs : sendto_error (Env := example_env) (py "host", 69) = None)
    by reflexivity.
  destruct (check_remote_file_answers (env := example_env)
              (py "host") 69 (py "boot.img")
              ([x00; x05; x00; x02] ++ [x6e; x6f] ++ [x00]) (py "srv", 4021) []
              (World [] ∅ [] 0) 1 x00 x00 x00 x02 x00 [] [x6e; x6f]
              OverflowError 3%nat) as (_ & _ & H2).
  destruct (H2 Hf Hs) as (_ & He2 & _).
  destruct (check_remote_file_answers (env := example_env)
              (py "host") 69 (py "boot.img")
              ([x00; x05; x00; x01] ++ [x4e; x6f] ++ [x00]) (py "srv", 4021) []
              (World [] ∅ [] 0) 1 x00 x00 x00 x01 x00 [] [x4e; x6f]
              OverflowError 3%nat) as (_ & _ & H1).
  destruct (H1 Hf Hs) as (_ & He1 & _).
  destruct (check_remote_file_answers (env := example_env)
              (py "host") 69 (py "boot.img")
              ([x00; x03] ++ [x00; x01; x41]) (py "srv", 4021) []
              (World [] ∅ [] 0) 1 x00 x00 x00 x01 x00 [x00; x01; x41] []
              OverflowError 3%nat) as (_ & _ & H3).
  destruct (H3 Hf Hs) as (Hd & _ & _ & _ & _ & Ht & Hn).
  split; [exact Hf|]. split; [exact Hs|].
  split; [exact (He2 eq_refl)|].
  split; [exact (f_equal (λ o : outcome, fst (fst o)) (He1 eq_refl))|].
  split; [exact (f_equal (λ o : outcome, fst (fst o)) (Hd eq_refl))|].
  split; [exact (f_equal (λ o : outcome, fst (fst o)) Ht)|exact Hn].
Defined.

(** ** How the operations signal a failure (C6) *)













(** * Further properties of the transfers *)

(** ** Whole downloads *)

Lemma world_eq (w : world) (s : list datagram) (f : gmap str bytes)
    (o : list line) (p : Z) :
  sent w = s → files w = f → stdout w = o → pbar w = p → w = World s f o p.
Proof. destruct w. cbn. intros -> -> -> ->. reflexivity. Qed.

(** The names of the Python types are abbreviations; rewriting wants
    them unfolded on both sides. *)
Ltac unalias := unfold outcome, datagram, addr, bytes, str in *.

Lemma ack_sequence_O (first : Z) (a : addr) : ack_sequence first 0 a = [].
Proof. reflexivity. Qed.

(** A run of full blocks in sequence takes the loop of [get_file] from
    one block to the next: each is written and acknowledged. *)
Lemma get_file_loop_full_blocks (local_filename : str) (a : addr) (count : nat) :
  ∀ (content : bytes) (block_number file_size : Z) (w : world)
    (rest : list datagram) (cur : bytes),
    files w !! local_filename = Some cur →
    0 <= block_number → block_number + Z.of_nat count <= 65536 →
    (512 * count <= length content)%nat →
    get_file_loop local_filename
      (full_blocks count block_number content a ++ rest)
      block_number file_size w
    = get_file_loop local_filename rest (block_number + Z.of_nat count)
        (file_size + 512 * Z.of_nat count)
        (World (sent w ++ ack_sequence block_number count a)
               (<[local_filename := cur ++ take (512 * count) content]> (files w))
               (stdout w) (pbar w + 512 * Z.of_nat count)).
Proof.
  induction count as [|count IH];
    intros content block_number file_size w rest cur Hcur Hb Hk Hl.
  - cbn [full_blocks app]. f_equal; [lia|lia|].
    apply world_eq; cbn [Nat.mul take]; rewrite ?Nat.mul_0_r.
    + rewrite ack_sequence_O, app_nil_r. reflexivity.
    + cbn [take]. rewrite app_nil_r, insert_id by exact Hcur. reflexivity.
    + reflexivity.
    + lia.
  - cbn [full_blocks app].
    assert (Hlen : len (take 512 content) = 512).
    { unfold len. rewrite length_take. lia. }
    destruct (received_dat block_number (take 512 content) ltac:(lia) ltac:(lia))
      as [Ho Hu].
    rewrite (get_file_loop_data _ _ _ _ _ _ _ _ Ho Hu). cbv zeta.
    rewrite Hlen. change (512 <? 512) with false. cbv iota.
    rewrite (IH _ _ _ _ _ (cur ++ take 512 content));
      [|cbn [files]; unalias; rewrite Hcur; apply lookup_insert_eq|lia|lia
       |rewrite length_drop; lia].
    cbn [sent files stdout pbar]. unalias. rewrite Hcur. cbn [default].
    f_equal; [lia|lia|].
    f_equal.
    + rewrite ack_sequence_S, <- app_assoc. reflexivity.
    + rewrite insert_insert_eq, <- app_assoc, take_take_drop.
      replace (512 + 512 * count)%nat with (512 * S count)%nat by lia.
      reflexivity.
    + lia.
Qed.

Lemma length_div_512 (content : bytes) :
  (512 * (length content / 512) <= length content
   ∧ length content - 512 * (length content / 512) < 512)%nat.
Proof.
  pose proof (Nat.div_mod_eq (length content) 512).
  pose proof (Nat.mod_upper_bound (length content) 512). lia.
Qed.

Lemma get_file_loop_data_sequence (local_filename : str) (a : addr)
    (content : bytes) (block_number file_size : Z) (w : world)
    (rest : list datagram) (cur : bytes) :
  files w !! local_filename = Some cur →
  0 <= block_number →
  block_number + Z.of_nat (length content / 512) <= 65535 →
  get_file_loop local_filename (data_sequence block_number content a ++ rest)
    block_number file_size w
  = (Ok true,
     World (sent w ++ ack_sequence block_number (S (length content / 512)) a)
           (<[local_filename := cur ++ content]> (files w))
           (stdout w) (pbar w + len content),
     rest).
Proof.
  intros Hcur Hb Hk. unfold data_sequence. cbv zeta.
  destruct (length_div_512 content) as [Hle Hlt].
  set (n := (length content / 512)%nat) in *.
  rewrite <- app_assoc.
  rewrite (get_file_loop_full_blocks _ _ _ _ _ _ _ _ cur Hcur Hb) by lia.
  cbn [app].
  assert (Hlast : len (drop (512 * n) content) <= 512).
  { unfold len. rewrite length_drop. lia. }
  destruct (received_dat (block_number + Z.of_nat n) (drop (512 * n) content)
              ltac:(lia) Hlast) as [Ho Hu].
  rewrite (get_file_loop_data _ _ _ _ _ _ _ _ Ho Hu). cbv zeta.
  replace (len (drop (512 * n) content) <? 512) with true
    by (symmetry; apply Z.ltb_lt; unfold len; rewrite length_drop; lia).
  cbn [sent files stdout pbar]. rewrite lookup_insert_eq. cbn [default].
  unfold id. unalias. f_equal. f_equal. f_equal.
  - rewrite ack_sequence_snoc, <- app_assoc. reflexivity.
  - rewrite insert_insert_eq, <- app_assoc, take_drop. reflexivity.
  - unfold len. rewrite length_drop. lia.
Qed.

(** X1. Once the request has left and the local file is open, a
    download from a server that sends the content block by block
    succeeds and leaves exactly the content in the local file, for every
    content of less than 65535 blocks of 512 bytes; every block is
    acknowledged, to the address it came from, and what follows the last
    block stays unread. *)
Theorem get_file_downloads {env : Env} (server : str) (port : Z)
    (remote_filename local_filename : str) (content : bytes) (a : addr)
    (rest : list datagram) (w : world) :
  is_ascii_printable remote_filename = true →
  sendto_error (server, port) = None →
  open_error local_filename = None →
  len content < 512 * 65535 →
  ∃ rrq,
    pack_rrq remote_filename DEFAULT_MODE = Ok rrq
    ∧ get_file server port remote_filename local_filename
        (data_sequence 1 content a ++ rest) w
      = (Ok true,
         World (sent w ++ [(rrq, (server, port))]
                ++ ack_sequence 1 (S (length content / 512)) a)
               (<[local_filename := content]> (files w))
               (stdout w ++ [Text (py "Downloading '" ++ remote_filename
                                   ++ py "' from server " ++ server ++ py "...")])
               (len content),
         rest).
Proof.
  intros Hf Hs Ho Hlen.
  eexists. split; [apply (pack_request_wire RRQ); [unfold RRQ; lia|exact Hf|reflexivity]|].
  rewrite get_file_start by assumption.
  assert (Hn : Z.of_nat (length content / 512) < 65535)
    by (destruct (length_div_512 content); unfold len in Hlen; lia).
  rewrite (get_file_loop_data_sequence _ _ _ _ _ _ _ []);
    [|apply lookup_insert_eq|lia|lia].
  cbn [sent files stdout pbar app]. rewrite insert_insert_eq, <- app_assoc.
  reflexivity.
Qed.

Lemma get_file_downloads_witness :
  is_ascii_printable (py "f.bin") = true
  ∧ fst (fst (get_file (env := example_env) (py "host") 69 (py "f.bin") (py "out")
                (data_sequence 1 (replicate 1024 x41) (py "srv", 4021))
                (World [] ∅ [] 0)))
    = Ok true
  ∧ length (data_sequence 1 (replicate 1024 x41) (py "srv", 4021)) = 3%nat.
Proof.
  assert (Hf : is_ascii_printable (py "f.bin") = true) by (vm_compute; reflexivity).
  destruct (get_file_downloads (env := example_env)
              (py "host") 69 (py "f.bin") (py "out")
              (replicate 1024 x41) (py "srv", 4021) [] (World [] ∅ [] 0) Hf
              eq_refl eq_refl ltac:(vm_compute; reflexivity)) as (rrq & _ & Hg).
  rewrite app_nil_r in Hg.
  split; [exact Hf|].
  split; [exact (f_equal (λ o : outcome, fst (fst o)) Hg)|].
  vm_compute. reflexivity.
Defined.

(** ** Whole uploads *)

(** A run of expected Acks while full chunks are left to read: each is
    answered with the next block. *)
Lemma put_file_loop_acks (a : addr) (count : nat) :
  ∀ (in_file : bytes) (block_number : Z) (w : world) (rest : list datagram),
    0 <= block_number → block_number + Z.of_nat count <= 65535 →
    (512 * count <= length in_file)%nat →
    put_file_loop (ack_sequence block_number count a ++ rest) in_file block_number w
    = put_file_loop rest (drop (512 * count) in_file)
        (block_number + Z.of_nat count)
        (World (sent w ++ full_blocks count (block_number + 1) in_file a)
               (files w) (stdout w) (pbar w + 512 * Z.of_nat count)).
Proof.
  induction count as [|count IH]; intros in_file block_number w rest Hb Hk Hl.
  - cbn [full_blocks]. rewrite ack_sequence_O, Nat.mul_0_r, drop_0.
    cbn [app]. f_equal; [lia|].
    apply world_eq; rewrite ?app_nil_r; try reflexivity. lia.
  - rewrite ack_sequence_S. cbn [app full_blocks].
    destruct (received_ack block_number ltac:(lia)) as [Ho Hu].
    rewrite (put_file_loop_ack _ _ _ _ _ _ Ho Hu) by lia. cbv zeta.
    assert (Hlen : len (take 512 in_file) = 512).
    { unfold len. rewrite length_take. lia. }
    rewrite Hlen. change (512 <? 512) with false. cbv iota.
    rewrite IH; [|lia|lia|rewrite length_drop; lia].
    cbn [sent files stdout pbar]. unalias. rewrite drop_drop, <- app_assoc.
    replace (512 + 512 * count)%nat with (512 * S count)%nat by lia.
    f_equal; [lia|]. f_equal. lia.
Qed.

Lemma put_file_loop_ack_sequence (a : addr) (content : bytes)
    (block_number : Z) (w : world) (rest : list datagram) :
  0 <= block_number →
  block_number + Z.of_nat (length content / 512) < 65535 →
  put_file_loop
    (ack_sequence block_number (S (length content / 512)) a ++ rest)
    content block_number w
  = (Ok true,
     World (sent w ++ data_sequence (block_number + 1) content a)
           (files w) (stdout w) (pbar w + len content),
     rest).
Proof.
  intros Hb Hk. unfold data_sequence. cbv zeta.
  destruct (length_div_512 content) as [Hle Hlt].
  set (n := (length content / 512)%nat) in *.
  rewrite ack_sequence_snoc, <- app_assoc.
  rewrite put_file_loop_acks by lia. cbn [app].
  destruct (received_ack (block_number + Z.of_nat n) ltac:(lia)) as [Ho Hu].
  rewrite (put_file_loop_ack _ _ _ _ _ _ Ho Hu) by lia. cbv zeta.
  rewrite (take_ge (drop (512 * n) content)) by (rewrite length_drop; lia).
  replace (len (drop (512 * n) content) <? 512) with true
    by (symmetry; apply Z.ltb_lt; unfold len; rewrite length_drop; lia).
  cbn [sent files stdout pbar]. unalias. rewrite <- app_assoc.
  replace (block_number + Z.of_nat n + 1) with (block_number + 1 + Z.of_nat n)
    by lia.
  f_equal. f_equal. f_equal. unfold len. rewrite length_drop. lia.
Qed.

(** X2. An upload to a server that acknowledges every block succeeds and
    sends exactly the content, block by block, each block to the address
    its Ack came from, for every content of less than 65535 blocks of
    512 bytes; a content whose length is a multiple of 512, the empty
    one included, ends with an empty block.  The local file is left as
    it is and what follows the Acks stays unread. *)
Theorem put_file_uploads (server : str) (port : Z)
    (local_filename remote_filename : str) (content : bytes) (a : addr)
    (rest : list datagram) (w : world) :
  files w !! local_filename = Some content →
  is_ascii_printable remote_filename = true →
  len content < 512 * 65535 →
  ∃ wrq,
    pack_wrq remote_filename DEFAULT_MODE = Ok wrq
    ∧ put_file server port local_filename remote_filename
        (ack_sequence 0 (S (length content / 512)) a ++ rest) w
      = (Ok true,
         World (sent w ++ [(wrq, (server, port))] ++ data_sequence 1 content a)
               (files w)
               (stdout w ++ [Text (py "Uploading '" ++ local_filename ++ py "' ("
                                   ++ str_of_int (len content)
                                   ++ py " bytes) to server at "
                                   ++ server ++ py "...")])
               (len content),
         rest)
    ∧ (Nat.modulo (length content) 512 = 0%nat →
       ∃ blocks block_number,
         data_sequence 1 content a
         = blocks ++ [([x00; x03] ++ uint16_be block_number, a)]).
Proof.
  intros Hc Hf Hlen.
  eexists. split; [apply (pack_request_wire WRQ); [unfold WRQ; lia|exact Hf|reflexivity]|].
  assert (Hn : Z.of_nat (length content / 512) < 65534 + 1)
    by (destruct (length_div_512 content); unfold len in Hlen; lia).
  split.
  - rewrite (put_file_start _ _ _ _ content) by assumption.
    rewrite put_file_loop_ack_sequence by lia.
    cbn [handle_exception sent files stdout pbar]. unalias.
    rewrite <- app_assoc. reflexivity.
  - intros Hmod. unfold data_sequence. cbv zeta. eexists _, _. f_equal.
    rewrite drop_ge, app_nil_r; [reflexivity|].
    pose proof (Nat.div_mod_eq (length content) 512). lia.
Qed.

Lemma put_file_uploads_witness :
  is_ascii_printable (py "up.bin") = true
  ∧ fst (fst (put_file (py "host") 69 (py "in.bin") (py "up.bin")
                (ack_sequence 0 3 (py "srv", 4021))
                (World [] {[ py "in.bin" := replicate 1024 x41 ]} [] 0)))
    = Ok true
  ∧ ∃ blocks block_number,
      data_sequence 1 (replicate 1024 x41) (py "srv", 4021)
      = blocks ++ [([x00; x03] ++ uint16_be block_number, (py "srv", 4021))].
Proof.
  assert (Hf : is_ascii_printable (py "up.bin") = true) by (vm_compute; reflexivity).
  destruct (put_file_uploads (py "host") 69 (py "in.bin") (py "up.bin")
              (replicate 1024 x41) (py "srv", 4021) []
              (World [] {[ py "in.bin" := replicate 1024 x41 ]} [] 0)
              ltac:(apply lookup_singleton_eq) Hf
              ltac:(vm_compute; reflexivity))
    as (wrq & _ & Hp & He).
  rewrite app_nil_r in Hp.
  split; [exact Hf|].
  split; [exact (f_equal (λ o : outcome, fst (fst o)) Hp)|].
  apply He. rewrite length_replicate. reflexivity.
Defined.

(** ** An upload received as a download *)

Lemma arriving_from_full_blocks (src a : addr) (count : nat) :
  ∀ (first : Z) (content : bytes),
    arriving_from src (full_blocks count first content a)
    = full_blocks count first content src.
Proof.
  induction count as [|count IH]; intros first content; [reflexivity|].
  cbn [full_blocks]. unfold arriving_from in *. rewrite fmap_cons, IH.
  reflexivity.
Qed.

Lemma arriving_from_data_sequence (src a : addr) (first : Z) (content : bytes) :
  arriving_from src (data_sequence first content a)
  = data_sequence first content src.
Proof.
  unfold data_sequence. cbv zeta.
  rewrite <- (arriving_from_full_blocks src a). unfold arriving_from.
  rewrite fmap_app. reflexivity.
Qed.

(** X3. What [put_file] sends after its request, received in order by
    a [get_file] whose request has left and whose local file is open,
    from whatever address, is written back as the very content that was
    uploaded: the two loops agree on the numbering of the blocks and on
    the end of the transfer. *)
Theorem upload_received_as_download {env : Env} (server : str) (port : Z)
    (local_filename remote_filename : str) (content : bytes) (a : addr)
    (rest : list datagram) (w : world)
    (server' : str) (port' : Z) (remote_filename' local_filename' : str)
    (src : addr) (rest' : list datagram) (w2 : world) :
  files w !! local_filename = Some content →
  is_ascii_printable remote_filename = true →
  is_ascii_printable remote_filename' = true →
  sendto_error (server', port') = None →
  open_error local_filename' = None →
  len content < 512 * 65535 →
  ∃ w1 w2',
    put_file server port local_filename remote_filename
      (ack_sequence 0 (S (length content / 512)) a ++ rest) w
    = (Ok true, w1, rest)
    ∧ get_file server' port' remote_filename' local_filename'
        (arriving_from src (drop (S (length (sent w))) (sent w1)) ++ rest') w2
      = (Ok true, w2', rest')
    ∧ files w2' = <[local_filename' := content]> (files w2).
Proof.
  intros Hc Hf Hf' Hs Ho Hlen.
  assert (Hn : Z.of_nat (length content / 512) < 65534 + 1)
    by (destruct (length_div_512 content); unfold len in Hlen; lia).
  rewrite (put_file_start _ _ _ _ content) by assumption.
  rewrite put_file_loop_ack_sequence by lia.
  cbn [handle_exception sent files stdout pbar].
  eexists _, _. split; [reflexivity|]. cbn [sent].
  match goal with
  | |- context [drop _ ((sent w ++ [?q]) ++ _)] =>
      replace (S (length (sent w))) with (length (sent w ++ [q]))
        by (rewrite length_app; cbn [length]; lia)
  end.
  rewrite drop_app_length, arriving_from_data_sequence.
  rewrite get_file_start by assumption.
  rewrite (get_file_loop_data_sequence _ _ _ _ _ _ _ []);
    [|apply lookup_insert_eq|lia|lia].
  split; [reflexivity|]. cbn [files app]. apply insert_insert_eq.
Qed.

Lemma upload_received_as_download_witness :
  is_ascii_printable (py "up.bin") = true
  ∧ ∃ w1 w2',
      put_file (py "host") 69 (py "in.bin") (py "up.bin")
        (ack_sequence 0 (S (length (replicate 600 x41) / 512)) (py "srv", 4021)
         ++ [])
        (World [] {[ py "in.bin" := replicate 600 x41 ]} [] 0)
      = (Ok true, w1, [])
      ∧ get_file (env := example_env) (py "peer") 69 (py "up.bin") (py "copy.bin")
          (arriving_from (py "host", 5000) (drop 1 (sent w1)) ++ [])
          (World [] ∅ [] 0)
        = (Ok true, w2', [])
      ∧ files w2' = <[py "copy.bin" := replicate 600 x41]> ∅.
Proof.
  assert (Hf : is_ascii_printable (py "up.bin") = true) by (vm_compute; reflexivity).
  split; [exact Hf|].
  exact (upload_received_as_download (env := example_env)
           (py "host") 69 (py "in.bin") (py "up.bin")
           (replicate 600 x41) (py "srv", 4021) []
           (World [] {[ py "in.bin" := replicate 600 x41 ]} [] 0)
           (py "peer") 69 (py "up.bin") (py "copy.bin") (py "host", 5000) []
           (World [] ∅ [] 0) ltac:(apply lookup_singleton_eq) Hf Hf
           eq_refl eq_refl ltac:(vm_compute; reflexivity)).
Defined.

(** ** Datagrams that are not the expected one *)

Lemma get_file_step_rejects (block_number : Z) (dat_packet : bytes) :
  (∀ data, ¬ (unpack_opcode dat_packet = Ok DAT
              ∧ unpack_dat dat_packet = Ok (block_number, data))) →
  ∃ e, (∀ local_filename file_size server_addr w,
          get_file_step local_filename block_number file_size
            dat_packet server_addr w = (Raise e, w))
       ∧ rejection DAT dat_packet e.
Proof.
  intros Hn. unfold get_file_step, mbind, M_bind, lift, raise, lift, rejection.
  destruct (unpack_opcode dat_packet) as [opcode|e] eqn:Eo.
  - destruct (Z.eqb_spec opcode DAT) as [->|Hd].
    + destruct (unpack_dat dat_packet) as [[n data]|e] eqn:Ed.
      * destruct (Z.eqb_spec n block_number) as [->|Hne];
          [destruct (Hn data); split; reflexivity|].
        eexists. split; [intros; reflexivity|].
        split; [intros c m [= ?]; discriminate|].
        split; [intros o [= <-] ? ?; contradiction|].
        split; [intros e' [= ]|eauto].
      * eexists. split; [intros; reflexivity|].
        split; [intros c m [= ?]; discriminate|].
        split; [intros o [= <-] ? ?; contradiction|].
        split; [intros e' [= ]|left; exact (unpack_dat_codec _ _ Ed)].
    + destruct (Z.eqb_spec opcode ERR) as [->|He].
      * destruct (unpack_err dat_packet) as [[c m]|e] eqn:Ee.
        -- eexists. split; [intros; reflexivity|].
           split; [intros c' m' _ [= <- <-]; reflexivity|].
           split; [intros o [= <-] ? ?; contradiction|].
           split; [intros e' [= ]|eauto].
        -- eexists. split; [intros; reflexivity|].
           split; [intros c' m' _ [= ]|].
           split; [intros o [= <-] ? ?; contradiction|].
           split; [intros e' [= ]|left; exact (unpack_err_codec _ _ Ee)].
      * eexists. split; [intros; reflexivity|].
        split; [intros c m [= ?]; contradiction|].
        split; [intros o [= <-] ? ?; eauto|].
        split; [intros e' [= ]|eauto].
  - eexists. split; [intros; reflexivity|].
    split; [intros c m [= ]|]. split; [intros o [= ]|].
    split; [intros e' [= <-]; reflexivity|left; exact (unpack_opcode_codec _ _ Eo)].
Qed.

Lemma rejection_is_Exception (expected : Z) (packet : bytes) (e : exn) :
  rejection expected packet e →
  is_Exception e = true ∧ e ≠ SocketTimeout.
Proof.
  intros (_ & _ & _ & [H|[(c & m & ->)|(msg & ->)]]); [|split; [reflexivity|discriminate]..].
  destruct e; try discriminate H; split; reflexivity || discriminate.
Qed.

Lemma get_file_loop_rejects (local_filename : str) (dgram : bytes)
    (server_addr : addr) (inbox : list datagram)
    (block_number file_size : Z) (w : world) :
  (∀ data, ¬ (unpack_opcode (received DEFAULT_BUFFER_SIZE dgram) = Ok DAT
              ∧ unpack_dat (received DEFAULT_BUFFER_SIZE dgram)
                = Ok (block_number, data))) →
  ∃ e,
    get_file_loop local_filename ((dgram, server_addr) :: inbox)
      block_number file_size w
    = (Raise (SystemExit 1),
       World (sent w) (files w) (stdout w ++ [ErrorLine e]) (pbar w),
       inbox).
Proof.
  intros Hn. cbn [get_file_loop]. unfold exit_on_exception.
  destruct (get_file_step_rejects block_number _ Hn) as (e & -> & Hr).
  exists e. cbn [handle_exception].
  rewrite (proj1 (rejection_is_Exception _ _ _ Hr)). reflexivity.
Qed.


(** X4. Any datagram other than the expected Data block ends a download
    on the spot: nothing is written, nothing is sent, the exception is
    printed and the process exits with status 1.  The exception is the
    server's [Err] with its code and message for an Error packet, a
    [ProtocolError] for a request or an Ack, the error of the decoder for
    a datagram without a legal opcode. *)
Theorem get_file_unexpected_datagram (local_filename : str) (dgram : bytes)
    (server_addr : addr) (inbox : list datagram)
    (block_number file_size : Z) (w : world) :
  (∀ data, ¬ (unpack_opcode (received DEFAULT_BUFFER_SIZE dgram) = Ok DAT
              ∧ unpack_dat (received DEFAULT_BUFFER_SIZE dgram)
                = Ok (block_number, data))) →
  ∃ e,
    get_file_loop local_filename ((dgram, server_addr) :: inbox)
      block_number file_size w
    = (Raise (SystemExit 1),
       World (sent w) (files w) (stdout w ++ [ErrorLine e]) (pbar w),
       inbox)
    ∧ rejection DAT (received DEFAULT_BUFFER_SIZE dgram) e.
Proof.
  intros Hn. cbn [get_file_loop]. unfold exit_on_exception.
  destruct (get_file_step_rejects block_number _ Hn) as (e & -> & Hr).
  exists e. split; [|exact Hr]. cbn [handle_exception].
  rewrite (proj1 (rejection_is_Exception _ _ _ Hr)). reflexivity.
Qed.

Lemma get_file_unexpected_datagram_witness :
  ∃ e,
    get_file_loop (py "out") [([x00; x05; x00; x02; x6e; x6f; x00], (py "srv", 69))]
      1 0 (World [] ∅ [] 0)
    = (Raise (SystemExit 1), World [] ∅ [ErrorLine e] 0, [])
    ∧ e = Err 2 (py "no").
Proof.
  destruct (get_file_unexpected_datagram (py "out")
              [x00; x05; x00; x02; x6e; x6f; x00] (py "srv", 69) [] 1 0
              (World [] ∅ [] 0)) as (e & Hl & Hr & _).
  { intros data [Ho _]. vm_compute in Ho. discriminate Ho. }
  exists e. split; [exact Hl|].
  apply Hr; vm_compute; reflexivity.
Defined.

Lemma put_file_step_rejects (block_number : Z) (ack_packet : bytes) :
  ¬ (unpack_opcode ack_packet = Ok ACK ∧ unpack_ack ack_packet = Ok block_number) →
  ∃ e, (∀ in_file server_addr w,
          put_file_step in_file block_number ack_packet server_addr w
          = (Raise e, w))
       ∧ rejection ACK ack_packet e.
Proof.
  intros Hn. unfold put_file_step, mbind, M_bind, lift, raise, lift, rejection.
  destruct (unpack_opcode ack_packet) as [opcode|e] eqn:Eo.
  - destruct (Z.eqb_spec opcode ACK) as [->|Hd].
    + destruct (unpack_ack ack_packet) as [n|e] eqn:Ea.
      * destruct (Z.eqb_spec n block_number) as [->|Hne];
          [destruct Hn; split; reflexivity|].
        eexists. split; [intros; reflexivity|].
        split; [intros c m [= ?]; discriminate|].
        split; [intros o [= <-] ? ?; contradiction|].
        split; [intros e' [= ]|eauto].
      * eexists. split; [intros; reflexivity|].
        split; [intros c m [= ?]; discriminate|].
        split; [intros o [= <-] ? ?; contradiction|].
        split; [intros e' [= ]|left; exact (unpack_ack_codec _ _ Ea)].
    + destruct (Z.eqb_spec opcode ERR) as [->|He].
      * destruct (unpack_err ack_packet) as [[c m]|e] eqn:Ee.
        -- eexists. split; [intros; reflexivity|].
           split; [intros c' m' _ [= <- <-]; reflexivity|].
           split; [intros o [= <-] ? ?; contradiction|].
           split; [intros e' [= ]|eauto].
        -- eexists. split; [intros; reflexivity|].
           split; [intros c' m' _ [= ]|].
           split; [intros o [= <-] ? ?; contradiction|].
           split; [intros e' [= ]|left; exact (unpack_err_codec _ _ Ee)].
      * eexists. split; [intros; reflexivity|].
        split; [intros c m [= ?]; contradiction|].
        split; [intros o [= <-] ? ?; eauto|].
        split; [intros e' [= ]|eauto].
  - eexists. split; [intros; reflexivity|].
    split; [intros c m [= ]|]. split; [intros o [= ]|].
    split; [intros e' [= <-]; reflexivity|left; exact (unpack_opcode_codec _ _ Eo)].
Qed.

Lemma put_file_step_wrong_ack (in_file : bytes) (block_number n : Z)
    (ack_packet : bytes) (server_addr : addr) (w : world) :
  unpack_opcode ack_packet = Ok ACK → unpack_ack ack_packet = Ok n →
  n ≠ block_number →
  put_file_step in_file block_number ack_packet server_addr w
  = (Raise (ProtocolError
              (py "Unexpected ACK block number: " ++ str_of_int n
               ++ py ". Expecting: " ++ str_of_int block_number ++ py ".")), w).
Proof.
  intros Ho Ha Hn. unfold put_file_step, mbind, M_bind, lift, raise, lift.
  rewrite Ho. cbn [Z.eqb ACK Pos.eqb]. rewrite Ha.
  destruct (Z.eqb_spec n block_number); [contradiction|]. reflexivity.
Qed.

Lemma put_file_loop_rejects (dgram : bytes) (server_addr : addr)
    (inbox : list datagram) (in_file : bytes) (block_number : Z) (w : world) :
  ¬ (unpack_opcode (received DEFAULT_BUFFER_SIZE dgram) = Ok ACK
     ∧ unpack_ack (received DEFAULT_BUFFER_SIZE dgram) = Ok block_number) →
  ∃ e, put_file_loop ((dgram, server_addr) :: inbox) in_file block_number w
       = (Raise e, w, inbox).
Proof.
  intros Hn. cbn [put_file_loop].
  destruct (put_file_step_rejects block_number _ Hn) as (e & Hs & _).
  exists e. rewrite Hs. reflexivity.
Qed.

(** X5. Any datagram other than the expected Ack ends an upload on the
    spot: nothing is sent for it, and [put_file] prints the exception and
    exits with status 1.  An Ack with another block number, a repeated
    one for instance, is a [ProtocolError]; an Error packet is the
    server's [Err] with its code and message. *)
Theorem put_file_unexpected_datagram (server : str) (port : Z)
    (local_filename remote_filename : str) (content : bytes)
    (dgram : bytes) (server_addr : addr) (inbox : list datagram)
    (in_file : bytes) (block_number : Z) (w : world) :
  ¬ (unpack_opcode (received DEFAULT_BUFFER_SIZE dgram) = Ok ACK
     ∧ unpack_ack (received DEFAULT_BUFFER_SIZE dgram) = Ok block_number) →
  ∃ e,
    put_file_loop ((dgram, server_addr) :: inbox) in_file block_number w
    = (Raise e, w, inbox)
    ∧ handle_exception (Raise e : result bool) w
      = (Raise (SystemExit 1),
         World (sent w) (files w) (stdout w ++ [ErrorLine e]) (pbar w))
    ∧ rejection ACK (received DEFAULT_BUFFER_SIZE dgram) e
    ∧ (∀ n, unpack_opcode (received DEFAULT_BUFFER_SIZE dgram) = Ok ACK →
            unpack_ack (received DEFAULT_BUFFER_SIZE dgram) = Ok n →
            e = ProtocolError
                  (py "Unexpected ACK block number: " ++ str_of_int n
                   ++ py ". Expecting: " ++ str_of_int block_number ++ py "."))
    ∧ (files w !! local_filename = Some content →
       is_ascii_printable remote_filename = true →
       block_number = 0 →
       ∃ w',
         put_file server port local_filename remote_filename
           ((dgram, server_addr) :: inbox) w
         = (Raise (SystemExit 1), w', inbox)
         ∧ length (sent w') = S (length (sent w))
         ∧ last (stdout w') = Some (ErrorLine e)).
Proof.
  intros Hn. cbn [put_file_loop].
  destruct (put_file_step_rejects block_number _ Hn) as (e & Hs & Hr).
  pose proof (proj1 (rejection_is_Exception _ _ _ Hr)) as He.
  exists e. rewrite Hs. split; [reflexivity|].
  split; [cbn [handle_exception]; rewrite He; reflexivity|].
  split; [exact Hr|]. split.
  - intros n Ho Ha.
    assert (Hne : n ≠ block_number) by (intros ->; apply Hn; split; assumption).
    specialize (Hs in_file server_addr w).
    rewrite (put_file_step_wrong_ack _ _ _ _ _ _ Ho Ha Hne) in Hs.
    injection Hs as <-. reflexivity.
  - intros Hc Hf ->. rewrite (put_file_start _ _ _ _ content) by assumption.
    cbn [put_file_loop]. rewrite Hs.
    cbn [handle_exception]. rewrite He. eexists. split; [reflexivity|].
    cbn [sent stdout]. split; [rewrite length_app; cbn [length]; lia|].
    apply last_snoc.
Qed.

Lemma put_file_unexpected_datagram_witness :
  ∃ e,
    put_file_loop [([x00; x04; x00; x00], (py "srv", 4021))] [x41] 1
      (World [] ∅ [] 0)
    = (Raise e, World [] ∅ [] 0, [])
    ∧ e = ProtocolError
            (py "Unexpected ACK block number: " ++ str_of_int 0
             ++ py ". Expecting: " ++ str_of_int 1 ++ py ".").
Proof.
  destruct (put_file_unexpected_datagram (py "host") 69 (py "in") (py "up") []
              [x00; x04; x00; x00] (py "srv", 4021) [] [x41] 1 (World [] ∅ [] 0))
    as (e & Hl & _ & _ & Hm & _).
  { intros [_ Ha]. vm_compute in Ha. discriminate Ha. }
  exists e. split; [exact Hl|].
  apply Hm; vm_compute; reflexivity.
Defined.

(** ** The block number the receiving loops cannot pass *)

Lemma get_file_expected_dec (block_number : Z) (packet : bytes) :
  (∃ data, unpack_opcode packet = Ok DAT
           ∧ unpack_dat packet = Ok (block_number, data))
  ∨ (∀ data, ¬ (unpack_opcode packet = Ok DAT
                ∧ unpack_dat packet = Ok (block_number, data))).
Proof.
  destruct (unpack_opcode packet) as [o|e]; [|right; intros d [[=] _]].
  destruct (decide (o = DAT)) as [->|Ho]; [|right; intros d [[=] _]; contradiction].
  destruct (unpack_dat packet) as [[n d]|e]; [|right; intros d [_ [=]]].
  destruct (decide (n = block_number)) as [->|Hn]; [left; eauto|].
  right. intros d' [_ [= ? ?]]. contradiction.
Qed.

Lemma get_file_loop_timeout (local_filename : str) (block_number file_size : Z)
    (w : world) :
  get_file_loop local_filename [] block_number file_size w
  = (Raise (SystemExit 1),
     World (sent w) (files w) (stdout w ++ [ErrorLine SocketTimeout]) (pbar w),
     []).
Proof. reflexivity. Qed.

(** X6. A download in blocks of 512 bytes cannot pass block 65535.
    Once the request has left and the local file is open, and 65535
    blocks of 512 bytes are received and written, the expected block
    number is 65536, which no Data packet can carry: whatever arrives
    next, [get_file] exits with status 1, leaving the 65535 blocks in
    the file. *)
Theorem get_file_block_ceiling {env : Env} (server : str) (port : Z)
    (remote_filename local_filename : str) (content : bytes) (a : addr)
    (rest : list datagram) (w : world) :
  is_ascii_printable remote_filename = true →
  sendto_error (server, port) = None →
  open_error local_filename = None →
  512 * 65535 <= len content →
  ∃ w' inbox',
    get_file server port remote_filename local_filename
      (full_blocks (Z.to_nat 65535) 1 content a ++ rest) w
    = (Raise (SystemExit 1), w', inbox')
    ∧ files w' !! local_filename = Some (take (Z.to_nat (512 * 65535)) content)
    ∧ length (sent w') = (length (sent w) + Z.to_nat 65536)%nat.
Proof.
  intros Hf Hs Ho Hlen. rewrite get_file_start by assumption.
  rewrite (get_file_loop_full_blocks _ _ _ _ _ _ _ _ []);
    [|apply lookup_insert_eq|lia|lia|unfold len in Hlen; lia].
  cbn [sent files stdout pbar app].
  replace (1 + Z.of_nat (Z.to_nat 65535)) with 65536 by lia.
  assert (Hno : ∀ p data, ¬ (unpack_opcode p = Ok DAT
                              ∧ unpack_dat p = Ok (65536, data))).
  { intros p data [_ Hu]. apply unpack_dat_fields in Hu. lia. }
  destruct rest as [|[dgram src] rest].
  - rewrite get_file_loop_timeout.
    eexists _, _. split; [reflexivity|]. cbn [files sent].
    rewrite insert_insert_eq, lookup_insert_eq.
    replace (512 * Z.to_nat 65535)%nat with (Z.to_nat (512 * 65535)) by lia.
    split; [reflexivity|].
    rewrite !length_app. unfold ack_sequence.
    rewrite length_fmap, length_seq. cbn [length]. lia.
  - match goal with
    | |- context [get_file_loop _ _ 65536 ?fs ?w0] =>
        destruct (get_file_loop_rejects local_filename dgram src rest
                    65536 fs w0 (Hno _)) as (e & Hloop)
    end.
    unalias. rewrite Hloop.
    eexists _, _. split; [reflexivity|]. cbn [files sent].
    rewrite insert_insert_eq, lookup_insert_eq.
    replace (512 * Z.to_nat 65535)%nat with (Z.to_nat (512 * 65535)) by lia.
    split; [reflexivity|].
    rewrite !length_app. unfold ack_sequence.
    rewrite length_fmap, length_seq. cbn [length]. lia.
Qed.

Lemma get_file_block_ceiling_witness :
  is_ascii_printable (py "big.bin") = true
  ∧ ∃ w' inbox',
      get_file (env := example_env) (py "host") 69 (py "big.bin") (py "out")
        (full_blocks (Z.to_nat 65535) 1
           (replicate (Z.to_nat (512 * 65535 + 100)) x00) (py "srv", 4021)
         ++ [([x00; x03; x00; x00] ++ replicate 100 x00, (py "srv", 4021))])
        (World [] ∅ [] 0)
      = (Raise (SystemExit 1), w', inbox').
Proof.
  assert (Hf : is_ascii_printable (py "big.bin") = true) by (vm_compute; reflexivity).
  split; [exact Hf|].
  destruct (get_file_block_ceiling (env := example_env)
              (py "host") 69 (py "big.bin") (py "out")
              (replicate (Z.to_nat (512 * 65535 + 100)) x00) (py "srv", 4021)
              [([x00; x03; x00; x00] ++ replicate 100 x00, (py "srv", 4021))]
              (World [] ∅ [] 0) Hf eq_refl eq_refl
              ltac:(unfold len; rewrite length_replicate; lia))
    as (w' & inbox' & Hg & _).
  exists w', inbox'. exact Hg.
Defined.

(** ** What the transfers touch *)

Lemma get_file_loop_invariant (local_filename : str) (inbox : list datagram) :
  ∀ (block_number file_size : Z) (w : world) (cur : bytes)
    (r : result bool) (w' : world) (inbox' : list datagram),
    files w !! local_filename = Some cur →
    get_file_loop local_filename inbox block_number file_size w = (r, w', inbox') →
    sent w `prefix_of` sent w'
    ∧ stdout w `prefix_of` stdout w'
    ∧ inbox' `suffix_of` inbox
    ∧ (∀ name, name ≠ local_filename → files w' !! name = files w !! name)
    ∧ ∃ more, files w' !! local_filename = Some (cur ++ more)
              ∧ pbar w' = pbar w + len more.
Proof.
  induction inbox as [|[dgram a] inbox IH];
    intros block_number file_size w cur r w' inbox' Hcur Hrun.
  - rewrite get_file_loop_timeout in Hrun. injection Hrun as <- <- <-.
    cbn [sent files stdout pbar].
    split; [reflexivity|]. split; [apply prefix_app_r; reflexivity|].
    split; [reflexivity|]. split; [reflexivity|].
    exists []. rewrite app_nil_r. split; [exact Hcur|unfold len; cbn; lia].
  - destruct (get_file_expected_dec block_number (received DEFAULT_BUFFER_SIZE dgram))
      as [(data & Ho & Hu)|Hn].
    + rewrite (get_file_loop_data _ _ _ _ _ _ _ _ Ho Hu) in Hrun. cbv zeta in Hrun.
      destruct (len data <? 512).
      * injection Hrun as <- <- <-. cbn [sent files stdout pbar].
        unalias. rewrite Hcur. cbn [default].
        split; [apply prefix_app_r; reflexivity|]. split; [reflexivity|].
        split; [apply suffix_cons_r; reflexivity|].
        split; [intros name Hne; apply lookup_insert_ne; congruence|].
        exists data. split; [apply lookup_insert_eq|reflexivity].
      * apply (IH _ _ _ (cur ++ data)) in Hrun;
          [|cbn [files]; unalias; rewrite Hcur; apply lookup_insert_eq].
        cbn [sent files stdout pbar] in Hrun.
        destruct Hrun as (Hs & Ho' & Hi & Hf & more & Hm & Hp).
        split; [etransitivity; [|exact Hs]; apply prefix_app_r; reflexivity|].
        split; [exact Ho'|]. split; [apply suffix_cons_r; exact Hi|].
        split.
        -- intros name Hne. rewrite (Hf name Hne).
           apply lookup_insert_ne. congruence.
        -- exists (data ++ more). rewrite app_assoc. split; [exact Hm|].
           rewrite Hp, len_app. lia.
    + destruct (get_file_loop_rejects local_filename dgram a inbox
                  block_number file_size w Hn) as (e & Hloop).
      unalias. rewrite Hloop in Hrun. injection Hrun as <- <- <-.
      cbn [sent files stdout pbar].
      split; [reflexivity|]. split; [apply prefix_app_r; reflexivity|].
      split; [apply suffix_cons_r; reflexivity|]. split; [reflexivity|].
      exists []. rewrite app_nil_r. split; [exact Hcur|unfold len; cbn; lia].
Qed.

Lemma get_file_invalid_name {env : Env} (server : str) (port : Z)
    (remote_filename local_filename : str) (inbox : list datagram) (w : world) :
  is_ascii_printable remote_filename = false →
  get_file server port remote_filename local_filename inbox w
  = (Raise (TFTPValueError
              (py "Invalid filename: " ++ remote_filename
               ++ py ". Not ASCII printable")), w, inbox).
Proof.
  intros Hf. unfold get_file, pack_rrq, mbind, M_bind, lift.
  rewrite (pack_request_invalid RRQ remote_filename DEFAULT_MODE Hf).
  reflexivity.
Qed.

(** X7. Whatever arrives and however it ends, [get_file] changes no file
    but the one it writes to, only adds to the log of sent datagrams and
    to the printed lines, and reads the datagrams in order. *)
Theorem get_file_footprint {env : Env} (server : str) (port : Z)
    (remote_filename local_filename : str) (inbox : list datagram) (w : world)
    (r : result bool) (w' : world) (inbox' : list datagram) :
  get_file server port remote_filename local_filename inbox w = (r, w', inbox') →
  sent w `prefix_of` sent w'
  ∧ stdout w `prefix_of` stdout w'
  ∧ inbox' `suffix_of` inbox
  ∧ ∀ name, name ≠ local_filename → files w' !! name = files w !! name.
Proof.
  intros Hrun. destruct (is_ascii_printable remote_filename) eqn:Hf.
  - destruct (sendto_error (server, port)) as [e|] eqn:Hse.
    { rewrite (get_file_sendto_raises _ _ _ _ _ _ e) in Hrun by assumption.
      injection Hrun as <- <- <-. repeat split; reflexivity. }
    destruct (open_error local_filename) as [e|] eqn:Hoe.
    { rewrite (get_file_open_raises _ _ _ _ _ _ e) in Hrun by assumption.
      injection Hrun as <- <- <-. cbn [sent files stdout].
      split; [apply prefix_app_r; reflexivity|]. repeat split; reflexivity. }
    rewrite get_file_start in Hrun by assumption.
    apply (get_file_loop_invariant _ _ _ _ _ []) in Hrun;
      [|apply lookup_insert_eq].
    cbn [sent files stdout pbar] in Hrun.
    destruct Hrun as (Hs & Ho & Hi & Hfl & _).
    split; [etransitivity; [|exact Hs]; apply prefix_app_r; reflexivity|].
    split; [etransitivity; [|exact Ho]; apply prefix_app_r; reflexivity|].
    split; [exact Hi|].
    intros name Hne. rewrite (Hfl name Hne). apply lookup_insert_ne. congruence.
  - rewrite get_file_invalid_name in Hrun by exact Hf.
    injection Hrun as <- <- <-. repeat split; reflexivity.
Qed.

Lemma get_file_footprint_witness :
  get_file (env := example_env) (py "host") 69 (py "f") (py "out")
    [([x00; x03; x00; x01; x41], (py "srv", 4021))]
    (World [] {[ py "other" := [x42] ]} [] 0)
  = (Ok true,
     World [([x00; x01] ++ ascii_bytes (py "f") ++ [x00]
               ++ ascii_bytes (py "octet") ++ [x00], (py "host", 69));
            ([x00; x04; x00; x01], (py "srv", 4021))]
           (<[py "out" := [x41]]> {[ py "other" := [x42] ]})
           [Text (py "Downloading 'f' from server host...")] 1,
     [])
  ∧ (<[py "out" := [x41]]> {[ py "other" := [x42] ]} : gmap str bytes) !! py "other"
    = Some [x42].
Proof.
  assert (Hrun : get_file (env := example_env) (py "host") 69 (py "f") (py "out")
                   [([x00; x03; x00; x01; x41], (py "srv", 4021))]
                   (World [] {[ py "other" := [x42] ]} [] 0)
                 = (Ok true,
                    World [([x00; x01] ++ ascii_bytes (py "f") ++ [x00]
                              ++ ascii_bytes (py "octet") ++ [x00], (py "host", 69));
                           ([x00; x04; x00; x01], (py "srv", 4021))]
                          (<[py "out" := [x41]]> {[ py "other" := [x42] ]})
                          [Text (py "Downloading 'f' from server host...")] 1,
                    [])) by (vm_compute; reflexivity).
  split; [exact Hrun|].
  destruct (get_file_footprint (env := example_env) _ _ _ _ _ _ _ _ _ Hrun)
    as (_ & _ & _ & Hfl).
  cbn [files] in Hfl. rewrite Hfl by (vm_compute; discriminate). reflexivity.
Defined.

(** X8. After a [get_file] whose request has left and whose local file
    could be opened, the local file exists and holds exactly as many
    bytes as the progress bar counted, however the transfer ended; what
    the file held before plays no part: the file is emptied before the
    first datagram is awaited. *)
Theorem get_file_destination {env : Env} (server : str) (port : Z)
    (remote_filename local_filename : str) (inbox : list datagram) (w : world)
    (r : result bool) (w' : world) (inbox' : list datagram) (old : bytes) :
  is_ascii_printable remote_filename = true →
  sendto_error (server, port) = None →
  open_error local_filename = None →
  get_file server port remote_filename local_filename inbox w = (r, w', inbox') →
  (∃ written, files w' !! local_filename = Some written ∧ pbar w' = len written)
  ∧ get_file server port remote_filename local_filename inbox
      (World (sent w) (<[local_filename := old]> (files w)) (stdout w) (pbar w))
    = (r, w', inbox')
  ∧ (inbox = [] → files w' !! local_filename = Some []).
Proof.
  intros Hf Hse Hoe Hrun. split; [|split].
  - rewrite get_file_start in Hrun by assumption.
    apply (get_file_loop_invariant _ _ _ _ _ []) in Hrun;
      [|apply lookup_insert_eq].
    destruct Hrun as (_ & _ & _ & _ & more & Hm & Hp).
    exists more. split; [exact Hm|]. cbn [pbar] in Hp. lia.
  - rewrite get_file_start by assumption. cbn [sent files stdout pbar].
    rewrite insert_insert_eq. rewrite get_file_start in Hrun by assumption.
    exact Hrun.
  - intros ->. rewrite get_file_start in Hrun by assumption.
    rewrite get_file_loop_timeout in Hrun. injection Hrun as <- <- <-.
    apply lookup_insert_eq.
Qed.

Lemma get_file_destination_witness :
  is_ascii_printable (py "f") = true
  ∧ get_file (env := example_env) (py "host") 69 (py "f") (py "out") []
      (World [] {[ py "out" := [x41; x42; x43] ]} [] 0)
    = (Raise (SystemExit 1),
       World [([x00; x01] ++ ascii_bytes (py "f") ++ [x00]
                 ++ ascii_bytes (py "octet") ++ [x00], (py "host", 69))]
             {[ py "out" := [] ]}
             [Text (py "Downloading 'f' from server host...");
              ErrorLine SocketTimeout] 0,
       [])
  ∧ ∃ written, ({[ py "out" := [] ]} : gmap str bytes) !! py "out" = Some written
               ∧ 0 = len written.
Proof.
  assert (Hf : is_ascii_printable (py "f") = true) by (vm_compute; reflexivity).
  assert (Hrun : get_file (env := example_env) (py "host") 69 (py "f") (py "out") []
                   (World [] {[ py "out" := [x41; x42; x43] ]} [] 0)
                 = (Raise (SystemExit 1),
                    World [([x00; x01] ++ ascii_bytes (py "f") ++ [x00]
                              ++ ascii_bytes (py "octet") ++ [x00], (py "host", 69))]
                          {[ py "out" := [] ]}
                          [Text (py "Downloading 'f' from server host...");
                           ErrorLine SocketTimeout] 0,
                    [])) by (vm_compute; reflexivity).
  split; [exact Hf|]. split; [exact Hrun|].
  exact (proj1 (get_file_destination (env := example_env)
                  (py "host") 69 (py "f") (py "out") []
                  (World [] {[ py "out" := [x41; x42; x43] ]} [] 0)
                  _ _ _ [] Hf eq_refl eq_refl Hrun)).
Defined.

Lemma put_file_expected_dec (block_number : Z) (packet : bytes) :
  (unpack_opcode packet = Ok ACK ∧ unpack_ack packet = Ok block_number)
  ∨ ¬ (unpack_opcode packet = Ok ACK ∧ unpack_ack packet = Ok block_number).
Proof.
  destruct (unpack_opcode packet) as [o|e]; [|right; intros [[=] _]].
  destruct (decide (o = ACK)) as [->|Ho]; [|right; intros [[=] _]; contradiction].
  destruct (unpack_ack packet) as [n|e]; [|right; intros [_ [=]]].
  destruct (decide (n = block_number)) as [->|Hn]; [left; eauto|].
  right. intros [_ [= ?]]. contradiction.
Qed.

Lemma put_file_loop_invariant (inbox : list datagram) :
  ∀ (in_file : bytes) (block_number : Z) (w : world)
    (r : result bool) (w' : world) (inbox' : list datagram),
    put_file_loop inbox in_file block_number w = (r, w', inbox') →
    files w' = files w ∧ stdout w' = stdout w
    ∧ sent w `prefix_of` sent w' ∧ inbox' `suffix_of` inbox.
Proof.
  induction inbox as [|[dgram a] inbox IH];
    intros in_file block_number w r w' inbox' Hrun.
  - injection Hrun as <- <- <-. repeat split; reflexivity.
  - destruct (put_file_expected_dec block_number (received DEFAULT_BUFFER_SIZE dgram))
      as [[Ho Hu]|Hn].
    + destruct (unpack_ack_fields _ _ Hu) as [Hb _].
      destruct (decide (block_number < 65535)) as [Hlt|Hge].
      * rewrite (put_file_loop_ack _ _ _ _ _ _ Ho Hu Hlt) in Hrun.
        cbv zeta in Hrun. destruct (len (take 512 in_file) <? 512).
        -- injection Hrun as <- <- <-. cbn [sent files stdout].
           split; [reflexivity|]. split; [reflexivity|].
           split; [apply prefix_app_r; reflexivity|apply suffix_cons_r; reflexivity].
        -- apply IH in Hrun. cbn [sent files stdout] in Hrun.
           destruct Hrun as (Hf & Hs & Hp & Hi).
           split; [exact Hf|]. split; [exact Hs|].
           split; [etransitivity; [|exact Hp]; apply prefix_app_r; reflexivity|].
           apply suffix_cons_r. exact Hi.
      * assert (block_number = 65535) as -> by lia.
        rewrite (put_file_loop_ack_last _ _ _ _ _ Ho Hu) in Hrun.
        injection Hrun as <- <- <-.
        split; [reflexivity|]. split; [reflexivity|].
        split; [reflexivity|apply suffix_cons_r; reflexivity].
    + destruct (put_file_loop_rejects dgram a inbox in_file block_number w Hn)
        as (e & Hloop).
      unalias. rewrite Hloop in Hrun. injection Hrun as <- <- <-.
      split; [reflexivity|]. split; [reflexivity|].
      split; [reflexivity|apply suffix_cons_r; reflexivity].
Qed.

(** X9. Whatever arrives and however it ends, [put_file] changes no
    file, only adds to the log of sent datagrams and to the printed
    lines, and reads the datagrams in order. *)
Theorem put_file_footprint (server : str) (port : Z)
    (local_filename remote_filename : str) (inbox : list datagram) (w : world)
    (r : result bool) (w' : world) (inbox' : list datagram) :
  put_file server port local_filename remote_filename inbox w = (r, w', inbox') →
  files w' = files w
  ∧ sent w `prefix_of` sent w'
  ∧ stdout w `prefix_of` stdout w'
  ∧ inbox' `suffix_of` inbox.
Proof.
  unfold put_file, pack_wrq, mbind, M_bind, lift, open_rb.
  destruct (files w !! local_filename) as [content|].
  - destruct (_pack_rrq_wrq WRQ remote_filename DEFAULT_MODE) as [wrq|e].
    + cbn [sendto print tqdm mret M_ret sent files stdout pbar].
      match goal with
      | |- context [put_file_loop inbox content 0 ?w0] =>
          pose proof (put_file_loop_invariant inbox content 0 w0) as Hinv;
          destruct (put_file_loop inbox content 0 w0) as [[r1 w1] inbox1]
      end.
      destruct (Hinv _ _ _ eq_refl) as (Hf & Ho & Hs & Hi).
      cbn [sent files stdout] in *.
      destruct r1 as [b|e]; cbn [handle_exception].
      * intros [= <- <- <-]. split; [exact Hf|].
        split; [etransitivity; [|exact Hs]; apply prefix_app_r; reflexivity|].
        split; [rewrite Ho; apply prefix_app_r; reflexivity|exact Hi].
      * destruct (is_Exception e); intros [= <- <- <-]; cbn [sent files stdout].
        -- split; [exact Hf|].
           split; [etransitivity; [|exact Hs]; apply prefix_app_r; reflexivity|].
           split; [rewrite Ho; rewrite <- app_assoc; apply prefix_app_r; reflexivity
                  |exact Hi].
        -- split; [exact Hf|].
           split; [etransitivity; [|exact Hs]; apply prefix_app_r; reflexivity|].
           split; [rewrite Ho; apply prefix_app_r; reflexivity|exact Hi].
    + cbn [handle_exception]. destruct (is_Exception e); intros [= <- <- <-];
        cbn [sent files stdout];
        (split; [reflexivity|]); (split; [reflexivity|]);
        (split; [try apply prefix_app_r; reflexivity|reflexivity]).
  - cbn. intros [= <- <- <-]. cbn [sent files stdout].
    split; [reflexivity|]. split; [reflexivity|].
    split; [apply prefix_app_r; reflexivity|reflexivity].
Qed.

Lemma put_file_footprint_witness :
  put_file (py "host") 69 (py "in") (py "up")
    [([x00; x04; x00; x00], (py "srv", 4021))]
    (World [] {[ py "in" := [x41] ]} [] 0)
  = (Ok true,
     World [([x00; x02] ++ ascii_bytes (py "up") ++ [x00]
               ++ ascii_bytes (py "octet") ++ [x00], (py "host", 69));
            ([x00; x03; x00; x01; x41], (py "srv", 4021))]
           {[ py "in" := [x41] ]}
           [Text (py "Uploading 'in' (1 bytes) to server at host...")] 1,
     [])
  ∧ [] `suffix_of` [([x00; x04; x00; x00], (py "srv", 4021))].
Proof.
  assert (Hrun : put_file (py "host") 69 (py "in") (py "up")
                   [([x00; x04; x00; x00], (py "srv", 4021))]
                   (World [] {[ py "in" := [x41] ]} [] 0)
                 = (Ok true,
                    World [([x00; x02] ++ ascii_bytes (py "up") ++ [x00]
                              ++ ascii_bytes (py "octet") ++ [x00], (py "host", 69));
                           ([x00; x03; x00; x01; x41], (py "srv", 4021))]
                          {[ py "in" := [x41] ]}
                          [Text (py "Uploading 'in' (1 bytes) to server at host...")] 1,
                    [])) by (vm_compute; reflexivity).
  split; [exact Hrun|].
  exact (proj2 (proj2 (proj2 (put_file_footprint _ _ _ _ _ _ _ _ _ Hrun)))).
Defined.

(** X10. When the local file does not exist, [put_file] sends nothing,
    not even the request: it prints the error of [open] and exits with
    status 1. *)
Theorem put_file_missing_file (server : str) (port : Z)
    (local_filename remote_filename : str) (inbox : list datagram) (w : world) :
  files w !! local_filename = None →
  put_file server port local_filename remote_filename inbox w
  = (Raise (SystemExit 1),
     World (sent w) (files w) (stdout w ++ [ErrorLine FileNotFoundError]) (pbar w),
     inbox).
Proof.
  intros Hc. unfold put_file, mbind, M_bind, open_rb. unalias. rewrite Hc.
  reflexivity.
Qed.

Lemma put_file_missing_file_witness :
  put_file (py "host") 69 (py "in") (py "up")
    [([x00; x04; x00; x00], (py "srv", 4021))] (World [] ∅ [] 0)
  = (Raise (SystemExit 1), World [] ∅ [ErrorLine FileNotFoundError] 0,
     [([x00; x04; x00; x00], (py "srv", 4021))]).
Proof.
  exact (put_file_missing_file (py "host") 69 (py "in") (py "up")
           [([x00; x04; x00; x00], (py "srv", 4021))] (World [] ∅ [] 0)
           (lookup_empty _)).
Defined.

(** ** [dir_file] beside [get_file] *)

Lemma dir_file_step_data (local_filename : str) (block_number : Z)
    (dat_packet : bytes) (server_addr : addr) (payload : bytes) (w : world) :
  unpack_opcode dat_packet = Ok DAT →
  unpack_dat dat_packet = Ok (block_number, payload) →
  dir_file_step local_filename block_number dat_packet server_addr w
  = (Ok (if len payload <? 512 then Break else Next (block_number + 1)),
     World (sent w ++ [([x00; x04] ++ uint16_be block_number, server_addr)])
           (<[local_filename := default [] (files w !! local_filename) ++ payload]>
              (files w))
           (stdout w) (pbar w)).
Proof.
  intros Ho Hd. destruct (unpack_dat_fields _ _ _ Hd) as [Hb _].
  unfold dir_file_step, mbind, M_bind, lift. rewrite Ho.
  cbn [Z.eqb DAT Pos.eqb]. rewrite Hd, Z.eqb_refl.
  unfold write, sendto. cbn [sent files stdout pbar].
  rewrite (pack_ack_wire _ Hb). unfold MAX_DATA_LEN.
  destruct (len payload <? 512); reflexivity.
Qed.

(** On a datagram that is not the expected block the two loops raise the
    same exception. *)
Lemma dir_file_step_raises (local_filename : str) (block_number file_size : Z)
    (dat_packet : bytes) (server_addr : addr) (w1 w2 : world) (e : exn) :
  (∀ data, ¬ (unpack_opcode dat_packet = Ok DAT
              ∧ unpack_dat dat_packet = Ok (block_number, data))) →
  get_file_step local_filename block_number file_size dat_packet server_addr w1
  = (Raise e, w1) →
  dir_file_step local_filename block_number dat_packet server_addr w2
  = (Raise e, w2).
Proof.
  intros Hn. unfold get_file_step, dir_file_step, mbind, M_bind, lift, raise, lift.
  destruct (unpack_opcode dat_packet) as [opcode|e0] eqn:Eo;
    [|intros [= <-]; reflexivity].
  destruct (Z.eqb_spec opcode DAT) as [->|Hd].
  - destruct (unpack_dat dat_packet) as [[n data]|e0] eqn:Ed;
      [|intros [= <-]; reflexivity].
    destruct (Z.eqb_spec n block_number) as [->|Hne];
      [destruct (Hn data); split; reflexivity|].
    intros [= <-]. reflexivity.
  - destruct (opcode =? ERR); [|intros [= <-]; reflexivity].
    destruct (unpack_err dat_packet) as [[c m]|e0]; intros [= <-]; reflexivity.
Qed.

Lemma dir_file_loop_timeout (local_filename : str) (block_number : Z) (w : world) :
  dir_file_loop local_filename [] block_number w
  = (Raise (SystemExit 1),
     World (sent w) (files w)
           (stdout w ++ [Text ([10] ++ py "Server not responding. Exiting.")])
           (pbar w),
     []).
Proof. reflexivity. Qed.

Lemma dir_file_loop_data (local_filename : str) (dgram : bytes)
    (server_addr : addr) (inbox : list datagram) (block_number : Z)
    (payload : bytes) (w : world) :
  unpack_opcode (received DEFAULT_BUFFER_SIZE dgram) = Ok DAT →
  unpack_dat (received DEFAULT_BUFFER_SIZE dgram) = Ok (block_number, payload) →
  dir_file_loop local_filename ((dgram, server_addr) :: inbox) block_number w
  = let w' :=
      World (sent w ++ [([x00; x04] ++ uint16_be block_number, server_addr)])
            (<[local_filename := default [] (files w !! local_filename) ++ payload]>
               (files w))
            (stdout w) (pbar w) in
    if len payload <? 512 then (Ok (), w', inbox)
    else dir_file_loop local_filename inbox (block_number + 1) w'.
Proof.
  intros Ho Hd. cbn [dir_file_loop].
  rewrite (dir_file_step_data _ _ _ _ _ _ Ho Hd).
  cbn [dir_file_handlers handle_exception].
  destruct (len payload <? 512); reflexivity.
Qed.

Lemma dir_file_loop_rejects (local_filename : str) (dgram : bytes)
    (server_addr : addr) (inbox : list datagram)
    (block_number file_size : Z) (w1 w2 : world) :
  (∀ data, ¬ (unpack_opcode (received DEFAULT_BUFFER_SIZE dgram) = Ok DAT
              ∧ unpack_dat (received DEFAULT_BUFFER_SIZE dgram)
                = Ok (block_number, data))) →
  ∃ e,
    e ≠ SocketTimeout ∧ is_Exception e = true
    ∧ get_file_loop local_filename ((dgram, server_addr) :: inbox)
        block_number file_size w1
      = (Raise (SystemExit 1),
         World (sent w1) (files w1) (stdout w1 ++ [ErrorLine e]) (pbar w1),
         inbox)
    ∧ dir_file_loop local_filename ((dgram, server_addr) :: inbox) block_number w2
      = (Raise (SystemExit 1),
         World (sent w2) (files w2) (stdout w2 ++ [ErrorLine e]) (pbar w2),
         inbox).
Proof.
  intros Hn.
  destruct (get_file_step_rejects block_number _ Hn) as (e & Hs & Hr).
  destruct (rejection_is_Exception _ _ _ Hr) as [He Ht].
  exists e. split; [exact Ht|]. split; [exact He|]. split.
  - cbn [get_file_loop]. unfold exit_on_exception. rewrite Hs.
    cbn [handle_exception]. rewrite He. reflexivity.
  - cbn [dir_file_loop].
    rewrite (dir_file_step_raises local_filename block_number file_size _
               server_addr w1 w2 e Hn (Hs _ _ _ _)).
    destruct e; try discriminate He; try contradiction; reflexivity.
Qed.

(** The loops of [get_file] and [dir_file], run on the same datagrams
    from worlds with the same log and the same files. *)
Lemma dir_file_loop_sim (local_filename : str) (inbox : list datagram) :
  ∀ (block_number file_size : Z) (w1 w2 : world),
    sent w1 = sent w2 → files w1 = files w2 →
    let g := get_file_loop local_filename inbox block_number file_size w1 in
    let d := dir_file_loop local_filename inbox block_number w2 in
    sent d.1.2 = sent g.1.2 ∧ files d.1.2 = files g.1.2 ∧ d.2 = g.2
    ∧ pbar d.1.2 = pbar w2
    ∧ ((g.1.1 = Ok true ∧ d.1.1 = Ok ()
        ∧ stdout g.1.2 = stdout w1 ∧ stdout d.1.2 = stdout w2)
       ∨ (g.1.1 = Raise (SystemExit 1) ∧ d.1.1 = Raise (SystemExit 1)
          ∧ ((g.2 = []
              ∧ stdout g.1.2 = stdout w1 ++ [ErrorLine SocketTimeout]
              ∧ stdout d.1.2
                = stdout w2 ++ [Text ([10] ++ py "Server not responding. Exiting.")])
             ∨ ∃ e, e ≠ SocketTimeout ∧ is_Exception e = true
                    ∧ stdout g.1.2 = stdout w1 ++ [ErrorLine e]
                    ∧ stdout d.1.2 = stdout w2 ++ [ErrorLine e]))).
Proof.
  induction inbox as [|[dgram a] inbox IH];
    intros block_number file_size w1 w2 Hs Hf g d; subst g d.
  - rewrite get_file_loop_timeout, dir_file_loop_timeout. cbn [fst snd sent files stdout pbar].
    split; [congruence|]. split; [congruence|]. split; [reflexivity|].
    split; [reflexivity|]. right. split; [reflexivity|]. split; [reflexivity|].
    left. repeat split; reflexivity.
  - destruct (get_file_expected_dec block_number (received DEFAULT_BUFFER_SIZE dgram))
      as [(data & Ho & Hu)|Hn].
    + rewrite (get_file_loop_data _ _ _ _ _ _ _ _ Ho Hu),
        (dir_file_loop_data _ _ _ _ _ _ _ Ho Hu). cbv zeta.
      destruct (len data <? 512).
      * cbn [fst snd sent files stdout pbar]. rewrite Hs, Hf.
        split; [reflexivity|]. split; [reflexivity|]. split; [reflexivity|].
        split; [reflexivity|]. left. repeat split; reflexivity.
      * match goal with
        | |- context [get_file_loop _ _ ?b ?f ?u1] =>
            match goal with
            | |- context [dir_file_loop _ _ _ ?u2] =>
                specialize (IH b f u1 u2)
            end
        end.
        cbn [sent files stdout pbar] in IH. rewrite Hs, Hf in IH.
        specialize (IH eq_refl eq_refl). cbv zeta in IH. rewrite Hs, Hf.
        exact IH.
    + destruct (dir_file_loop_rejects local_filename dgram a inbox block_number
                  file_size w1 w2 Hn) as (e & Ht & He & Hg & Hd).
      unalias. rewrite Hg, Hd. cbn [fst snd sent files stdout pbar].
      split; [congruence|]. split; [congruence|]. split; [reflexivity|].
      split; [reflexivity|]. right. split; [reflexivity|]. split; [reflexivity|].
      right. exists e. repeat split; assumption || reflexivity.
Qed.

Lemma dir_file_start {env : Env} (server : str) (port : Z)
    (remote_filename local_filename : str) (inbox : list datagram) (w : world) :
  is_ascii_printable remote_filename = true →
  sendto_error (server, port) = None →
  open_error local_filename = None →
  dir_file server port remote_filename local_filename inbox w
  = dir_file_loop local_filename inbox 1
      (World (sent w ++ [([x00; x01] ++ ascii_bytes remote_filename ++ [x00]
                            ++ ascii_bytes DEFAULT_MODE ++ [x00], (server, port))])
             (<[local_filename := []]> (files w))
             (stdout w) (pbar w)).
Proof.
  intros Hf Hs Ho.
  unfold dir_file, pack_rrq, mbind, M_bind, lift, sendto_server, open_wb.
  cbv zeta.
  rewrite (pack_request_wire RRQ remote_filename DEFAULT_MODE
             (ascii_bytes DEFAULT_MODE)); [|unfold RRQ; lia|exact Hf|reflexivity].
  rewrite Hs. cbn [sendto sent files stdout pbar]. rewrite Ho. reflexivity.
Qed.

Lemma dir_file_sendto_raises {env : Env} (server : str) (port : Z)
    (remote_filename local_filename : str) (inbox : list datagram) (w : world)
    (e : exn) :
  is_ascii_printable remote_filename = true →
  sendto_error (server, port) = Some e →
  dir_file server port remote_filename local_filename inbox w
  = (Raise e, w, inbox).
Proof.
  intros Hf Hs.
  unfold dir_file, pack_rrq, mbind, M_bind, lift, sendto_server. cbv zeta.
  rewrite (pack_request_wire RRQ remote_filename DEFAULT_MODE
             (ascii_bytes DEFAULT_MODE)); [|unfold RRQ; lia|exact Hf|reflexivity].
  rewrite Hs. reflexivity.
Qed.

Lemma dir_file_open_raises {env : Env} (server : str) (port : Z)
    (remote_filename local_filename : str) (inbox : list datagram) (w : world)
    (e : exn) :
  is_ascii_printable remote_filename = true →
  sendto_error (server, port) = None →
  open_error local_filename = Some e →
  dir_file server port remote_filename local_filename inbox w
  = (Raise e,
     World (sent w ++ [([x00; x01] ++ ascii_bytes remote_filename ++ [x00]
                          ++ ascii_bytes DEFAULT_MODE ++ [x00], (server, port))])
           (files w) (stdout w) (pbar w),
     inbox).
Proof.
  intros Hf Hs Ho.
  unfold dir_file, pack_rrq, mbind, M_bind, lift, sendto_server, open_wb.
  cbv zeta.
  rewrite (pack_request_wire RRQ remote_filename DEFAULT_MODE
             (ascii_bytes DEFAULT_MODE)); [|unfold RRQ; lia|exact Hf|reflexivity].
  rewrite Hs. cbn [sendto sent files stdout pbar]. rewrite Ho. reflexivity.
Qed.

Lemma dir_file_invalid_name {env : Env} (server : str) (port : Z)
    (remote_filename local_filename : str) (inbox : list datagram) (w : world) :
  is_ascii_printable remote_filename = false →
  dir_file server port remote_filename local_filename inbox w
  = (Raise (TFTPValueError
              (py "Invalid filename: " ++ remote_filename
               ++ py ". Not ASCII printable")), w, inbox).
Proof.
  intros Hf. unfold dir_file, pack_rrq, mbind, M_bind, lift.
  rewrite (pack_request_invalid RRQ remote_filename DEFAULT_MODE Hf).
  reflexivity.
Qed.

(** X11. [dir_file] is [get_file] on the wire and on the disk: for every
    name and whatever arrives, the two send the same datagrams, leave
    the same files, stop at the same datagram, and one succeeds or
    raises exactly when the other does, with the same exception; where
    [get_file] returns [True], [dir_file] returns [None]. *)
Theorem dir_file_as_get_file {env : Env} (server : str) (port : Z)
    (remote_filename local_filename : str) (inbox : list datagram) (w : world) :
  let g := get_file server port remote_filename local_filename inbox w in
  let d := dir_file server port remote_filename local_filename inbox w in
  sent d.1.2 = sent g.1.2 ∧ files d.1.2 = files g.1.2 ∧ d.2 = g.2
  ∧ (g.1.1 = Ok true ↔ d.1.1 = Ok ())
  ∧ (∀ e, g.1.1 = Raise e ↔ d.1.1 = Raise e).
Proof.
  intros g d. subst g d.
  destruct (is_ascii_printable remote_filename) eqn:Hf.
  - destruct (sendto_error (server, port)) as [e0|] eqn:Hse.
    { rewrite (get_file_sendto_raises _ _ _ _ _ _ e0),
        (dir_file_sendto_raises _ _ _ _ _ _ e0) by assumption.
      cbn [fst snd]. split; [reflexivity|]. split; [reflexivity|].
      split; [reflexivity|]. split; [split; discriminate|].
      intros e. split; intros [= <-]; reflexivity. }
    destruct (open_error local_filename) as [e0|] eqn:Hoe.
    { rewrite (get_file_open_raises _ _ _ _ _ _ e0),
        (dir_file_open_raises _ _ _ _ _ _ e0) by assumption.
      cbn [fst snd]. split; [reflexivity|]. split; [reflexivity|].
      split; [reflexivity|]. split; [split; discriminate|].
      intros e. split; intros [= <-]; reflexivity. }
    rewrite get_file_start, dir_file_start by assumption.
    match goal with
    | |- context [get_file_loop _ _ ?b ?f ?u1] =>
        match goal with
        | |- context [dir_file_loop _ _ _ ?u2] =>
            pose proof (dir_file_loop_sim local_filename inbox b f u1 u2
                          eq_refl eq_refl) as H
        end
    end.
    cbv zeta in H. destruct H as (Hs & Hfl & Hi & _ & Hr).
    split; [exact Hs|]. split; [exact Hfl|]. split; [exact Hi|].
    destruct Hr as [(Hg & Hd & _)|(Hg & Hd & _)]; unalias; rewrite Hg, Hd.
    + split; [tauto|]. intros e. split; discriminate.
    + split; [split; discriminate|]. intros e. split; intros [= <-]; reflexivity.
  - rewrite get_file_invalid_name, dir_file_invalid_name by exact Hf.
    cbn [fst snd]. split; [reflexivity|]. split; [reflexivity|].
    split; [reflexivity|]. split; [split; discriminate|].
    intros e. split; intros [= <-]; reflexivity.
Qed.

(** X12. What [dir_file] prints, once its request has left and its local
    file is open.  It never prints the line of the download and never
    moves the progress bar.  A listing that succeeds
    prints nothing.  When the process exits, one line was printed: the
    sentence "Server not responding. Exiting." after an empty line when
    the datagrams ran out, where [get_file] prints the timeout as an
    error; and the error itself, as [get_file] does, for a datagram
    that was not the expected block. *)
Theorem dir_file_reports {env : Env} (server : str) (port : Z)
    (remote_filename local_filename : str) (inbox : list datagram) (w : world) :
  is_ascii_printable remote_filename = true →
  sendto_error (server, port) = None →
  open_error local_filename = None →
  let g := get_file server port remote_filename local_filename inbox w in
  let d := dir_file server port remote_filename local_filename inbox w in
  let downloading :=
    Text (py "Downloading '" ++ remote_filename
          ++ py "' from server " ++ server ++ py "...") in
  pbar d.1.2 = pbar w
  ∧ ((d.1.1 = Ok () ∧ stdout d.1.2 = stdout w)
     ∨ (d.1.1 = Raise (SystemExit 1)
        ∧ ((d.2 = []
            ∧ stdout d.1.2
              = stdout w ++ [Text ([10] ++ py "Server not responding. Exiting.")]
            ∧ stdout g.1.2 = stdout w ++ [downloading; ErrorLine SocketTimeout])
           ∨ ∃ e, e ≠ SocketTimeout ∧ is_Exception e = true
                  ∧ stdout d.1.2 = stdout w ++ [ErrorLine e]
                  ∧ stdout g.1.2 = stdout w ++ [downloading; ErrorLine e])))
  ∧ (inbox = [] →
     stdout d.1.2 = stdout w ++ [Text ([10] ++ py "Server not responding. Exiting.")]).
Proof.
  intros Hf Hse Hoe g d downloading. subst g d downloading. split; [|split].
  - rewrite dir_file_start by assumption.
    match goal with
    | |- context [dir_file_loop _ _ _ ?u2] =>
        pose proof (dir_file_loop_sim local_filename inbox 1 0 u2 u2
                      eq_refl eq_refl) as H
    end.
    cbv zeta in H. destruct H as (_ & _ & _ & Hp & _). exact Hp.
  - rewrite get_file_start, dir_file_start by assumption.
    match goal with
    | |- context [get_file_loop _ _ ?b ?f ?u1] =>
        match goal with
        | |- context [dir_file_loop _ _ _ ?u2] =>
            pose proof (dir_file_loop_sim local_filename inbox b f u1 u2
                          eq_refl eq_refl) as H
        end
    end.
    cbv zeta in H. cbn [stdout] in H.
    destruct H as (_ & _ & Hi & _ & [(_ & Hd & _ & Ho)|(_ & Hd & Ho)]).
    + left. split; [exact Hd|exact Ho].
    + right. split; [exact Hd|].
      destruct Ho as [(Hn & Hg & Ho)|(e & Ht & He & Hg & Ho)].
      * left. split; [rewrite Hi; exact Hn|]. split; [exact Ho|].
        rewrite Hg, <- app_assoc. reflexivity.
      * right. exists e. split; [exact Ht|]. split; [exact He|].
        split; [exact Ho|]. rewrite Hg, <- app_assoc. reflexivity.
  - intros ->. rewrite dir_file_start by assumption. reflexivity.
Qed.

Lemma dir_file_reports_witness :
  is_ascii_printable (py "list.txt") = true
  ∧ stdout (dir_file (env := example_env) (py "host") 69 (py "list.txt")
              (py "list.txt") [] (World [] ∅ [] 0)).1.2
    = [] ++ [Text ([10] ++ py "Server not responding. Exiting.")].
Proof.
  assert (Hf : is_ascii_printable (py "list.txt") = true) by (vm_compute; reflexivity).
  split; [exact Hf|].
  exact (proj2 (proj2 (dir_file_reports (env := example_env)
                         (py "host") 69 (py "list.txt") (py "list.txt") []
                         (World [] ∅ [] 0) Hf eq_refl eq_refl)) eq_refl).
Defined.

(** X13. Once the request has left and the local file is open, a
    listing from a server that sends the content block by block
    succeeds: [dir_file] returns [None], the local file holds exactly
    the content, every block was acknowledged to the address it came
    from, nothing was printed and what follows the last block stays
    unread. *)
Theorem dir_file_lists {env : Env} (server : str) (port : Z)
    (remote_filename local_filename : str) (content : bytes) (a : addr)
    (rest : list datagram) (w : world) :
  is_ascii_printable remote_filename = true →
  sendto_error (server, port) = None →
  open_error local_filename = None →
  len content < 512 * 65535 →
  dir_file server port remote_filename local_filename
    (data_sequence 1 content a ++ rest) w
  = (Ok (),
     World (sent w ++ [([x00; x01] ++ ascii_bytes remote_filename ++ [x00]
                          ++ ascii_bytes DEFAULT_MODE ++ [x00], (server, port))]
            ++ ack_sequence 1 (S (length content / 512)) a)
           (<[local_filename := content]> (files w))
           (stdout w) (pbar w),
     rest).
Proof.
  intros Hf Hse Hoe Hlen. rewrite dir_file_start by assumption.
  assert (Hn : Z.of_nat (length content / 512) < 65535)
    by (destruct (length_div_512 content); unfold len in Hlen; lia).
  match goal with
  | |- dir_file_loop ?l ?i ?b ?u = _ =>
      pose proof (dir_file_loop_sim l i 1 0 u u eq_refl eq_refl) as H;
      cbv zeta in H;
      remember (dir_file_loop l i b u) as d eqn:Hd in *
  end.
  clear Hd. destruct d as [[r w'] inbox'].
  rewrite (get_file_loop_data_sequence _ _ _ _ _ _ _ []) in H;
    [|apply lookup_insert_eq|lia|lia].
  cbn [fst snd sent files stdout pbar app] in H.
  destruct H as (Hs & Hfl & Hi & Hp & [(_ & Hd & _ & Ho)|([=] & _)]).
  subst r inbox'. f_equal. f_equal.
  apply world_eq.
  - rewrite Hs, <- app_assoc. reflexivity.
  - rewrite Hfl. apply insert_insert_eq.
  - exact Ho.
  - exact Hp.
Qed.

Lemma dir_file_lists_witness :
  is_ascii_printable (py "list.txt") = true
  ∧ dir_file (env := example_env) (py "host") 69 (py "list.txt") (py "out")
      (data_sequence 1 (replicate 600 x41) (py "srv", 4021) ++ [])
      (World [] ∅ [] 0)
    = (Ok (),
       World ([] ++ [([x00; x01] ++ ascii_bytes (py "list.txt") ++ [x00]
                         ++ ascii_bytes DEFAULT_MODE ++ [x00], (py "host", 69))]
              ++ ack_sequence 1 (S (length (replicate 600 x41) / 512))
                   (py "srv", 4021))
             (<[py "out" := replicate 600 x41]> ∅) [] 0,
       []).
Proof.
  assert (Hf : is_ascii_printable (py "list.txt") = true) by (vm_compute; reflexivity).
  split; [exact Hf|].
  exact (dir_file_lists (env := example_env)
           (py "host") 69 (py "list.txt") (py "out")
           (replicate 600 x41) (py "srv", 4021) [] (World [] ∅ [] 0) Hf
           eq_refl eq_refl ltac:(vm_compute; reflexivity)).
Defined.

(** ** What the decoders accept *)

(** X14. [unpack_opcode] reads the first two bytes and nothing else: it
    returns an opcode exactly for the packets that start with a zero
    byte and a byte from 1 to 5, whatever follows; a packet of less
    than two bytes, and no other, makes [struct] raise its error; every
    other packet is refused with [TFTPValueError]. *)
Theorem unpack_opcode_accepts (packet : bytes) :
  (∀ opcode,
     unpack_opcode packet = Ok opcode
     ↔ 1 <= opcode <= 5 ∧ ∃ rest, packet = [x00; byte_of opcode] ++ rest)
  ∧ (unpack_opcode packet = Raise StructError ↔ (length packet < 2)%nat)
  ∧ (∀ e, unpack_opcode packet = Raise e →
          e = StructError ∨ ∃ msg, e = TFTPValueError msg).
Proof.
  split; [|split].
  - intros opcode. split.
    + intros H. destruct packet as [|b0 [|b1 r]]; try discriminate H.
      rewrite unpack_opcode_cons in H. cbv zeta in H.
      destruct (bool_decide _) eqn:Hd; [|discriminate H].
      injection H as H. apply bool_decide_eq_true_1 in Hd.
      unfold RRQ, WRQ, DAT, ACK, ERR in Hd.
      rewrite !elem_of_cons, elem_of_nil in Hd.
      assert (Hr : 1 <= opcode <= 5) by lia. split; [exact Hr|].
      destruct (opcode_bytes b0 b1 opcode ltac:(lia) H) as [-> ->].
      exists r. reflexivity.
    + intros [Hr [rest ->]]. cbn [app]. rewrite unpack_opcode_cons. cbv zeta.
      rewrite byte_val_of by lia. change (byte_val x00) with 0.
      rewrite bool_decide_eq_true_2; [reflexivity|].
      unfold RRQ, WRQ, DAT, ACK, ERR. rewrite !elem_of_cons, elem_of_nil. lia.
  - split.
    + intros H. destruct packet as [|b0 [|b1 r]]; cbn [length]; try lia.
      rewrite unpack_opcode_cons in H. cbv zeta in H.
      destruct (bool_decide _); discriminate H.
    + apply unpack_opcode_short.
  - intros e H. exact (unpack_opcode_raises _ _ H).
Qed.

(** X15. [pack_ack] and [unpack_ack] are inverse of each other: a packet
    decodes to a block number exactly when it is the encoding of that
    number.  An Ack is four bytes and no more: with anything after
    them, the decoder lets [struct] raise its error. *)
Theorem ack_codec_inverse (packet : bytes) (block_number : Z) :
  (unpack_ack packet = Ok block_number ↔ pack_ack block_number = Ok packet)
  ∧ (pack_ack block_number = Ok packet →
     ∀ b extra, unpack_ack (packet ++ b :: extra) = Raise StructError).
Proof.
  split; [split|].
  - intros H. destruct (unpack_ack_fields _ _ H) as [Hb Hl].
    destruct packet as [|b0 [|b1 [|b2 [|b3 [|b4 r]]]]]; try discriminate Hl.
    unfold unpack_ack in H. rewrite unpack_HH_value, bind_Ok in H.
    destruct (Z.eqb_spec (byte_val b0 * 256 + byte_val b1) ACK) as [Ho|];
      [|discriminate H].
    injection H as <-. rewrite pack_ack_wire by exact Hb.
    rewrite uint16_be_bytes.
    destruct (opcode_bytes b0 b1 ACK ltac:(unfold ACK; lia) Ho) as [-> ->].
    reflexivity.
  - intros H. destruct (decide (0 <= block_number <= 65535)) as [Hb|Hb].
    + rewrite pack_ack_wire in H by exact Hb. injection H as <-.
      apply unpack_ack_wire, Hb.
    + rewrite pack_ack_invalid in H by exact Hb. discriminate H.
  - intros H b extra. destruct (decide (0 <= block_number <= 65535)) as [Hb|Hb].
    + rewrite pack_ack_wire in H by exact Hb. injection H as <-. reflexivity.
    + rewrite pack_ack_invalid in H by exact Hb. discriminate H.
Qed.

Lemma ack_codec_inverse_witness :
  pack_ack 258 = Ok [x00; x04; x01; x02]
  ∧ unpack_ack ([x00; x04; x01; x02] ++ [x00]) = Raise StructError.
Proof.
  assert (H : pack_ack 258 = Ok [x00; x04; x01; x02]) by (vm_compute; reflexivity).
  split; [exact H|].
  exact (proj2 (ack_codec_inverse [x00; x04; x01; x02] 258) H x00 []).
Defined.

(** X16. [pack_dat] and [unpack_dat] are inverse of each other on the
    packets of at most 516 bytes: such a packet decodes to a block
    number and a payload exactly when it is the encoding of the two. *)
Theorem dat_codec_inverse (packet : bytes) (block_number : Z) (data : bytes) :
  pack_dat block_number data = Ok packet
  ↔ unpack_dat packet = Ok (block_number, data) ∧ len packet <= 516.
Proof.
  split.
  - intros H.
    destruct (decide (0 <= block_number <= 65535)) as [Hb|Hb];
      [|destruct (pack_dat_invalid block_number data (or_introl Hb)) as [msg Hm];
        rewrite Hm in H; discriminate H].
    destruct (decide (len data <= 512)) as [Hd|Hd];
      [|assert (Hlong : 512 < len data) by lia;
        destruct (pack_dat_invalid block_number data (or_intror Hlong))
          as [msg Hm];
        rewrite Hm in H; discriminate H].
    rewrite pack_dat_wire in H by assumption. injection H as <-.
    split; [apply unpack_dat_wire, Hb|].
    unfold len in *. cbn [length app uint16_be]. lia.
  - intros [H Hl]. destruct (unpack_dat_fields _ _ _ H) as [Hb Hd].
    destruct packet as [|b0 [|b1 [|b2 [|b3 r]]]]; try discriminate H.
    unfold unpack_dat in H. rewrite header_fields, bind_Ok in H.
    destruct (Z.eqb_spec (byte_val b0 * 256 + byte_val b1) DAT) as [Ho|];
      [|discriminate H].
    cbn [negb] in H. injection H as <- _. subst data. cbn [drop].
    rewrite drop_0.
    rewrite pack_dat_wire; [|exact Hb|unfold len in *; cbn [length] in Hl; lia].
    rewrite uint16_be_bytes.
    destruct (opcode_bytes b0 b1 DAT ltac:(unfold DAT; lia) Ho) as [-> ->].
    reflexivity.
Qed.

(** X17. What [unpack_err] accepts: the opcode 5, any 16-bit error code,
    then a message in UTF-8 followed by one more byte, which is dropped
    whatever it is; the four bytes of the header alone stand for the
    empty message.  The codes above 7, which [pack_err] refuses, are
    decoded like the others. *)
Theorem unpack_err_accepts (packet : bytes) (error_code : Z) (error_msg : str) :
  (unpack_err packet = Ok (error_code, error_msg)
   ↔ 0 <= error_code <= 65535
     ∧ ∃ body,
         Utf8.decode body = Ok error_msg
         ∧ ((body = [] ∧ packet = [x00; x05] ++ uint16_be error_code)
            ∨ ∃ last, packet = [x00; x05] ++ uint16_be error_code ++ body ++ [last]))
  ∧ (unpack_err packet = Ok (error_code, error_msg) → 7 < error_code →
     ∃ msg, pack_err error_code (Some error_msg) = Raise (TFTPValueError msg)).
Proof.
  split; [split|].
  - intros H. unfold unpack_err in H.
    destruct packet as [|b0 [|b1 [|b2 [|b3 r]]]]; try discriminate H.
    rewrite header_fields, bind_Ok in H.
    destruct (Z.eqb_spec (byte_val b0 * 256 + byte_val b1) ERR) as [Ho|];
      [|discriminate H].
    cbn [negb] in H.
    destruct (opcode_bytes b0 b1 ERR ltac:(unfold ERR; lia) Ho) as [-> ->].
    pose proof (byte_val_range b2). pose proof (byte_val_range b3).
    destruct r as [|b r _] using rev_ind.
    + change (slice [x00; byte_of ERR; b2; b3] (Some 4) (Some (-1)))
        with (@nil byte) in H.
      cbn in H. injection H as <- <-. split; [lia|].
      exists []. split; [reflexivity|]. left. split; [reflexivity|].
      rewrite uint16_be_bytes. reflexivity.
    + replace (x00 :: byte_of ERR :: b2 :: b3 :: r ++ [b])
        with ([x00; byte_of ERR; b2; b3] ++ r ++ [b]) in H by reflexivity.
      rewrite slice_until_last in H by reflexivity.
      destruct (Utf8.decode r) as [m|e] eqn:Ed; [|discriminate H].
      rewrite bind_Ok in H. injection H as <- <-. split; [lia|].
      exists r. split; [exact Ed|]. right. exists b.
      rewrite uint16_be_bytes. reflexivity.
  - intros (Hc & body & Hm & [[-> ->]|[last ->]]).
    + unfold unpack_err. change [x00; x05] with (uint16_be ERR).
      rewrite <- (app_nil_r (uint16_be error_code)) at 1.
      rewrite header_fields_uint16 by (unfold ERR; lia). rewrite bind_Ok.
      cbn [negb Z.eqb ERR Pos.eqb]. unfold uint16_be. cbn [app].
      change (slice _ (Some 4) (Some (-1))) with (@nil byte).
      cbn in Hm. injection Hm as <-. reflexivity.
    + apply unpack_err_wire; assumption.
  - intros _ Hc. eexists. apply pack_err_invalid. lia.
Qed.

Lemma unpack_err_accepts_witness :
  unpack_err [x00; x05; x01; x00; x41; xff] = Ok (256, [65])
  ∧ ∃ msg, pack_err 256 (Some [65]) = Raise (TFTPValueError msg).
Proof.
  assert (H : unpack_err [x00; x05; x01; x00; x41; xff] = Ok (256, [65]))
    by (vm_compute; reflexivity).
  split; [exact H|].
  exact (proj2 (unpack_err_accepts [x00; x05; x01; x00; x41; xff] 256 [65]) H
           ltac:(lia)).
Defined.

(** ** Where the datagrams come from *)

Lemma arriving_from_cons (a : addr) (dgram : bytes) (src : addr)
    (inbox : list datagram) :
  arriving_from a ((dgram, src) :: inbox) = (dgram, a) :: arriving_from a inbox.
Proof. reflexivity. Qed.

Lemma get_file_loop_any_source (local_filename : str) (a : addr)
    (inbox : list datagram) :
  ∀ (block_number file_size : Z) (w w' : world),
    (sent w').*1 = (sent w).*1 → files w' = files w →
    stdout w' = stdout w → pbar w' = pbar w →
    let g := get_file_loop local_filename inbox block_number file_size w in
    let g' := get_file_loop local_filename (arriving_from a inbox)
                block_number file_size w' in
    g'.1.1 = g.1.1 ∧ (sent g'.1.2).*1 = (sent g.1.2).*1
    ∧ files g'.1.2 = files g.1.2 ∧ stdout g'.1.2 = stdout g.1.2
    ∧ pbar g'.1.2 = pbar g.1.2 ∧ g'.2 = arriving_from a g.2.
Proof.
  induction inbox as [|[dgram src] inbox IH];
    intros block_number file_size w w' Hs Hf Ho Hp g g'; subst g g'.
  - change (arriving_from a []) with (@nil datagram).
    rewrite !get_file_loop_timeout. cbn [fst snd sent files stdout pbar].
    rewrite Ho. repeat split; assumption.
  - rewrite arriving_from_cons.
    destruct (get_file_expected_dec block_number (received DEFAULT_BUFFER_SIZE dgram))
      as [(data & Hop & Hu)|Hn].
    + rewrite !(get_file_loop_data _ _ _ _ _ _ _ _ Hop Hu). cbv zeta.
      destruct (len data <? 512).
      * cbn [fst snd sent files stdout pbar].
        rewrite !fmap_app, Hs, Hf, Hp. repeat split; assumption.
      * apply IH; cbn [sent files stdout pbar].
        -- rewrite !fmap_app, Hs. reflexivity.
        -- rewrite Hf. reflexivity.
        -- exact Ho.
        -- rewrite Hp. reflexivity.
    + destruct (get_file_step_rejects block_number _ Hn) as (e & Hstep & Hr).
      cbn [get_file_loop]. unfold exit_on_exception. rewrite !Hstep.
      cbn [handle_exception]. rewrite (proj1 (rejection_is_Exception _ _ _ Hr)).
      cbn [fst snd sent files stdout pbar]. rewrite Ho.
      repeat split; assumption.
Qed.

Lemma put_file_loop_any_source (a : addr) (inbox : list datagram) :
  ∀ (in_file : bytes) (block_number : Z) (w w' : world),
    (sent w').*1 = (sent w).*1 → files w' = files w →
    stdout w' = stdout w → pbar w' = pbar w →
    let p := put_file_loop inbox in_file block_number w in
    let p' := put_file_loop (arriving_from a inbox) in_file block_number w' in
    p'.1.1 = p.1.1 ∧ (sent p'.1.2).*1 = (sent p.1.2).*1
    ∧ files p'.1.2 = files p.1.2 ∧ stdout p'.1.2 = stdout p.1.2
    ∧ pbar p'.1.2 = pbar p.1.2 ∧ p'.2 = arriving_from a p.2.
Proof.
  induction inbox as [|[dgram src] inbox IH];
    intros in_file block_number w w' Hs Hf Ho Hp p p'; subst p p'.
  - cbn [arriving_from fmap list_fmap put_file_loop fst snd].
    repeat split; assumption.
  - rewrite arriving_from_cons.
    destruct (put_file_expected_dec block_number (received DEFAULT_BUFFER_SIZE dgram))
      as [[Hop Hu]|Hn].
    + destruct (unpack_ack_fields _ _ Hu) as [Hb _].
      destruct (decide (block_number < 65535)) as [Hlt|Hge].
      * rewrite !(put_file_loop_ack _ _ _ _ _ _ Hop Hu Hlt). cbv zeta.
        destruct (len (take 512 in_file) <? 512).
        -- cbn [fst snd sent files stdout pbar].
           rewrite !fmap_app, Hs, Hp. repeat split; assumption.
        -- apply IH; cbn [sent files stdout pbar].
           ++ rewrite !fmap_app, Hs. reflexivity.
           ++ exact Hf.
           ++ exact Ho.
           ++ rewrite Hp. reflexivity.
      * assert (block_number = 65535) as -> by lia.
        rewrite !(put_file_loop_ack_last _ _ _ _ _ Hop Hu).
        cbn [fst snd]. repeat split; assumption.
    + destruct (put_file_step_rejects block_number _ Hn) as (e & Hstep & _).
      cbn [put_file_loop]. rewrite !Hstep. cbn [fst snd].
      repeat split; assumption.
Qed.

(** X18. No transfer checks where a datagram comes from: the address
    returned by [recvfrom] is only used as the destination of the
    answer.  Received from any one address instead of their own
    senders, the same datagrams give [get_file] and [put_file] the same
    result, the same files, the same printed lines and the same
    datagrams to send, in the same order. *)
Theorem transfers_any_source {env : Env} (server : str) (port : Z)
    (remote_filename local_filename : str) (inbox : list datagram) (w : world)
    (a : addr) :
  (let g := get_file server port remote_filename local_filename inbox w in
   let g' := get_file server port remote_filename local_filename
               (arriving_from a inbox) w in
   g'.1.1 = g.1.1 ∧ (sent g'.1.2).*1 = (sent g.1.2).*1
   ∧ files g'.1.2 = files g.1.2 ∧ stdout g'.1.2 = stdout g.1.2
   ∧ g'.2 = arriving_from a g.2)
  ∧ (let p := put_file server port local_filename remote_filename inbox w in
     let p' := put_file server port local_filename remote_filename
                 (arriving_from a inbox) w in
     p'.1.1 = p.1.1 ∧ (sent p'.1.2).*1 = (sent p.1.2).*1
     ∧ files p'.1.2 = files p.1.2 ∧ stdout p'.1.2 = stdout p.1.2
     ∧ p'.2 = arriving_from a p.2).
Proof.
  split.
  - intros g g'. subst g g'.
    destruct (is_ascii_printable remote_filename) eqn:Hf.
    + destruct (sendto_error (server, port)) as [e0|] eqn:Hse.
      { rewrite !(get_file_sendto_raises _ _ _ _ _ _ e0) by assumption.
        cbn [fst snd]. repeat split; reflexivity. }
      destruct (open_error local_filename) as [e0|] eqn:Hoe.
      { rewrite !(get_file_open_raises _ _ _ _ _ _ e0) by assumption.
        cbn [fst snd]. repeat split; reflexivity. }
      rewrite !get_file_start by assumption.
      match goal with
      | |- context [get_file_loop _ inbox ?b ?f ?u] =>
          pose proof (get_file_loop_any_source local_filename a inbox b f u u
                        eq_refl eq_refl eq_refl eq_refl) as H
      end.
      cbv zeta in H. tauto.
    + rewrite !get_file_invalid_name by exact Hf. cbn [fst snd].
      repeat split; reflexivity.
  - intros p p'. subst p p'. unfold put_file. cbv zeta.
    match goal with
    | |- context [match ?m w with _ => _ end] => destruct (m w) as [[in_file|e] w0]
    end.
    + pose proof (put_file_loop_any_source a inbox in_file 0 w0 w0
                    eq_refl eq_refl eq_refl eq_refl) as H.
      cbv zeta in H.
      destruct (put_file_loop inbox in_file 0 w0) as [[r w1] i1].
      destruct (put_file_loop (arriving_from a inbox) in_file 0 w0) as [[r' w1'] i1'].
      cbn [fst snd] in H. destruct H as (-> & Hs & Hfl & Ho & Hp & ->).
      destruct r as [b|e]; cbn [handle_exception];
        [|destruct (is_Exception e)]; cbn [fst snd sent files stdout pbar];
        rewrite ?Ho; repeat split; assumption.
    + cbn [handle_exception]. destruct (is_Exception e);
        cbn [fst snd]; repeat split; reflexivity.
Qed.

(** ** Data blocks longer than the protocol allows *)

(** X19. [get_file] does not check the length of a block.  A Data packet
    with the expected number and 512 bytes or more is written and
    acknowledged like a full block, and the transfer goes on; of a
    datagram longer than the receive buffer only the first 1024 bytes
    are seen, so at most 1020 bytes of its payload reach the file. *)
Theorem get_file_long_block (local_filename : str) (block_number file_size : Z)
    (payload : bytes) (a : addr) (inbox : list datagram) (w : world) :
  0 <= block_number <= 65535 →
  512 <= len payload →
  let written := take 1020 payload in
  get_file_loop local_filename
    (([x00; x03] ++ uint16_be block_number ++ payload, a) :: inbox)
    block_number file_size w
  = get_file_loop local_filename inbox (block_number + 1)
      (file_size + len written)
      (World (sent w ++ [([x00; x04] ++ uint16_be block_number, a)])
             (<[local_filename := default [] (files w !! local_filename) ++ written]>
                (files w))
             (stdout w) (pbar w + len written))
  ∧ 512 <= len written <= 1020.
Proof.
  intros Hb Hl written.
  assert (Hw : 512 <= len written <= 1020).
  { subst written. unfold len in *. rewrite length_take. lia. }
  split; [|exact Hw].
  assert (Hr : received DEFAULT_BUFFER_SIZE
                 ([x00; x03] ++ uint16_be block_number ++ payload)
               = [x00; x03] ++ uint16_be block_number ++ written).
  { unfold received, DEFAULT_BUFFER_SIZE, uint16_be. cbn [app].
    change (Z.to_nat 1024) with (4 + 1020)%nat. reflexivity. }
  assert (Ho : unpack_opcode (received DEFAULT_BUFFER_SIZE
                                ([x00; x03] ++ uint16_be block_number ++ payload))
               = Ok DAT).
  { rewrite Hr. change [x00; x03] with (uint16_be DAT).
    apply unpack_opcode_uint16. rewrite !elem_of_cons. tauto. }
  assert (Hu : unpack_dat (received DEFAULT_BUFFER_SIZE
                             ([x00; x03] ++ uint16_be block_number ++ payload))
               = Ok (block_number, written)).
  { rewrite Hr. apply unpack_dat_wire, Hb. }
  rewrite (get_file_loop_data _ _ _ _ _ _ _ _ Ho Hu). cbv zeta.
  destruct (Z.ltb_spec (len written) 512); [lia|]. reflexivity.
Qed.

Lemma get_file_long_block_witness :
  512 <= len (replicate 2000 x41)
  ∧ files (get_file_loop (py "out")
             [([x00; x03] ++ uint16_be 1 ++ replicate 2000 x41, (py "srv", 4021));
              ([x00; x03] ++ uint16_be 2, (py "srv", 4021))]
             1 0 (World [] {[ py "out" := [] ]} [] 0)).1.2
    = {[ py "out" := replicate 1020 x41 ]}.
Proof.
  assert (Hl : 512 <= len (replicate 2000 x41)) by (vm_compute; discriminate).
  split; [exact Hl|].
  rewrite (proj1 (get_file_long_block (py "out") 1 0 (replicate 2000 x41)
                    (py "srv", 4021)
                    [([x00; x03] ++ uint16_be 2, (py "srv", 4021))]
                    (World [] {[ py "out" := [] ]} [] 0) ltac:(lia) Hl)).
  vm_compute. reflexivity.
Defined.

(** ** The commands [get] and [put] of the client *)

Lemma main_get_probe_false {env : Env} (server : str) (server_port : Z)
    (remote_file : str) (arg_local_file : option str)
    (probe_inbox inbox : list datagram) (w w1 : world) (rest : list datagram) :
  check_remote_file server server_port remote_file probe_inbox w
  = (Ok false, w1, rest) →
  main_get server server_port remote_file arg_local_file probe_inbox inbox w
  = (Raise (SystemExit 1),
     World (sent w1) (files w1)
           (stdout w1 ++ [Text (py "Error: The remote file '" ++ remote_file
                                ++ py "' does not exist on the server.")])
           (pbar w1)).
Proof. intros H. unfold main_get. cbv zeta. unalias. rewrite H. reflexivity. Qed.

(** X20. The command [get], for a remote name that is printable and a
    server address that [sendto] accepts.  The file is asked for twice,
    on two sockets: once to probe, once to transfer.  When the probe
    gets no answer, or an Error packet with code 1, the command says
    that the remote file does not exist and exits with status 1; no
    local file is created or emptied.  When the probe gets a Data
    packet, which is never acknowledged, the local file can be opened
    and the server then sends the content block by block, the content is
    stored under the local name, or under the remote name when no local
    name is given, and the success is printed. *)
Theorem main_get_outcomes {env : Env} (server : str) (server_port : Z)
    (remote_file : str) (arg_local_file : option str) (dgram : bytes)
    (src : addr) (rest inbox rest' : list datagram) (body tail : bytes)
    (last : byte) (error_msg : str) (content : bytes) (a : addr) (w : world) :
  is_ascii_printable remote_file = true →
  sendto_error (server, server_port) = None →
  let rrq := ([x00; x01] ++ ascii_bytes remote_file ++ [x00]
              ++ ascii_bytes DEFAULT_MODE ++ [x00], (server, server_port)) in
  let local_file := default remote_file arg_local_file in
  let missing :=
    (Raise (SystemExit 1),
     World (sent w ++ [rrq]) (files w)
           (stdout w ++ [Text (py "Error: The remote file '" ++ remote_file
                               ++ py "' does not exist on the server.")])
           (pbar w)) in
  main_get server server_port remote_file arg_local_file [] inbox w = missing
  ∧ (received DEFAULT_BUFFER_SIZE dgram
     = [x00; x05; x00; x01] ++ body ++ [last] →
     Utf8.decode body = Ok error_msg →
     main_get server server_port remote_file arg_local_file
       ((dgram, src) :: rest) inbox w = missing)
  ∧ (received DEFAULT_BUFFER_SIZE dgram = [x00; x03] ++ tail →
     open_error local_file = None →
     len content < 512 * 65535 →
     main_get server server_port remote_file arg_local_file
       ((dgram, src) :: rest) (data_sequence 1 content a ++ rest') w
     = (Ok (),
        World (sent w ++ [rrq; rrq] ++ ack_sequence 1 (S (length content / 512)) a)
              (<[local_file := content]> (files w))
              (stdout w
               ++ [Text (py "Downloading '" ++ remote_file
                         ++ py "' from server " ++ server ++ py "...");
                   Text (py "File '" ++ remote_file ++ py "' downloaded as '"
                         ++ local_file ++ py "'")])
              (len content))).
Proof.
  intros Hf Hse rrq local_file missing. subst rrq local_file missing.
  split; [|split].
  - assert (Hp : check_remote_file server server_port remote_file [] w
                 = (Ok false,
                    World (sent w
                           ++ [([x00; x01] ++ ascii_bytes remote_file ++ [x00]
                                  ++ ascii_bytes DEFAULT_MODE ++ [x00],
                                (server, server_port))])
                          (files w) (stdout w) (pbar w), []))
      by (rewrite check_remote_file_sent by assumption; reflexivity).
    rewrite (main_get_probe_false _ _ _ arg_local_file _ inbox _ _ _ Hp).
    reflexivity.
  - intros Hp He.
    assert (Hq : check_remote_file server server_port remote_file
                   ((dgram, src) :: rest) w
                 = (Ok false,
                    World (sent w
                           ++ [([x00; x01] ++ ascii_bytes remote_file ++ [x00]
                                  ++ ascii_bytes DEFAULT_MODE ++ [x00],
                                (server, server_port))])
                          (files w) (stdout w) (pbar w), rest)).
    { rewrite check_remote_file_sent by assumption. cbv zeta.
      rewrite Hp, check_remote_file_reply_error, He. reflexivity. }
    rewrite (main_get_probe_false _ _ _ arg_local_file _ inbox _ _ _ Hq).
    reflexivity.
  - intros Hp Hoe Hlen. unfold main_get. cbv zeta.
    rewrite check_remote_file_sent by assumption. cbv zeta.
    rewrite Hp, check_remote_file_reply_data.
    rewrite get_file_start by assumption.
    assert (Hn : Z.of_nat (length content / 512) < 65535)
      by (destruct (length_div_512 content); unfold len in Hlen; lia).
    rewrite (get_file_loop_data_sequence _ _ _ _ _ _ _ []);
      [|apply lookup_insert_eq|lia|lia].
    unfold print. cbn [sent files stdout pbar app].
    rewrite insert_insert_eq, <- !app_assoc. reflexivity.
Qed.

Lemma main_get_outcomes_witness :
  is_ascii_printable (py "f.bin") = true
  ∧ sendto_error (Env := example_env) (py "host", 69) = None
  ∧ main_get (env := example_env) (py "host") 69 (py "f.bin") None [] []
      (World [] ∅ [] 0)
    = (Raise (SystemExit 1),
       World ([] ++ [([x00; x01] ++ ascii_bytes (py "f.bin") ++ [x00]
                        ++ ascii_bytes DEFAULT_MODE ++ [x00], (py "host", 69))])
             ∅
             ([] ++ [Text (py "Error: The remote file '" ++ py "f.bin"
                           ++ py "' does not exist on the server.")])
             0).
Proof.
  assert (Hf : is_ascii_printable (py "f.bin") = true) by (vm_compute; reflexivity).
  split; [exact Hf|]. split; [reflexivity|].
  exact (proj1 (main_get_outcomes (env := example_env)
                  (py "host") 69 (py "f.bin") None [] (py "", 0)
                  [] [] [] [] [] x00 [] [] (py "", 0) (World [] ∅ [] 0)
                  Hf eq_refl)).
Defined.

(** X21. The command [put].  A local file that does not exist is
    reported before anything is sent, and the command exits with
    status 1: [put_file] is not called.  When the file exists and the
    server acknowledges every block, the content is sent under the
    remote name, or under the local name when no remote name is given,
    and the success is printed. *)
Theorem main_put_outcomes (server : str) (server_port : Z) (local_file : str)
    (arg_remote_file : option str) (inbox rest : list datagram)
    (content : bytes) (a : addr) (w : world) :
  let remote_file := default local_file arg_remote_file in
  (files w !! local_file = None →
   main_put server server_port local_file arg_remote_file inbox w
   = (Raise (SystemExit 1),
      World (sent w) (files w)
            (stdout w ++ [Text (py "Error: The local file '" ++ local_file
                                ++ py "' does not exist.")])
            (pbar w)))
  ∧ (files w !! local_file = Some content →
     is_ascii_printable remote_file = true →
     len content < 512 * 65535 →
     main_put server server_port local_file arg_remote_file
       (ack_sequence 0 (S (length content / 512)) a ++ rest) w
     = (Ok (),
        World (sent w
               ++ [([x00; x02] ++ ascii_bytes remote_file ++ [x00]
                      ++ ascii_bytes DEFAULT_MODE ++ [x00], (server, server_port))]
               ++ data_sequence 1 content a)
              (files w)
              (stdout w
               ++ [Text (py "Uploading '" ++ local_file ++ py "' ("
                         ++ str_of_int (len content)
                         ++ py " bytes) to server at " ++ server ++ py "...");
                   Text (py "File '" ++ local_file ++ py "' uploaded as '"
                         ++ remote_file ++ py "'")])
              (len content))).
Proof.
  intros remote_file. subst remote_file. split.
  - intros Hc. unfold main_put. cbv zeta. unalias. rewrite Hc.
    rewrite bool_decide_eq_false_2 by (intros [x [=]]). reflexivity.
  - intros Hc Hf Hlen. unfold main_put. cbv zeta.
    rewrite bool_decide_eq_true_2 by (unalias; rewrite Hc; eauto).
    cbn [negb].
    assert (Hn : Z.of_nat (length content / 512) < 65534 + 1)
      by (destruct (length_div_512 content); unfold len in Hlen; lia).
    rewrite (put_file_start _ _ _ _ content) by assumption.
    rewrite put_file_loop_ack_sequence by lia.
    cbn [handle_exception]. unfold print. cbn [sent files stdout pbar].
    unalias. rewrite <- !app_assoc. reflexivity.
Qed.

Lemma main_put_outcomes_witness :
  (∅ : gmap str bytes) !! py "in.bin" = None
  ∧ main_put (py "host") 69 (py "in.bin") None [] (World [] ∅ [] 0)
    = (Raise (SystemExit 1),
       World [] ∅
             ([] ++ [Text (py "Error: The local file '" ++ py "in.bin"
                           ++ py "' does not exist.")])
             0).
Proof.
  assert (Hc : (∅ : gmap str bytes) !! py "in.bin" = None) by reflexivity.
  split; [exact Hc|].
  exact (proj1 (main_put_outcomes (py "host") 69 (py "in.bin") None [] [] []
                  (py "", 0) (World [] ∅ [] 0)) Hc).
Defined.
